(** * businesssearcher: listing triage pipeline

  A shallow embedding of the parts of the business searcher that its
  specification makes promises about:

  - [PyStr]       the Python string operations the code relies on;
  - [Listing]     models/listing.py: the listing record, the stored row,
                  the filter configuration and [ListingFilter.evaluate];
  - [Repository]  models/repository.py: [ListingRepository] over a table
                  of rows, and [PrefilterService];
  - [Cli]         the filtering loops of main.py and daily_run.py;
  - [Seek]        fetchers/seek.py: the fetch orchestrator, run against a
                  script of page-load outcomes.

  Conventions.  Python [str] is [string] (a byte string; [lower] acts on
  the ASCII letters).  Python [int] is [Z].  A naive [datetime] is a
  number of microseconds.  [int / int] (true division) is the exact
  quotient in [Q]; the rounding to a float is not modelled.  The clock
  ([datetime.utcnow()]) is an explicit argument [now]. *)

From Stdlib Require Import ZArith QArith String Ascii List Bool Lia.
From Stdlib Require Import DecimalString Sorted.
From stdpp Require Import base decidable list strings gmap.
Import ListNotations.

Local Open Scope string_scope.

(* ===================================================================== *)
(** ** Python strings *)
(* ===================================================================== *)

Module PyStr.

(** [c.lower()] on one ASCII character. *)
Definition lower_ascii (c : ascii) : ascii :=
  let n := nat_of_ascii c in
  if (65 <=? n)%nat && (n <=? 90)%nat then ascii_of_nat (n + 32) else c.

(** [s.lower()]. *)
Fixpoint lower (s : string) : string :=
  match s with
  | EmptyString => EmptyString
  | String c t => String (lower_ascii c) (lower t)
  end.

(** [needle in hay]. *)
Fixpoint str_in (needle hay : string) : bool :=
  String.prefix needle hay
  || match hay with
     | EmptyString => false
     | String _ t => str_in needle t
     end.

(** [str(n)]. *)
Definition str_of_int (n : Z) : string :=
  NilZero.string_of_int (Z.to_int n).

(** Digits from the least significant one, a comma before every fourth. *)
Fixpoint commas_rev (ds : list ascii) (k : nat) : list ascii :=
  match ds with
  | [] => []
  | d :: rest =>
      match k with
      | O => ","%char :: d :: commas_rev rest 2
      | S k' => d :: commas_rev rest k'
      end
  end.

(** [f"{n:,}"]. *)
Definition format_commas (n : Z) : string :=
  let digits := list_ascii_of_string (str_of_int (Z.abs n)) in
  let grouped := string_of_list_ascii (rev (commas_rev (rev digits) 3)) in
  if (n <? 0)%Z then "-" ++ grouped else grouped.

(** Truth value of an [Optional[int]], of an [Optional[str]] and of an
    [Optional[List]]: [None], [0], [""] and [[]] are false. *)
Definition truthy_int (x : option Z) : bool :=
  match x with
  | Some z => negb (z =? 0)%Z
  | None => false
  end.

Definition truthy_str (x : option string) : bool :=
  match x with
  | Some s => negb (String.eqb s "")
  | None => false
  end.

Definition truthy_list {A} (x : option (list A)) : bool :=
  match x with
  | Some (_ :: _) => true
  | _ => false
  end.

End PyStr.

(* ===================================================================== *)
(** ** models/listing.py *)
(* ===================================================================== *)

Module Listing.
Import PyStr.

(** [class ListingStatus(str, Enum)]. *)
Inductive ListingStatus :=
| NEW | PREFILTER_PASS | PREFILTER_FAIL | RESEARCHING | COMPLETED | FAILED.

Definition status_value (s : ListingStatus) : string :=
  match s with
  | NEW => "new"
  | PREFILTER_PASS => "prefilter_pass"
  | PREFILTER_FAIL => "prefilter_fail"
  | RESEARCHING => "researching"
  | COMPLETED => "completed"
  | FAILED => "failed"
  end.

Definition status_eqb (a b : ListingStatus) : bool :=
  String.eqb (status_value a) (status_value b).

(** A [datetime]: microseconds since the epoch, naive or timezone aware. *)
Inductive datetime :=
| Naive (us : Z)
| Aware (us : Z).

(** A JSON-like Python value, for [raw_data]; a dict keeps its
    insertion order. *)
#[warnings="-register-all"] Inductive pyval :=
| PNone
| PBool (b : bool)
| PInt (z : Z)
| PStr (s : string)
| PDict (items : list (string * pyval)).

Definition of_opt_str (o : option string) : pyval :=
  match o with
  | Some s => PStr s
  | None => PNone
  end.

(** [d.get(key)] on a dict value. *)
Fixpoint assoc_get (key : string) (items : list (string * pyval)) : option pyval :=
  match items with
  | [] => None
  | (k, v) :: rest => if String.eqb k key then Some v else assoc_get key rest
  end.

Definition dict_get (key : string) (d : pyval) : option pyval :=
  match d with
  | PDict items => assoc_get key items
  | _ => None
  end.

(** [class BusinessListing(BaseModel)]. *)
Record BusinessListing := {
  id : string;
  source : string;
  title : string;
  description : option string;
  price : option Z;
  revenue : option Z;
  ebitda : option Z;
  location : option string;
  industry : option string;
  url : option string;
  posted_date : option datetime;
  raw_data : option pyval
}.

(** [class ListingORM(Base)]: one row of the table [listings]. *)
Record ListingORM := {
  orm_id : string;
  orm_source : string;
  orm_title : string;
  orm_description : option string;
  orm_price : option Z;
  orm_revenue : option Z;
  orm_ebitda : option Z;
  orm_location : option string;
  orm_industry : option string;
  orm_url : option string;
  orm_ebitda_margin : option Q;
  orm_asking_multiple : option Q;
  orm_status : ListingStatus;
  orm_first_seen_at : Z;
  orm_last_updated_at : Z;
  orm_processed_at : option Z;
  orm_posted_date : option datetime;
  orm_raw_data : option pyval;
  orm_research_findings : option pyval;
  orm_confidence_score : option Q;
  orm_scalability_score : option Z;
  orm_memo : option string
}.

(** [class ListingFilter(BaseModel)]. *)
Record ListingFilter := {
  max_price : Z;
  max_days_listed : option Z;
  preferred_industries : option (list string);
  excluded_industries : option (list string);
  excluded_title_keywords : option (list string);
  franchise_allowed_industries : option (list string)
}.

Definition default_excluded_industries : list string :=
  [ "retail"; "food & drink"; "coffee"; "cafe"; "restaurant"; "pub"; "bar";
    "accommodation"; "tourism"; "leisure"; "takeaway"; "hospitality";
    "franchise"; "master franchise"; "driving school"; "driving";
    "beauty"; "hair"; "spa"; "massage"; "pilates"; "gym"; "fitness"; "f45";
    "mechanic"; "automotive"; "tyre"; "car detailing";
    "electrical"; "electrical services"; "handyman"; "home services";
    "cleaning"; "maintenance"; "dry cleaning"; "laundromat"; "laundry";
    "fencing"; "sports"; "pest control";
    "taxi"; "transport"; "chauffeur"; "courier"; "freight"; "truck";
    "pet grooming"; "dog grooming";
    "garden"; "lawn"; "mowing"; "nursery"; "landscaping";
    "removals"; "air conditioning"; "air-con"; "carpet"; "flooring";
    "refund" ].

Definition default_excluded_title_keywords : list string :=
  [ "franchise"; "pest control"; "driving school"; "driving"; "massage";
    "pilates"; "gym"; "fitness"; "f45"; "beauty"; "hair salon";
    "dry cleaning"; "laundromat"; "laundry"; "handyman"; "garden"; "lawn";
    "mowing"; "nursery"; "courier"; "taxi"; "refund"; "dog grooming";
    "pet grooming" ].

Definition default_franchise_allowed_industries : list string :=
  [ "mortgage"; "finance"; "insurance"; "legal"; "accounting";
    "business services"; "real estate" ].

(** [ListingFilter(max_price=max_price)]; the class default is
    [max_price = 1_000_000]. *)
Definition make_filter (max_price : Z) : ListingFilter :=
  {| max_price := max_price;
     max_days_listed := Some 60%Z;
     preferred_industries := None;
     excluded_industries := Some default_excluded_industries;
     excluded_title_keywords := Some default_excluded_title_keywords;
     franchise_allowed_industries := Some default_franchise_allowed_industries |}.

Definition default_filter : ListingFilter := make_filter 1000000.

(** The state [evaluate] threads through its checks: [passes], [reasons]. *)
Definition verdict : Type := bool * list string.

(** [passes = False; reasons.append(r)]. *)
Definition fail (v : verdict) (r : string) : verdict := (false, (snd v ++ [r])%list).

Definition or_empty {A} (o : option (list A)) : list A :=
  match o with
  | Some l => l
  | None => []
  end.

(** The loop over [self.excluded_industries]: the first keyword whose
    lower-case form occurs in the lower-cased industry gives the reason,
    then [break]. *)
Fixpoint industry_loop (excl : list string) (ind : string) : option string :=
  match excl with
  | [] => None
  | excluded :: rest =>
      if str_in (lower excluded) (lower ind)
      then Some ("Industry '" ++ ind ++ "' matches exclusion '" ++ excluded ++ "'")
      else industry_loop rest ind
  end.

(** [any(allowed in industry_lower for allowed in ...)]: the allowed
    entries are compared as they are configured. *)
Definition is_allowed_franchise (allowed : list string) (industry_lower : string) : bool :=
  existsb (fun a => str_in a industry_lower) allowed.

(** The loop over [self.excluded_title_keywords]. *)
Fixpoint title_loop (kws allowed : list string) (title_lower industry_lower : string)
  : option string :=
  match kws with
  | [] => None
  | excluded :: rest =>
      if str_in (lower excluded) title_lower then
        if String.eqb (lower excluded) "franchise" then
          if is_allowed_franchise allowed industry_lower
          then title_loop rest allowed title_lower industry_lower   (* continue *)
          else Some ("Title contains excluded keyword '" ++ excluded ++ "'")
        else Some ("Title contains excluded keyword '" ++ excluded ++ "'")
      else title_loop rest allowed title_lower industry_lower
  end.

(** [(datetime.utcnow() - posted).days]; subtracting an aware datetime
    from the naive [utcnow()] raises [TypeError], here [None]. *)
Definition us_per_day : Z := 86400000000.

Definition days_listed (now : Z) (posted : datetime) : option Z :=
  match posted with
  | Naive us => Some ((now - us) / us_per_day)%Z
  | Aware _ => None
  end.

Definition price_check (self : ListingFilter) (listing : BusinessListing) (v : verdict) : verdict :=
  match price listing with
  | Some p =>
      if negb (p =? 0)%Z && (p >? max_price self)%Z
      then fail v ("Price $" ++ format_commas p ++ " exceeds max $"
                     ++ format_commas (max_price self))
      else v
  | None => v
  end.

Definition industry_check (self : ListingFilter) (listing : BusinessListing) (v : verdict) : verdict :=
  if truthy_list (excluded_industries self) && truthy_str (industry listing) then
    match industry_loop (or_empty (excluded_industries self))
                        (default "" (industry listing)) with
    | Some r => fail v r
    | None => v
    end
  else v.

Definition title_check (self : ListingFilter) (listing : BusinessListing) (v : verdict) : verdict :=
  if truthy_list (excluded_title_keywords self) && negb (String.eqb (title listing) "") then
    let title_lower := lower (title listing) in
    let industry_lower := lower (default "" (industry listing)) in
    match title_loop (or_empty (excluded_title_keywords self))
                     (or_empty (franchise_allowed_industries self))
                     title_lower industry_lower with
    | Some r => fail v r
    | None => v
    end
  else v.

Definition freshness_check (now : Z) (self : ListingFilter) (listing : BusinessListing)
                           (v : verdict) : verdict :=
  match max_days_listed self, posted_date listing with
  | Some m, Some posted =>
      if negb (m =? 0)%Z then
        match days_listed now posted with
        | Some d =>
            if (d >? m)%Z
            then fail v ("Listed " ++ str_of_int d ++ " days ago (max "
                           ++ str_of_int m ++ ")")
            else v
        | None => v       (* except (ValueError, TypeError): pass *)
        end
      else v
  | _, _ => v
  end.

(** [ListingFilter.evaluate], called when the clock reads [now]. *)
Definition evaluate (now : Z) (self : ListingFilter) (listing : BusinessListing) : verdict :=
  let v := (true, []) in
  let v := price_check self listing v in
  let v := industry_check self listing v in
  let v := title_check self listing v in
  let v := freshness_check now self listing v in
  v.

(** The check a reason comes from, read off its fixed opening words. *)
Inductive reason_kind := KPrice | KIndustry | KTitle | KFreshness.

Definition kind_rank (k : reason_kind) : nat :=
  match k with
  | KPrice => 0
  | KIndustry => 1
  | KTitle => 2
  | KFreshness => 3
  end.

Definition reason_kind_of (r : string) : option reason_kind :=
  if String.prefix "Price $" r then Some KPrice
  else if String.prefix "Industry '" r then Some KIndustry
  else if String.prefix "Title contains excluded keyword '" r then Some KTitle
  else if String.prefix "Listed " r then Some KFreshness
  else None.

(** A verdict passes exactly when it has no reason, has at most one
    reason of a kind, and has its reasons in the order price, industry,
    title, freshness. *)
Definition ordered_verdict (v : verdict) : Prop :=
  fst v = match snd v with [] => true | _ :: _ => false end
  /\ exists kinds : list reason_kind,
       Forall2 (fun r k => reason_kind_of r = Some k) (snd v) kinds
       /\ StronglySorted (fun a b => (kind_rank a < kind_rank b)%nat) kinds.

(** The reasons so far are in order and of kinds below rank [k]. *)
Definition ordered_below (k : nat) (v : verdict) : Prop :=
  fst v = match snd v with [] => true | _ :: _ => false end
  /\ exists kinds : list reason_kind,
       Forall2 (fun r kd => reason_kind_of r = Some kd) (snd v) kinds
       /\ StronglySorted (fun a b => (kind_rank a < kind_rank b)%nat) kinds
       /\ Forall (fun kd => (kind_rank kd < k)%nat) kinds.

(** The whole days since the listing was posted, as [evaluate] would
    compute them at [now]; [None] when it would not. *)
Definition days_since_posted (now : Z) (listing : BusinessListing) : option Z :=
  match posted_date listing with
  | Some posted => days_listed now posted
  | None => None
  end.


(** Sample listings and configurations. *)
Definition sample_listing (title : string) (price : option Z) (industry : option string)
                          (posted_date : option datetime) : BusinessListing :=
  {| id := "seek_1"; source := "seekbusiness"; title := title; description := None;
     price := price; revenue := None; ebitda := None; location := None;
     industry := industry; url := None; posted_date := posted_date; raw_data := None |}.

(** Posted at the epoch, so listed for 60 days at [60 * us_per_day]. *)
Definition aging_listing : BusinessListing :=
  sample_listing "Accounting Practice" (Some 500000%Z) (Some "Accounting") (Some (Naive 0)).

(** The default configuration, but with the allowed industry written
    with a capital letter. *)
Definition capital_filter : ListingFilter :=
  {| max_price := 1000000;
     max_days_listed := Some 60%Z;
     preferred_industries := None;
     excluded_industries := Some default_excluded_industries;
     excluded_title_keywords := Some default_excluded_title_keywords;
     franchise_allowed_industries := Some ["Legal"] |}.

End Listing.

(* ===================================================================== *)
(** ** models/repository.py *)
(* ===================================================================== *)

Module Repository.
Import PyStr Listing.

(** The exceptions the storage layer can raise. *)
Inductive exn :=
| MultipleResultsFound     (* scalar_one_or_none on more than one row *)
| IntegrityError           (* INSERT of an id that is already stored *)
| ObjectDeletedError.      (* access to an object whose row is gone *)

(** What a run leaves behind besides the table: the commits, and the
    calls of [ListingFilter.evaluate] with the id they were made for.
    The source keeps no such log; it is here so that a statement can
    say that a call did not happen. *)
Inductive event :=
| EvCommit
| EvEvaluate (listing_id : string).

(** The SQLAlchemy session: the table [listings], in storage order. *)
Record session := {
  table : list ListingORM;
  log : list event
}.

Inductive result (A : Type) :=
| Ok (a : A) (s : session)
| Raise (e : exn) (s : session).
Arguments Ok {A} a s.
Arguments Raise {A} e s.

(** State and exceptions. *)
Definition M (A : Type) : Type := session -> result A.

Definition ret {A} (a : A) : M A := fun s => Ok a s.
Definition raise {A} (e : exn) : M A := fun s => Raise e s.
Definition bind {A B} (m : M A) (k : A -> M B) : M B :=
  fun s =>
    match m s with
    | Ok a s' => k a s'
    | Raise e s' => Raise e s'
    end.

Declare Scope repo_scope.
Delimit Scope repo_scope with repo.
Notation "x <- m ;; k" := (bind m (fun x => k))
  (at level 100, m at next level, right associativity) : repo_scope.
Notation "m ;;; k" := (bind m (fun _ => k))
  (at level 100, right associativity) : repo_scope.
Local Open Scope repo_scope.

(** [db.execute(select(ListingORM).where(p))]. *)
Definition select_where (p : ListingORM -> bool) : M (list ListingORM) :=
  fun s => Ok (List.filter p (table s)) s.

(** [.scalar_one_or_none()]. *)
Definition scalar_one_or_none (rows : list ListingORM) : M (option ListingORM) :=
  match rows with
  | [] => ret None
  | [r] => ret (Some r)
  | _ :: _ :: _ => raise MultipleResultsFound
  end.

(** [db.commit()]. *)
Definition commit : M unit :=
  fun s => Ok tt {| table := table s; log := (log s ++ [EvCommit])%list |}.

(** [db.add(orm)], flushed: the primary key [id] must be fresh. *)
Definition add (orm : ListingORM) : M unit :=
  fun s =>
    if existsb (fun r => String.eqb (orm_id r) (orm_id orm)) (table s)
    then Raise IntegrityError s
    else Ok tt {| table := (table s ++ [orm])%list; log := log s |}.

(** An attribute assignment on a loaded object, flushed: the row with
    the object's primary key takes the object's values. *)
Definition replace_row (orm r : ListingORM) : ListingORM :=
  if String.eqb (orm_id r) (orm_id orm) then orm else r.

Definition flush (orm : ListingORM) : M unit :=
  fun s => Ok tt {| table := List.map (replace_row orm) (table s); log := log s |}.

(** [db.refresh(orm)], and any attribute access after a commit: the
    object is read again from the row with its primary key. *)
Definition refresh (orm : ListingORM) : M ListingORM :=
  rows <- select_where (fun r => String.eqb (orm_id r) (orm_id orm)) ;;
  match rows with
  | r :: _ => ret r
  | [] => raise ObjectDeletedError
  end.

(** [ListingRepository.exists]. *)
Definition exists_ (listing_id source : string) : M bool :=
  rows <- select_where (fun r => String.eqb (orm_id r) listing_id
                                 && String.eqb (orm_source r) source) ;;
  result <- scalar_one_or_none rows ;;
  ret (match result with Some _ => true | None => false end).

(** [ListingRepository.get_by_id]. *)
Definition get_by_id (listing_id : string) : M (option ListingORM) :=
  rows <- select_where (fun r => String.eqb (orm_id r) listing_id) ;;
  scalar_one_or_none rows.

(** [ListingRepository.get_by_status]; [limit] is applied when it is
    neither [None] nor [0]. *)
Definition get_by_status (status : ListingStatus) (limit : option nat)
  : M (list ListingORM) :=
  rows <- select_where (fun r => status_eqb (orm_status r) status) ;;
  match limit with
  | Some (S n) => ret (firstn (S n) rows)
  | _ => ret rows
  end.

(** [a / b] on integers. *)
Definition truediv (a b : Z) : Q := (inject_Z a / inject_Z b)%Q.

(** [ebitda / revenue] under
    [if listing.ebitda and listing.revenue and listing.revenue > 0]. *)
Definition calc_ebitda_margin (listing : BusinessListing) : option Q :=
  match ebitda listing, revenue listing with
  | Some e, Some r =>
      if negb (e =? 0)%Z && negb (r =? 0)%Z && (r >? 0)%Z
      then Some (truediv e r) else None
  | _, _ => None
  end.

(** [price / ebitda] under
    [if listing.price and listing.ebitda and listing.ebitda > 0]. *)
Definition calc_asking_multiple (listing : BusinessListing) : option Q :=
  match price listing, ebitda listing with
  | Some p, Some e =>
      if negb (p =? 0)%Z && negb (e =? 0)%Z && (e >? 0)%Z
      then Some (truediv p e) else None
  | _, _ => None
  end.

(** The object [_create] builds; the column defaults [first_seen_at] and
    [last_updated_at] read the clock. *)
Definition new_row (now : Z) (listing : BusinessListing) : ListingORM :=
  let ebitda_margin := calc_ebitda_margin listing in
  let asking_multiple := calc_asking_multiple listing in
  {| orm_id := id listing;
     orm_source := source listing;
     orm_title := title listing;
     orm_description := description listing;
     orm_price := price listing;
     orm_revenue := revenue listing;
     orm_ebitda := ebitda listing;
     orm_location := location listing;
     orm_industry := industry listing;
     orm_url := url listing;
     orm_ebitda_margin := ebitda_margin;
     orm_asking_multiple := asking_multiple;
     orm_status := NEW;
     orm_first_seen_at := now;
     orm_last_updated_at := now;
     orm_processed_at := None;
     orm_posted_date := posted_date listing;
     orm_raw_data := raw_data listing;
     orm_research_findings := None;
     orm_confidence_score := None;
     orm_scalability_score := None;
     orm_memo := None |}.

(** [ListingRepository._create]. *)
Definition _create (now : Z) (listing : BusinessListing) : M ListingORM :=
  let orm := new_row now listing in
  add orm ;;;
  commit ;;;
  refresh orm.

(** The assignments of [_update] to [existing]: the derived metrics are
    assigned only under their conditions and keep their stored value
    otherwise. *)
Definition assign_update (now : Z) (existing : ListingORM) (listing : BusinessListing)
  : ListingORM :=
  {| orm_id := orm_id existing;
     orm_source := orm_source existing;
     orm_title := title listing;
     orm_description := description listing;
     orm_price := price listing;
     orm_revenue := revenue listing;
     orm_ebitda := ebitda listing;
     orm_location := location listing;
     orm_industry := industry listing;
     orm_url := url listing;
     orm_ebitda_margin :=
       match calc_ebitda_margin listing with
       | Some m => Some m
       | None => orm_ebitda_margin existing
       end;
     orm_asking_multiple :=
       match calc_asking_multiple listing with
       | Some m => Some m
       | None => orm_asking_multiple existing
       end;
     orm_status := orm_status existing;
     orm_first_seen_at := orm_first_seen_at existing;
     orm_last_updated_at := now;
     orm_processed_at := orm_processed_at existing;
     orm_posted_date := posted_date listing;
     orm_raw_data := raw_data listing;
     orm_research_findings := orm_research_findings existing;
     orm_confidence_score := orm_confidence_score existing;
     orm_scalability_score := orm_scalability_score existing;
     orm_memo := orm_memo existing |}.

(** [ListingRepository._update]. *)
Definition _update (now : Z) (existing : ListingORM) (listing : BusinessListing)
  : M ListingORM :=
  let existing := assign_update now existing listing in
  flush existing ;;;
  commit ;;;
  refresh existing.

(** [ListingRepository.save]. *)
Definition save (now : Z) (listing : BusinessListing) : M ListingORM :=
  existing <- get_by_id (id listing) ;;
  match existing with
  | Some existing => _update now existing listing
  | None => _create now listing
  end.

(** [ListingRepository.save_with_dedup_check]. *)
Definition save_with_dedup_check (now : Z) (listing : BusinessListing)
  : M (ListingORM * bool) :=
  found <- exists_ (id listing) (source listing) ;;
  let is_new := negb found in
  orm <- save now listing ;;
  ret (orm, is_new).

Definition set_status (orm : ListingORM) (status : ListingStatus) : ListingORM :=
  {| orm_id := orm_id orm; orm_source := orm_source orm; orm_title := orm_title orm;
     orm_description := orm_description orm; orm_price := orm_price orm;
     orm_revenue := orm_revenue orm; orm_ebitda := orm_ebitda orm;
     orm_location := orm_location orm; orm_industry := orm_industry orm;
     orm_url := orm_url orm; orm_ebitda_margin := orm_ebitda_margin orm;
     orm_asking_multiple := orm_asking_multiple orm;
     orm_status := status;
     orm_first_seen_at := orm_first_seen_at orm;
     orm_last_updated_at := orm_last_updated_at orm;
     orm_processed_at := orm_processed_at orm;
     orm_posted_date := orm_posted_date orm; orm_raw_data := orm_raw_data orm;
     orm_research_findings := orm_research_findings orm;
     orm_confidence_score := orm_confidence_score orm;
     orm_scalability_score := orm_scalability_score orm; orm_memo := orm_memo orm |}.

Definition set_processed_at (orm : ListingORM) (t : option Z) : ListingORM :=
  {| orm_id := orm_id orm; orm_source := orm_source orm; orm_title := orm_title orm;
     orm_description := orm_description orm; orm_price := orm_price orm;
     orm_revenue := orm_revenue orm; orm_ebitda := orm_ebitda orm;
     orm_location := orm_location orm; orm_industry := orm_industry orm;
     orm_url := orm_url orm; orm_ebitda_margin := orm_ebitda_margin orm;
     orm_asking_multiple := orm_asking_multiple orm;
     orm_status := orm_status orm;
     orm_first_seen_at := orm_first_seen_at orm;
     orm_last_updated_at := orm_last_updated_at orm;
     orm_processed_at := t;
     orm_posted_date := orm_posted_date orm; orm_raw_data := orm_raw_data orm;
     orm_research_findings := orm_research_findings orm;
     orm_confidence_score := orm_confidence_score orm;
     orm_scalability_score := orm_scalability_score orm; orm_memo := orm_memo orm |}.

Definition set_last_updated_at (orm : ListingORM) (t : Z) : ListingORM :=
  {| orm_id := orm_id orm; orm_source := orm_source orm; orm_title := orm_title orm;
     orm_description := orm_description orm; orm_price := orm_price orm;
     orm_revenue := orm_revenue orm; orm_ebitda := orm_ebitda orm;
     orm_location := orm_location orm; orm_industry := orm_industry orm;
     orm_url := orm_url orm; orm_ebitda_margin := orm_ebitda_margin orm;
     orm_asking_multiple := orm_asking_multiple orm;
     orm_status := orm_status orm;
     orm_first_seen_at := orm_first_seen_at orm;
     orm_last_updated_at := t;
     orm_processed_at := orm_processed_at orm;
     orm_posted_date := orm_posted_date orm; orm_raw_data := orm_raw_data orm;
     orm_research_findings := orm_research_findings orm;
     orm_confidence_score := orm_confidence_score orm;
     orm_scalability_score := orm_scalability_score orm; orm_memo := orm_memo orm |}.

Definition opt_Z_eqb (a b : option Z) : bool :=
  match a, b with
  | Some x, Some y => (x =? y)%Z
  | None, None => true
  | _, _ => false
  end.

(** [onupdate=datetime.utcnow] of [last_updated_at]: an UPDATE is
    emitted, and the column set, when an assignment changed the row. *)
Definition onupdate (now : Z) (before after : ListingORM) : ListingORM :=
  if status_eqb (orm_status before) (orm_status after)
     && opt_Z_eqb (orm_processed_at before) (orm_processed_at after)
  then after
  else set_last_updated_at after now.

(** The assignments of [update_status] to the object it found. *)
Definition assign_status (orm : ListingORM) (status : ListingStatus)
                         (processed_at : option Z) : ListingORM :=
  let orm := set_status orm status in
  match processed_at with
  | Some t => set_processed_at orm (Some t)
  | None => orm
  end.

(** [ListingRepository.update_status]. *)
Definition update_status (now : Z) (listing_id : string) (status : ListingStatus)
                         (processed_at : option Z) : M unit :=
  orm <- get_by_id listing_id ;;
  match orm with
  | Some orm =>
      flush (onupdate now orm (assign_status orm status processed_at)) ;;;
      commit
  | None => ret tt
  end.

(** [self.filters.evaluate(listing)], entered in the log. *)
Definition call_evaluate (now : Z) (filters : ListingFilter) (listing : BusinessListing)
  : M verdict :=
  fun s => Ok (evaluate now filters listing)
              {| table := table s; log := (log s ++ [EvEvaluate (id listing)])%list |}.

(** [class PrefilterService]: [self.filters = filters or ListingFilter()]. *)
Record PrefilterService := { filters : ListingFilter }.

Definition new_PrefilterService (f : option ListingFilter) : PrefilterService :=
  {| filters := default default_filter f |}.

(** [PrefilterService.process_listing]. *)
Definition process_listing (now : Z) (self : PrefilterService) (listing : BusinessListing)
  : M verdict :=
  saved <- save_with_dedup_check now listing ;;
  v <- call_evaluate now (filters self) listing ;;
  let new_status := if fst v then PREFILTER_PASS else PREFILTER_FAIL in
  update_status now (id listing) new_status None ;;;
  ret v.


(** The primary key: no two rows of the table have the same [id]. *)
Definition pk_unique (t : list ListingORM) : Prop := List.NoDup (List.map orm_id t).

(** The row with a given [id]. *)
Definition lookup_id (x : string) (t : list ListingORM) : option ListingORM :=
  find (fun r => String.eqb (orm_id r) x) t.

(** The rows with a given [id]. *)
Definition rows_with_id (x : string) (t : list ListingORM) : list ListingORM :=
  List.filter (fun r => String.eqb (orm_id r) x) t.

(** The session after [save]: the stored row with the id of the listing
    takes the assignments of [_update]; without such a row the new row
    goes to the end of the table. *)
Definition saved (now : Z) (listing : BusinessListing) (s : session)
  : ListingORM * session :=
  match lookup_id (id listing) (table s) with
  | Some existing =>
      (assign_update now existing listing,
       {| table := List.map (replace_row (assign_update now existing listing)) (table s);
          log := (log s ++ [EvCommit])%list |})
  | None =>
      (new_row now listing,
       {| table := (table s ++ [new_row now listing])%list;
          log := (log s ++ [EvCommit])%list |})
  end.

(** Sample data: a listing with financials, and a stored row with the
    same id that came from another source. *)
Definition sample_financials (revenue ebitda price : option Z) : BusinessListing :=
  {| id := "seek_1"; source := "seekbusiness"; title := "Accounting Practice";
     description := None; price := price; revenue := revenue; ebitda := ebitda;
     location := None; industry := Some "Accounting"; url := None;
     posted_date := None; raw_data := None |}.

Definition empty_session : session := {| table := []; log := [] |}.

Definition other_source_row : ListingORM :=
  {| orm_id := "seek_1"; orm_source := "mock"; orm_title := "Turnkey Medical Practice";
     orm_description := None; orm_price := Some 400000%Z; orm_revenue := Some 900000%Z;
     orm_ebitda := Some 180000%Z; orm_location := None; orm_industry := None;
     orm_url := None; orm_ebitda_margin := Some (truediv 180000 900000);
     orm_asking_multiple := Some (truediv 400000 180000); orm_status := NEW;
     orm_first_seen_at := 0; orm_last_updated_at := 0; orm_processed_at := None;
     orm_posted_date := None; orm_raw_data := None; orm_research_findings := None;
     orm_confidence_score := None; orm_scalability_score := None; orm_memo := None |}.

Definition other_source_session : session :=
  {| table := [other_source_row]; log := [] |}.


(** [for status in ListingStatus], in the order of the class. *)
Definition all_statuses : list ListingStatus :=
  [NEW; PREFILTER_PASS; PREFILTER_FAIL; RESEARCHING; COMPLETED; FAILED].

(** [db.execute(select(func.count(ListingORM.id)).where(p)).scalar()]. *)
Definition count_where (p : ListingORM -> bool) : M nat :=
  rows <- select_where p ;;
  ret (length rows).

(** The dict [get_stats] returns: "total_listings" and "by_status", the
    latter keyed by the value of each status. *)
Record stats := {
  total_listings : nat;
  by_status : list (string * nat)
}.

(** The loop of [get_stats] over the statuses. *)
Fixpoint count_statuses (statuses : list ListingStatus) : M (list (string * nat)) :=
  match statuses with
  | [] => ret []
  | status :: rest =>
      count <- count_where (fun r => status_eqb (orm_status r) status) ;;
      counts <- count_statuses rest ;;
      ret ((status_value status, count) :: counts)
  end.

(** [ListingRepository.get_stats]. *)
Definition get_stats : M stats :=
  total <- count_where (fun _ => true) ;;
  status_counts <- count_statuses all_statuses ;;
  ret {| total_listings := total; by_status := status_counts |}.

(** [PrefilterService.get_candidates]. *)
Definition get_candidates (self : PrefilterService) (limit : option nat)
  : M (list ListingORM) :=
  get_by_status PREFILTER_PASS limit.

End Repository.

(* ===================================================================== *)
(** ** main.py and daily_run.py: the filtering pass *)
(* ===================================================================== *)

Module Cli.
Import PyStr Listing Repository.
Local Open Scope repo_scope.

(** [BusinessListing.model_validate(orm)]. *)
Definition model_validate (orm : ListingORM) : BusinessListing :=
  {| id := orm_id orm;
     source := orm_source orm;
     title := orm_title orm;
     description := orm_description orm;
     price := orm_price orm;
     revenue := orm_revenue orm;
     ebitda := orm_ebitda orm;
     location := orm_location orm;
     industry := orm_industry orm;
     url := orm_url orm;
     posted_date := orm_posted_date orm;
     raw_data := orm_raw_data orm |}.

(** [listing.title and 'sold' in listing.title.lower()]. *)
Definition is_sold (listing : BusinessListing) : bool :=
  negb (String.eqb (title listing) "") && str_in "sold" (lower (title listing)).

(** The counters of the loop; daily_run.py keeps the first two only. *)
Record tally := { passed : nat; failed : nat; skipped_sold : nat }.

(** [for orm in new_listings: ...], the loop of [filter_command] and of
    [reset_and_filter].  The objects in [new_listings] are read again
    from their rows when the loop reaches them. *)
Fixpoint filter_loop (now : Z) (prefilter : PrefilterService)
                     (new_listings : list ListingORM) (t : tally) : M tally :=
  match new_listings with
  | [] => ret t
  | orm :: rest =>
      orm <- refresh orm ;;
      let listing := model_validate orm in
      if is_sold listing then
        update_status now (id listing) PREFILTER_FAIL None ;;;
        filter_loop now prefilter rest
          {| passed := passed t; failed := failed t;
             skipped_sold := S (skipped_sold t) |}
      else
        v <- process_listing now prefilter listing ;;
        if fst v
        then filter_loop now prefilter rest
               {| passed := S (passed t); failed := failed t;
                  skipped_sold := skipped_sold t |}
        else filter_loop now prefilter rest
               {| passed := passed t; failed := S (failed t);
                  skipped_sold := skipped_sold t |}
  end.

(** main.py, [filter_command]. *)
Definition filter_command (now : Z) (max_price : Z) : M tally :=
  let filter_config := make_filter max_price in
  let prefilter := new_PrefilterService (Some filter_config) in
  new_listings <- get_by_status NEW None ;;
  filter_loop now prefilter new_listings
    {| passed := 0; failed := 0; skipped_sold := 0 |}.

(** [db.execute(update(ListingORM).values(status=NEW))], [db.commit()]. *)
Definition reset_all (now : Z) : M nat :=
  fun s =>
    Ok (length (table s))
       {| table := List.map (fun r => set_last_updated_at (set_status r NEW) now) (table s);
          log := (log s ++ [EvCommit])%list |}.

(** daily_run.py, [reset_and_filter]. *)
Definition reset_and_filter (now : Z) : M (nat * nat) :=
  total <- reset_all now ;;
  let filter_config := default_filter in
  let prefilter := new_PrefilterService (Some filter_config) in
  new_listings <- get_by_status NEW None ;;
  t <- filter_loop now prefilter new_listings
         {| passed := 0; failed := 0; skipped_sold := 0 |} ;;
  ret (passed t, failed t).


(** The row of a sold listing after the loop has dealt with it: its
    status is PREFILTER_FAIL, and [last_updated_at] moved if that was a
    change. *)
Definition forced_fail (now : Z) (r : ListingORM) : ListingORM :=
  onupdate now r (assign_status r PREFILTER_FAIL None).

(** What a step of the loop that works on another listing leaves alone
    for the listing [x]: the ids of the table, the row of [x], and the
    absence of a call of [evaluate] for [x]. *)
Definition frame (x : string) (s s' : session) : Prop :=
  pk_unique (table s')
  /\ List.map orm_id (table s') = List.map orm_id (table s)
  /\ lookup_id x (table s') = lookup_id x (table s)
  /\ (forall e, In e (log s') -> In e (log s) \/ e <> EvEvaluate x).

(** Sample data: three stored listings, the second of them sold. *)
Definition stored (id title : string) (price : option Z) (status : ListingStatus)
  : ListingORM :=
  {| orm_id := id; orm_source := "seekbusiness"; orm_title := title;
     orm_description := None; orm_price := price; orm_revenue := None;
     orm_ebitda := None; orm_location := None; orm_industry := Some "Accounting";
     orm_url := None; orm_ebitda_margin := None; orm_asking_multiple := None;
     orm_status := status; orm_first_seen_at := 0; orm_last_updated_at := 0;
     orm_processed_at := None; orm_posted_date := None; orm_raw_data := None;
     orm_research_findings := None; orm_confidence_score := None;
     orm_scalability_score := None; orm_memo := None |}.

Definition sold_cafe : ListingORM :=
  stored "seek_2" "Cafe Business - SOLD" (Some 90000%Z) NEW.

Definition sample_store : session :=
  {| table := [ stored "seek_1" "Accounting Practice" (Some 500000%Z) NEW;
                sold_cafe;
                stored "seek_3" "Bookkeeping Firm" (Some 2000000%Z) PREFILTER_PASS ];
     log := [] |}.



(** Sample listings to ingest. *)
Definition fetched_listing (id title : string) : BusinessListing :=
  {| id := id; source := "seekbusiness"; title := title; description := None;
     price := Some 300000%Z; revenue := None; ebitda := None; location := None;
     industry := Some "Accounting"; url := None; posted_date := None;
     raw_data := None |}.

(** The branch an iteration of the filtering loop takes on a row: the
    row counts as passed, as failed, or as sold. *)
Definition counts_passed (now : Z) (prefilter : PrefilterService) (r : ListingORM) : bool :=
  negb (is_sold (model_validate r))
  && fst (evaluate now (filters prefilter) (model_validate r)).

Definition counts_failed (now : Z) (prefilter : PrefilterService) (r : ListingORM) : bool :=
  negb (is_sold (model_validate r))
  && negb (fst (evaluate now (filters prefilter) (model_validate r))).

Definition counts_sold (r : ListingORM) : bool := is_sold (model_validate r).

(** The status that iteration leaves on the row. *)
Definition outcome (now : Z) (prefilter : PrefilterService) (r : ListingORM)
  : ListingStatus :=
  if counts_passed now prefilter r then PREFILTER_PASS else PREFILTER_FAIL.

(** The row as the reset of [reset_and_filter] leaves it. *)
Definition reset_row (now : Z) (r : ListingORM) : ListingORM :=
  set_last_updated_at (set_status r NEW) now.

End Cli.

(* ===================================================================== *)
(** ** fetchers/seek.py: the fetch orchestrator *)
(* ===================================================================== *)

Module Seek.
Import PyStr Listing.

(** The dict [_parse_listing_basic] builds from one search result. *)
Record basic_info := {
  bi_id : string;
  bi_title : string;
  bi_price : option Z;
  bi_location : option string;
  bi_industry : option string;
  bi_url : string;
  bi_broker_name : option string;
  bi_listing_type : option string
}.

(** A search-result element, through what [_parse_listing_basic] makes of
    it: a dict, or [None] (the function catches its own exceptions). *)
Definition element : Type := option basic_info.

Definition _parse_listing_basic (e : element) : option basic_info := e.

(** A loaded HTML document, through what the extractors make of it:
    [find_all] of the result items, [_extract_detail_title],
    [_extract_description], [_extract_posted_date] and
    [_extract_structured_data]. *)
Record document := {
  doc_items : list element;
  doc_title : option string;
  doc_description : option string;
  doc_posted_relative : option string;
  doc_posted_calculated : option string;
  doc_structured_data : pyval
}.

(** What one [page.goto] and the parsing after it come to: an exception
    (timeout, network error, a parser failure), or a document. *)
Inductive response :=
| Fails
| Page (d : document).

Inductive exn :=
| PlaywrightError      (* raised by a page load *)
| ValidationError.     (* raised by [BusinessListing(...)] *)

(** What the run does to the outside, in order. *)
Inductive event :=
| EvLaunch                      (* sync_playwright().start(), chromium.launch *)
| EvNewContext                  (* browser.new_context, new_page *)
| EvCloseContext                (* context.close() *)
| EvCloseBrowser                (* browser.close(), playwright.stop() *)
| EvGoto (url : string)         (* page.goto(url) on a live page *)
| EvSleep (base lo hi : Z)      (* time.sleep(base + random.uniform(lo, hi)) *)
| EvYield (listing : BusinessListing).

(** The fetcher object: [self._browser] is set, and the number of the
    page of [self._context], if there is one. *)
Record fetcher := {
  _browser : bool;
  _context : option nat;
  pages_made : nat
}.

(** The local variables of [fetch]. *)
Record locals := {
  page : nat;
  fetched : nat;
  skipped : nat;
  consecutive_failures : nat;
  page_num : nat
}.

(** The state of a run: the outcomes the site will give to the page
    loads still to come (a load after the last one fails), the fetcher,
    the locals of [fetch], and the events so far. *)
Record state := {
  script : list response;
  self : fetcher;
  vars : locals;
  trace : list event
}.

Inductive result (A : Type) :=
| Ok (a : A) (s : state)
| Raise (e : exn) (s : state)
| OutOfFuel (s : state).
Arguments Ok {A} a s.
Arguments Raise {A} e s.
Arguments OutOfFuel {A} s.

Definition F (A : Type) : Type := state -> result A.

Definition ret {A} (a : A) : F A := fun s => Ok a s.
Definition raise {A} (e : exn) : F A := fun s => Raise e s.
Definition bind {A B} (m : F A) (k : A -> F B) : F B :=
  fun s =>
    match m s with
    | Ok a s' => k a s'
    | Raise e s' => Raise e s'
    | OutOfFuel s' => OutOfFuel s'
    end.

(** [try: m except Exception as e: ...]: the exception as a value; what
    [m] did before it raised stays done. *)
Definition try_ {A} (m : F A) : F (A + exn) :=
  fun s =>
    match m s with
    | Ok a s' => Ok (inl a) s'
    | Raise e s' => Ok (inr e) s'
    | OutOfFuel s' => OutOfFuel s'
    end.

(** [try: m finally: cleanup]. *)
Definition finally_ {A} (m : F A) (cleanup : F unit) : F A :=
  fun s =>
    match m s with
    | Ok a s' => bind cleanup (fun _ => ret a) s'
    | Raise e s' => bind cleanup (fun _ => raise e) s'
    | OutOfFuel s' => OutOfFuel s'
    end.

Declare Scope fetch_scope.
Delimit Scope fetch_scope with fetch.
Notation "x <- m ;; k" := (bind m (fun x => k))
  (at level 100, m at next level, right associativity) : fetch_scope.
Notation "m ;;; k" := (bind m (fun _ => k))
  (at level 100, right associativity) : fetch_scope.
Local Open Scope fetch_scope.

Definition get_vars : F locals := fun s => Ok (vars s) s.
Definition get_self : F fetcher := fun s => Ok (self s) s.

Definition set_vars (v : locals) : F unit :=
  fun s => Ok tt {| script := script s; self := self s; vars := v; trace := trace s |}.

Definition set_self (f : fetcher) : F unit :=
  fun s => Ok tt {| script := script s; self := f; vars := vars s; trace := trace s |}.

Definition emit (e : event) : F unit :=
  fun s => Ok tt {| script := script s; self := self s; vars := vars s;
                    trace := (trace s ++ [e])%list |}.

(** [time.sleep(base + random.uniform(lo, hi))]. *)
Definition sleep (base lo hi : Z) : F unit := emit (EvSleep base lo hi).

(** [page = ...]. *)
Definition assign_page (p : nat) : F unit :=
  v <- get_vars ;;
  set_vars {| page := p; fetched := fetched v; skipped := skipped v;
              consecutive_failures := consecutive_failures v; page_num := page_num v |}.

(** [skipped += 1]. *)
Definition incr_skipped : F unit :=
  v <- get_vars ;;
  set_vars {| page := page v; fetched := fetched v; skipped := S (skipped v);
              consecutive_failures := consecutive_failures v; page_num := page_num v |}.

(** [fetched += 1]. *)
Definition incr_fetched : F unit :=
  v <- get_vars ;;
  set_vars {| page := page v; fetched := S (fetched v); skipped := skipped v;
              consecutive_failures := consecutive_failures v; page_num := page_num v |}.

(** [consecutive_failures = n]. *)
Definition assign_consecutive_failures (n : nat) : F unit :=
  v <- get_vars ;;
  set_vars {| page := page v; fetched := fetched v; skipped := skipped v;
              consecutive_failures := n; page_num := page_num v |}.

(** [page_num += 1]. *)
Definition incr_page_num : F unit :=
  v <- get_vars ;;
  set_vars {| page := page v; fetched := fetched v; skipped := skipped v;
              consecutive_failures := consecutive_failures v; page_num := S (page_num v) |}.

(** [SeekBusinessFetcher._init_browser]. *)
Definition _init_browser : F unit :=
  f <- get_self ;;
  if _browser f then ret tt
  else
    emit EvLaunch ;;;
    set_self {| _browser := true; _context := _context f; pages_made := pages_made f |}.

(** [SeekBusinessFetcher._close_browser]. *)
Definition _close_browser : F unit :=
  f <- get_self ;;
  if _browser f then
    emit EvCloseBrowser ;;;
    set_self {| _browser := false; _context := _context f; pages_made := pages_made f |}
  else ret tt.

(** [SeekBusinessFetcher._get_context_and_page]. *)
Definition _get_context_and_page : F nat :=
  f <- get_self ;;
  match _context f with
  | Some p => ret p
  | None =>
      _init_browser ;;;
      f <- get_self ;;
      emit EvNewContext ;;;
      set_self {| _browser := _browser f; _context := Some (pages_made f);
                  pages_made := S (pages_made f) |} ;;;
      ret (pages_made f)
  end.

(** [SeekBusinessFetcher._close_context]. *)
Definition _close_context : F unit :=
  f <- get_self ;;
  match _context f with
  | Some _ =>
      emit EvCloseContext ;;;
      set_self {| _browser := _browser f; _context := None; pages_made := pages_made f |}
  | None => ret tt
  end.

(** [page.goto(url, ...)] and the parsing of the content: a page of a
    closed context raises; a live page gets the next outcome of the site. *)
Definition goto (p : nat) (url : string) : F document :=
  fun s =>
    match _context (self s) with
    | Some q =>
        if Nat.eqb p q then
          let s1 := {| script := tail (script s); self := self s; vars := vars s;
                       trace := (trace s ++ [EvGoto url])%list |} in
          match script s with
          | Page d :: _ => Ok d s1
          | Fails :: _ => Raise PlaywrightError s1
          | [] => Raise PlaywrightError s1
          end
        else Raise PlaywrightError s
    | None => Raise PlaywrightError s
    end.

Section Fetch.

(** Two functions the run is parametric in: the reading of a
    ['%Y-%m-%d'] string that pydantic does for the [posted_date] field
    ([None]: the string is rejected), and
    [SeekBusinessFetcher._extract_title_from_url]. *)
Variable parse_datetime : string -> option datetime.
Variable _extract_title_from_url : string -> option string.

Definition BASE_URL : string := "https://www.seekbusiness.com.au".

(** [SeekBusinessFetcher._build_search_url]. *)
Definition _build_search_url (location : string) (radius_km : Z) : string :=
  BASE_URL ++ "/businesses-for-sale/in-" ++ location ++ "?rad=" ++ str_of_int radius_km.

(** The default of the [max_retries] arguments; no caller passes another. *)
Definition max_retries : nat := 3.

(** [page.wait_for_selector('[data-testid="search-listings-result-item"]')]
    times out on a document without result items. *)
Definition wait_for_selector (d : document) : F unit :=
  match doc_items d with
  | [] => raise PlaywrightError
  | _ :: _ => ret tt
  end.

(** [SeekBusinessFetcher._fetch_list_page]: the attempts from [attempt]
    on, [todo] of them. *)
Fixpoint list_page_attempts (todo attempt p : nat) (url : string) : F (list element) :=
  match todo with
  | O => ret []
  | S todo' =>
      r <- try_ (d <- goto p url ;; wait_for_selector d ;;; ret (doc_items d)) ;;
      match r with
      | inl items => ret items
      | inr _ =>
          if (attempt <? max_retries)%nat then
            sleep (3 * Z.of_nat attempt) 0 2 ;;;
            list_page_attempts todo' (S attempt) p url
          else ret []
      end
  end.

Definition _fetch_list_page (p : nat) (url : string) : F (list element) :=
  list_page_attempts max_retries 1 p url.

(** [SeekBusinessFetcher._is_blocked_page]. *)
Definition _is_blocked_page (title : option string) : bool :=
  match title with
  | None => false
  | Some title =>
      if String.eqb title "" then false
      else
        let t := lower title in
        str_in "sign in" t || str_in "log in" t || String.eqb title "Verified Businesses"
  end.

(** [(title, description, posted_date_relative, posted_date_calculated,
    structured_data)]. *)
Definition detail_result : Type :=
  option string * option string * option string * option string * pyval.

Definition SOLD_SENTINEL : detail_result :=
  (Some "__SOLD__", None, None, None, PDict []).

Definition detail_failure : detail_result :=
  (None, None, None, None, PDict []).

(** [title and 'sold' in title.lower()]. *)
Definition title_is_sold (title : option string) : bool :=
  match title with
  | Some t => negb (String.eqb t "") && str_in "sold" (lower t)
  | None => false
  end.

(** [SeekBusinessFetcher._fetch_detail_page]: the attempts from
    [attempt] on, [todo] of them. *)
Fixpoint detail_page_attempts (todo attempt p : nat) (detail_url : string) : F detail_result :=
  match todo with
  | O => ret detail_failure
  | S todo' =>
      r <- try_ (sleep 0 1 3 ;;; goto p detail_url) ;;
      match r with
      | inl d =>
          let title := doc_title d in
          if title_is_sold title then ret SOLD_SENTINEL
          else if _is_blocked_page title then
            if (attempt <? max_retries)%nat then
              sleep (5 * Z.of_nat attempt) 0 3 ;;;
              detail_page_attempts todo' (S attempt) p detail_url
            else
              ret (_extract_title_from_url detail_url, doc_description d,
                   doc_posted_relative d, doc_posted_calculated d, doc_structured_data d)
          else
            ret (title, doc_description d,
                 doc_posted_relative d, doc_posted_calculated d, doc_structured_data d)
      | inr _ =>
          if (attempt <? max_retries)%nat then
            sleep (3 * Z.of_nat attempt) 0 2 ;;;
            detail_page_attempts todo' (S attempt) p detail_url
          else ret detail_failure
      end
  end.

Definition _fetch_detail_page (p : nat) (detail_url : string) : F detail_result :=
  detail_page_attempts max_retries 1 p detail_url.

(** The [raw_data] dict of a yielded listing. *)
Definition make_raw_data (basic_info : basic_info) (posted_relative : option string)
                         (structured_data : pyval) (detail_failed : bool) : pyval :=
  PDict [ ("broker_name", of_opt_str (bi_broker_name basic_info));
          ("listing_type", of_opt_str (bi_listing_type basic_info));
          ("posted_date_relative", of_opt_str posted_relative);
          ("structured_data", structured_data);
          ("detail_fetched", PBool (negb detail_failed)) ].

(** [BusinessListing(id=..., source="seekbusiness", ...)]: the model
    validates [posted_date]. *)
Definition new_BusinessListing (basic_info : basic_info) (title : string)
    (description posted_calculated : option string) (raw : pyval) : F BusinessListing :=
  posted <- match posted_calculated with
            | None => ret None
            | Some text =>
                match parse_datetime text with
                | Some d => ret (Some d)
                | None => raise ValidationError
                end
            end ;;
  ret {| id := bi_id basic_info;
         source := "seekbusiness";
         title := title;
         description := description;
         price := bi_price basic_info;
         revenue := None;
         ebitda := None;
         location := bi_location basic_info;
         industry := bi_industry basic_info;
         url := Some (bi_url basic_info);
         posted_date := posted;
         raw_data := Some raw |}.

(** The context refresh of [fetch]. *)
Definition refresh_context : F unit :=
  _close_context ;;;
  p <- _get_context_and_page ;;
  assign_page p ;;;
  assign_consecutive_failures 0 ;;;
  sleep 0 5 10.

(** [fetch], from "Track consecutive detail failures" to [yield]. *)
Definition track_and_yield (basic_info : basic_info) (title : string)
    (description posted_relative posted_calculated : option string)
    (structured_data : pyval) (detail_failed : bool) : F unit :=
  (if detail_failed then
     v <- get_vars ;;
     assign_consecutive_failures (S (consecutive_failures v)) ;;;
     if (5 <=? S (consecutive_failures v))%nat then refresh_context else ret tt
   else assign_consecutive_failures 0) ;;;
  let raw := make_raw_data basic_info posted_relative structured_data detail_failed in
  listing <- new_BusinessListing basic_info title description posted_calculated raw ;;
  incr_fetched ;;;
  emit (EvYield listing).

Definition is_none {A} (o : option A) : bool :=
  match o with
  | None => true
  | Some _ => false
  end.

(** [fetch], the body of the [try] in the loop over the elements; it
    returns where the source says [continue] or reaches the end. *)
Definition process_element (fetch_details : bool) (known_ids : gset string)
                           (element : element) : F unit :=
  match _parse_listing_basic element with
  | None => ret tt
  | Some basic_info =>
      if str_in "sold" (lower (bi_title basic_info)) then incr_skipped
      else if bool_decide (bi_id basic_info ∈ known_ids) then incr_skipped
      else if fetch_details && negb (String.eqb (bi_url basic_info) "") then
        v <- get_vars ;;
        result <- _fetch_detail_page (page v) (bi_url basic_info) ;;
        let '(real_title, description, posted_relative, posted_calculated,
              structured_data) := result in
        if match real_title with
           | Some t => String.eqb t "__SOLD__"
           | None => false
           end
        then incr_skipped
        else
          let detail_failed := is_none real_title && is_none description in
          let title := if truthy_str real_title
                       then default "" real_title
                       else bi_title basic_info in
          track_and_yield basic_info title description posted_relative
                          posted_calculated structured_data detail_failed
      else
        track_and_yield basic_info (bi_title basic_info) None None None (PDict []) false
  end.

(** [for element in listing_elements: ...]. *)
Fixpoint for_elements (count : Z) (fetch_details : bool) (known_ids : gset string)
                      (listing_elements : list element) : F unit :=
  match listing_elements with
  | [] => ret tt
  | element :: rest =>
      v <- get_vars ;;
      if (count <=? Z.of_nat (fetched v))%Z then ret tt          (* break *)
      else
        try_ (process_element fetch_details known_ids element) ;;;
        for_elements count fetch_details known_ids rest
  end.

(** [while fetched < count: ...], for at most [fuel] pages. *)
Fixpoint while_pages (fuel : nat) (search_url : string) (count : Z) (fetch_details : bool)
                     (known_ids : gset string) : F unit :=
  v <- get_vars ;;
  if (Z.of_nat (fetched v) <? count)%Z then
    match fuel with
    | O => fun s => OutOfFuel s
    | S fuel' =>
        let page_url := search_url ++ "&pg=" ++ str_of_int (Z.of_nat (page_num v)) in
        listing_elements <- _fetch_list_page (page v) page_url ;;
        match listing_elements with
        | [] => ret tt                                           (* break *)
        | _ :: _ =>
            assign_consecutive_failures 0 ;;;
            for_elements count fetch_details known_ids listing_elements ;;;
            incr_page_num ;;;
            while_pages fuel' search_url count fetch_details known_ids
        end
    end
  else ret tt.

(** [SeekBusinessFetcher.fetch], consumed to its end. *)
Definition fetch_pages (fuel : nat) (location : string) (radius_km count : Z)
    (fetch_details : bool) (known_ids : option (gset string)) : F unit :=
  let known_ids := default ∅ known_ids in
  p <- _get_context_and_page ;;
  set_vars {| page := p; fetched := 0; skipped := 0;
              consecutive_failures := 0; page_num := 1 |} ;;;
  finally_
    (let search_url := _build_search_url location radius_km in
     while_pages fuel search_url count fetch_details known_ids)
    (_close_context ;;; _close_browser).

(** A fetcher that was just constructed, facing a site that will answer
    the page loads with [site]. *)
Definition initial_state (site : list response) : state :=
  {| script := site;
     self := {| _browser := false; _context := None; pages_made := 0 |};
     vars := {| page := 0; fetched := 0; skipped := 0;
                consecutive_failures := 0; page_num := 1 |};
     trace := [] |}.

(** A run of [fetch]: every page of the loop loads at least once, so
    one more page than the site has answers is enough. *)
Definition fetch (site : list response) (location : string) (radius_km count : Z)
    (fetch_details : bool) (known_ids : option (gset string)) : result unit :=
  fetch_pages (S (length site)) location radius_km count fetch_details known_ids
              (initial_state site).

End Fetch.

(** The listings a run yielded, in order. *)
Definition yields (tr : list event) : list BusinessListing :=
  flat_map (fun e => match e with EvYield l => [l] | _ => [] end) tr.

(** A yielded listing whose detail fetch failed:
    [raw_data['detail_fetched']] is [False]. *)
Definition detail_fetch_failed (l : BusinessListing) : bool :=
  match raw_data l with
  | Some raw =>
      match dict_get "detail_fetched" raw with
      | Some (PBool false) => true
      | _ => false
      end
  | None => false
  end.

(** The detail failures in a row at the end of a trace with no context
    refresh among them, and the most there were in a row anywhere;
    [cur] and [best] are those numbers before the trace. *)
Fixpoint failure_streaks (tr : list event) (cur best : nat) : nat * nat :=
  match tr with
  | [] => (cur, best)
  | EvYield l :: rest =>
      if detail_fetch_failed l
      then failure_streaks rest (S cur) (Nat.max (S cur) best)
      else failure_streaks rest 0 best
  | EvCloseContext :: rest => failure_streaks rest 0 best
  | _ :: rest => failure_streaks rest cur best
  end.

Definition longest_failure_streak (tr : list event) : nat :=
  snd (failure_streaks tr 0 0).


(** Events that neither yield nor close the context. *)
Definition quiet (e : event) : bool :=
  match e with
  | EvYield _ | EvCloseContext => false
  | _ => true
  end.

(** From [s] to [s'] only pages were loaded and time was slept: the
    fetcher and the locals are the same, the site has no more answers
    left than before, and the trace grew by quiet events. *)
Definition loads_only (s s' : state) : Prop :=
  self s' = self s
  /\ vars s' = vars s
  /\ (length (script s') <= length (script s))%nat
  /\ exists ev, trace s' = (trace s ++ ev)%list /\ Forall (fun e => quiet e = true) ev.

(** The local [page] is the page of the open context. *)
Definition live (s : state) : Prop := _context (self s) = Some (page (vars s)).

(** The listing built from the search-result data alone. *)
Definition summary_only_listing (b : basic_info) : BusinessListing :=
  {| id := bi_id b;
     source := "seekbusiness";
     title := bi_title b;
     description := None;
     price := bi_price b;
     revenue := None;
     ebitda := None;
     location := bi_location b;
     industry := bi_industry b;
     url := Some (bi_url b);
     posted_date := None;
     raw_data := Some (make_raw_data b None (PDict []) true) |}.

(** A search page cannot be loaded from this answer: the load fails or
    the document has no result item. *)
Definition list_load_fails (r : response) : bool :=
  match r with
  | Fails => true
  | Page d => match doc_items d with [] => true | _ :: _ => false end
  end.

(** The streak numbers stay within the bound of the counter. *)
Definition streak_inv (s : state) (cb : nat * nat) : Prop :=
  (consecutive_failures (vars s) <= 4)%nat
  /\ (fst cb <= consecutive_failures (vars s) + 1)%nat
  /\ (snd cb <= 5)%nat
  /\ _context (self s) <> None.

(** Sample data: search results, a search page, and a site with two
    pages of four listings each whose detail pages all time out. *)
Definition sample_info (n : string) : basic_info :=
  {| bi_id := "seek_" ++ n; bi_title := "Business " ++ n;
     bi_price := Some 250000%Z; bi_location := None; bi_industry := None;
     bi_url := "https://www.seekbusiness.com.au/business-listing/business/" ++ n;
     bi_broker_name := None; bi_listing_type := None |}.

Definition sample_item (n : string) : element := Some (sample_info n).

Definition search_page (items : list element) : response :=
  Page {| doc_items := items; doc_title := None; doc_description := None;
          doc_posted_relative := None; doc_posted_calculated := None;
          doc_structured_data := PDict [] |}.

Definition failing_site : list response :=
  (search_page [sample_item "1"; sample_item "2"; sample_item "3"; sample_item "4"]
   :: repeat Fails 12
   ++ search_page [sample_item "5"; sample_item "6"; sample_item "7"; sample_item "8"]
   :: repeat Fails 12)%list.

(** The events of the session among those of a trace. *)
Definition session_events (tr : list event) : list event :=
  List.filter (fun e => match e with
                        | EvLaunch | EvNewContext | EvCloseContext | EvCloseBrowser => true
                        | _ => false
                        end) tr.


(** A computation that loads no page: it ends, normally or with an
    exception, and the site has the answers left that it had. *)
Definition keeps_script {A} (m : F A) : Prop :=
  forall s,
    match m s with
    | Ok _ s' | Raise _ s' => script s' = script s
    | OutOfFuel _ => False
    end.


(** The state of a run when it enters the [try] of [fetch]. *)
Definition started (site : list response) : state :=
  {| script := site;
     self := {| _browser := true; _context := Some 0%nat; pages_made := 1 |};
     vars := {| page := 0; fetched := 0; skipped := 0;
                consecutive_failures := 0; page_num := 1 |};
     trace := [EvLaunch; EvNewContext] |}.


(** What the tracking of one element does to the counter, from [before]
    to [after], and to the outside ([ev]): a detail failure that brings
    the counter to 5 refreshes the context, sleeps 5 to 10 and leaves the
    counter at 0; any other detail failure adds one; anything else resets
    the counter; and only the refresh closes the context. *)
Definition counter_step (detail_failed : bool) (before after : nat) (ev : list event)
  : Prop :=
  if detail_failed then
    if (5 <=? S before)%nat then
      after = 0%nat
      /\ exists launch rest,
           ev = (EvCloseContext :: launch ++ EvNewContext :: EvSleep 0 5 10 :: rest)%list
           /\ (launch = [] \/ launch = [EvLaunch])
           /\ ~ In EvCloseContext rest
    else after = S before /\ ~ In EvCloseContext ev
  else after = 0%nat /\ ~ In EvCloseContext ev.

(** A reader of dates that accepts every text. *)
Definition accepts_all (parse : string -> option datetime) : Prop :=
  forall text, parse text <> None.

(** One search page of six listings, before a site whose page loads
    all fail. *)
Definition six_items : list element :=
  [sample_item "1"; sample_item "2"; sample_item "3";
   sample_item "4"; sample_item "5"; sample_item "6"].


(** Readers for the sample runs: of dates, one that accepts every text;
    of titles from an address, one that finds none. *)
Definition any_date (text : string) : option datetime := Some (Naive 0).

Definition no_title (url : string) : option string := None.

(** The address of the first search page of the sample runs. *)
Definition sample_search_page : string :=
  "https://www.seekbusiness.com.au/businesses-for-sale/in-sunshine-coast-qld?rad=50&pg=1".

(** The number of page loads among the events of a trace. *)
Definition loads (tr : list event) : nat :=
  length (List.filter (fun e => match e with EvGoto _ => true | _ => false end) tr).

(** The number of rate-limit sleeps, [time.sleep(random.uniform(1.0, 3.0))],
    among the events of a trace. *)
Definition rate_limit_sleeps (tr : list event) : nat :=
  length (List.filter (fun e => match e with
                                 | EvSleep 0 1 3 => true
                                 | _ => false
                                 end) tr).

(** The result items of the first of the answers that is a search page
    with result items. *)
Fixpoint first_loaded (answers : list response) : list element :=
  match answers with
  | [] => []
  | r :: rest =>
      if list_load_fails r then first_loaded rest
      else match r with
           | Page d => doc_items d
           | Fails => []
           end
  end.

(** An answer after which [_fetch_detail_page] tries again, if it has an
    attempt left: a failed load, or a page that is blocked and not sold. *)
Definition retryable (r : response) : bool :=
  match r with
  | Fails => true
  | Page d => negb (title_is_sold (doc_title d)) && _is_blocked_page (doc_title d)
  end.

(** What [_fetch_detail_page] makes of the answer to its last page load
    ([None]: the site had no answer left). *)
Definition detail_of (extract_title : string -> option string) (detail_url : string)
                     (answer : option response) : detail_result :=
  match answer with
  | Some (Page d) =>
      if title_is_sold (doc_title d) then SOLD_SENTINEL
      else (if _is_blocked_page (doc_title d)
            then extract_title detail_url
            else doc_title d,
            doc_description d, doc_posted_relative d, doc_posted_calculated d,
            doc_structured_data d)
  | Some Fails | None => detail_failure
  end.

(** An answer that ends the attempts of [_fetch_detail_page] whatever
    their number: a page that is sold or not blocked. *)
Definition settles (answer : option response) : Prop :=
  exists d, answer = Some (Page d) /\ retryable (Page d) = false.


(** A sign-in page. *)
Definition blocked_page (description : option string) : document :=
  {| doc_items := []; doc_title := Some "Sign in to continue";
     doc_description := description; doc_posted_relative := None;
     doc_posted_calculated := None; doc_structured_data := PDict [] |}.

End Seek.

(* ===================================================================== *)
(** ** fetchers/base.py: the registry of fetchers *)
(* ===================================================================== *)

Module Registry.
Import PyStr Listing.

(** A [ListingFetcher], through its [source_name]; [F] is what else a
    fetcher is made of. *)
Record ListingFetcher (F : Type) := {
  source_name : string;
  impl : F
}.
Arguments source_name {F} _.
Arguments impl {F} _.

(** [FetcherRegistry._fetchers], a dict from source names to fetchers,
    in the order of insertion. *)
Definition registry (F : Type) : Type := list (string * ListingFetcher F).

Inductive exn :=
| KeyError (message : string).

(** [d[k] = v]: a key that is present keeps its place. *)
Fixpoint dict_set {V} (k : string) (v : V) (d : list (string * V)) : list (string * V) :=
  match d with
  | [] => [(k, v)]
  | (k', v') :: rest =>
      if String.eqb k' k then (k, v) :: rest else (k', v') :: dict_set k v rest
  end.

(** [d.get(k)]. *)
Fixpoint dict_lookup {V} (k : string) (d : list (string * V)) : option V :=
  match d with
  | [] => None
  | (k', v') :: rest => if String.eqb k' k then Some v' else dict_lookup k rest
  end.

(** [FetcherRegistry.register]. *)
Definition register {F} (fetcher : ListingFetcher F) (r : registry F) : registry F :=
  dict_set (source_name fetcher) fetcher r.

(** [FetcherRegistry.get]. *)
Definition get {F} (name : string) (r : registry F) : ListingFetcher F + exn :=
  match dict_lookup name r with
  | None => inr (KeyError ("No fetcher registered for source: " ++ name))
  | Some fetcher => inl fetcher
  end.

(** [FetcherRegistry.list_sources]. *)
Definition list_sources {F} (r : registry F) : list string := List.map fst r.

(** The registry after the modules of the fetchers were imported, as
    main.py imports them: mock.py first, then seek.py. *)
Definition imported {F} (mock seek : F) : registry F :=
  register {| source_name := "seekbusiness"; impl := seek |}
    (register {| source_name := "mock"; impl := mock |} []).

End Registry.

(* ===================================================================== *)
(** ** daily_run.py: the fetch step *)
(* ===================================================================== *)

Module Daily.
Import PyStr Listing Repository Cli.
Local Open Scope repo_scope.




Section FetchListings.
Variable parse_datetime : string -> option datetime.
Variable _extract_title_from_url : string -> option string.


End FetchListings.

End Daily.

(* ===================================================================== *)
(** * Properties *)
(* ===================================================================== *)

(** ** The eligibility filter *)

Module FilterFacts.
Import PyStr Listing.

Lemma prefix_append (p s : string) : String.prefix p (p ++ s) = true.
Proof.
  induction p as [|a p IH]; simpl.
  - by destruct s.
  - destruct (ascii_dec a a) as [_|ne]; [exact IH|congruence].
Qed.

Lemma kind_price (x : string) : reason_kind_of ("Price $" ++ x) = Some KPrice.
Proof. unfold reason_kind_of. by rewrite (prefix_append "Price $"). Qed.

Lemma kind_industry (x : string) : reason_kind_of ("Industry '" ++ x) = Some KIndustry.
Proof. unfold reason_kind_of. by rewrite (prefix_append "Industry '"). Qed.

Lemma kind_title (x : string) :
  reason_kind_of ("Title contains excluded keyword '" ++ x) = Some KTitle.
Proof.
  unfold reason_kind_of.
  by rewrite (prefix_append "Title contains excluded keyword '").
Qed.

Lemma kind_freshness (x : string) : reason_kind_of ("Listed " ++ x) = Some KFreshness.
Proof. unfold reason_kind_of. by rewrite (prefix_append "Listed "). Qed.

Lemma price_check_cases (f : ListingFilter) (l : BusinessListing) (v : verdict) :
  price_check f l v = v
  \/ exists r, price_check f l v = fail v r /\ reason_kind_of r = Some KPrice.
Proof.
  unfold price_check.
  destruct (price l) as [p|]; [|by left].
  destruct (negb (p =? 0)%Z && (p >? max_price f)%Z); [|by left].
  right. eexists. split; [reflexivity|apply kind_price].
Qed.

Lemma industry_loop_kind (excl : list string) (ind r : string) :
  industry_loop excl ind = Some r -> reason_kind_of r = Some KIndustry.
Proof.
  induction excl as [|e excl IH]; simpl; [discriminate|].
  destruct (str_in (lower e) (lower ind)); [|exact IH].
  intros [= <-]. apply kind_industry.
Qed.

Lemma industry_check_cases (f : ListingFilter) (l : BusinessListing) (v : verdict) :
  industry_check f l v = v
  \/ exists r, industry_check f l v = fail v r /\ reason_kind_of r = Some KIndustry.
Proof.
  unfold industry_check.
  destruct (truthy_list (excluded_industries f) && truthy_str (industry l)); [|by left].
  destruct (industry_loop _ _) as [r|] eqn:E; [|by left].
  right. exists r. split; [reflexivity|]. by eapply industry_loop_kind.
Qed.

Lemma title_loop_kind (kws allowed : list string) (tl il r : string) :
  title_loop kws allowed tl il = Some r -> reason_kind_of r = Some KTitle.
Proof.
  induction kws as [|k kws IH]; simpl; [discriminate|].
  destruct (str_in (lower k) tl); [|exact IH].
  destruct (String.eqb (lower k) "franchise").
  - destruct (is_allowed_franchise allowed il); [exact IH|].
    intros [= <-]. apply kind_title.
  - intros [= <-]. apply kind_title.
Qed.

Lemma title_check_cases (f : ListingFilter) (l : BusinessListing) (v : verdict) :
  title_check f l v = v
  \/ exists r, title_check f l v = fail v r /\ reason_kind_of r = Some KTitle.
Proof.
  unfold title_check.
  destruct (truthy_list (excluded_title_keywords f) && negb (String.eqb (title l) ""));
    [|by left].
  cbv zeta.
  destruct (title_loop _ _ _ _) as [r|] eqn:E; [|by left].
  right. exists r. split; [reflexivity|]. by eapply title_loop_kind.
Qed.

Lemma freshness_check_cases (now : Z) (f : ListingFilter) (l : BusinessListing) (v : verdict) :
  freshness_check now f l v = v
  \/ exists r, freshness_check now f l v = fail v r /\ reason_kind_of r = Some KFreshness.
Proof.
  unfold freshness_check.
  destruct (max_days_listed f) as [m|]; [|by left].
  destruct (posted_date l) as [d|]; [|by left].
  destruct (negb (m =? 0)%Z); [|by left].
  destruct (days_listed now d) as [n|]; [|by left].
  destruct (n >? m)%Z; [|by left].
  right. eexists. split; [reflexivity|apply kind_freshness].
Qed.

(** The freshness check reads the clock only through the number of whole
    days since the posting. *)
Lemma freshness_check_days (now1 now2 : Z) (f : ListingFilter) (l : BusinessListing)
                           (v : verdict) :
  days_since_posted now1 l = days_since_posted now2 l ->
  freshness_check now1 f l v = freshness_check now2 f l v.
Proof.
  unfold days_since_posted, freshness_check.
  destruct (max_days_listed f) as [m|]; [|done].
  destruct (posted_date l) as [d|]; [|done].
  by intros ->.
Qed.


Lemma sorted_snoc (kinds : list reason_kind) (kd : reason_kind) :
  StronglySorted (fun a b => (kind_rank a < kind_rank b)%nat) kinds ->
  Forall (fun x => (kind_rank x < kind_rank kd)%nat) kinds ->
  StronglySorted (fun a b => (kind_rank a < kind_rank b)%nat) (kinds ++ [kd]).
Proof.
  induction 1 as [|a kinds Hs IH Ha]; intros Hall; simpl.
  - repeat constructor.
  - inversion Hall as [|? ? Hlt Hrest]; subst.
    constructor; [by apply IH|].
    apply Forall_app. split; [exact Ha|]. by repeat constructor.
Qed.

Lemma ordered_below_mono (k k' : nat) (v : verdict) :
  ordered_below k v -> (k <= k')%nat -> ordered_below k' v.
Proof.
  intros (Hp & kinds & H2 & Hs & Hb) Hle.
  split; [exact Hp|]. exists kinds. repeat split; try assumption.
  eapply Forall_impl; [exact Hb|]. simpl. intros; lia.
Qed.

Lemma ordered_below_fail (k : nat) (v : verdict) (r : string) (kd : reason_kind) :
  ordered_below k v -> reason_kind_of r = Some kd -> (k <= kind_rank kd)%nat ->
  ordered_below (S (kind_rank kd)) (fail v r).
Proof.
  intros (Hp & kinds & H2 & Hs & Hb) Hk Hle.
  split.
  - unfold fail; simpl. by destruct (snd v).
  - exists (kinds ++ [kd])%list. unfold fail; simpl. repeat split.
    + apply Forall2_app; [exact H2|]. by repeat constructor.
    + apply sorted_snoc; [exact Hs|].
      eapply Forall_impl; [exact Hb|]. simpl. intros; lia.
    + apply Forall_app. split.
      * eapply Forall_impl; [exact Hb|]. simpl. intros; lia.
      * repeat constructor.
Qed.

Lemma evaluate_ordered (now : Z) (f : ListingFilter) (l : BusinessListing) :
  ordered_verdict (evaluate now f l).
Proof.
  assert (H0 : ordered_below 0 (true, [])).
  { split; [reflexivity|]. exists []. repeat constructor. }
  assert (H1 : ordered_below 1 (price_check f l (true, []))).
  { destruct (price_check_cases f l (true, [])) as [-> | (r & -> & K)].
    - by eapply ordered_below_mono; [exact H0|lia].
    - by apply (ordered_below_fail 0 _ _ KPrice); [|exact K|simpl; lia]. }
  set (v1 := price_check f l (true, [])) in *.
  assert (H2 : ordered_below 2 (industry_check f l v1)).
  { destruct (industry_check_cases f l v1) as [-> | (r & -> & K)].
    - by eapply ordered_below_mono; [exact H1|lia].
    - by apply (ordered_below_fail 1 _ _ KIndustry); [|exact K|simpl; lia]. }
  set (v2 := industry_check f l v1) in *.
  assert (H3 : ordered_below 3 (title_check f l v2)).
  { destruct (title_check_cases f l v2) as [-> | (r & -> & K)].
    - by eapply ordered_below_mono; [exact H2|lia].
    - by apply (ordered_below_fail 2 _ _ KTitle); [|exact K|simpl; lia]. }
  set (v3 := title_check f l v2) in *.
  assert (H4 : ordered_below 4 (freshness_check now f l v3)).
  { destruct (freshness_check_cases now f l v3) as [-> | (r & -> & K)].
    - by eapply ordered_below_mono; [exact H3|lia].
    - by apply (ordered_below_fail 3 _ _ KFreshness); [|exact K|simpl; lia]. }
  destruct H4 as (Hp & kinds & Hk & Hs & _).
  split; [exact Hp|]. by exists kinds.
Qed.

(** C3, as amended.  [evaluate] is a function of the listing, the
    configuration and the clock: two invocations on the same listing and
    configuration return the same [(passes, reasons)] pair whenever the
    clock gives the same number of whole days since the posting (or the
    listing has no usable posting date); and every verdict has its
    reasons in the order price, industry, title, freshness, at most one
    of each, and passes exactly when there is none. *)
Theorem evaluate_clock_and_order (f : ListingFilter) (l : BusinessListing) :
  (forall now1 now2 : Z,
      days_since_posted now1 l = days_since_posted now2 l ->
      evaluate now1 f l = evaluate now2 f l)
  /\ (forall now : Z, ordered_verdict (evaluate now f l)).
Proof.
  split.
  - intros now1 now2 H. unfold evaluate. by apply freshness_check_days.
  - intros now. apply evaluate_ordered.
Qed.


Lemma evaluate_clock_and_order_witness :
  days_since_posted (60 * us_per_day) aging_listing
    = days_since_posted (60 * us_per_day + 5) aging_listing
  /\ evaluate (60 * us_per_day) default_filter aging_listing
     = evaluate (60 * us_per_day + 5) default_filter aging_listing.
Proof.
  split; [reflexivity|].
  apply (proj1 (evaluate_clock_and_order default_filter aging_listing)).
  reflexivity.
Defined.

(** C3 as stated fails: the same listing under the same configuration
    passes on its 60th day and fails on its 61st. *)
Lemma evaluate_not_pure :
  evaluate (60 * us_per_day) default_filter aging_listing = (true, [])
  /\ evaluate (61 * us_per_day) default_filter aging_listing
     = (false, ["Listed 61 days ago (max 60)"])
  /\ evaluate (60 * us_per_day) default_filter aging_listing
     <> evaluate (61 * us_per_day) default_filter aging_listing.
Proof.
  split; [vm_compute; reflexivity|].
  split; [vm_compute; reflexivity|].
  vm_compute. discriminate.
Qed.

(** The title loop finds no reason exactly when every keyword that
    occurs in the title is "franchise" and is forgiven. *)
Lemma title_loop_none (kws allowed : list string) (tl il : string) :
  title_loop kws allowed tl il = None
  <-> (forall k, In k kws -> str_in (lower k) tl = true ->
         lower k = "franchise" /\ is_allowed_franchise allowed il = true).
Proof.
  induction kws as [|k kws IH]; simpl.
  - split; [intros _ k []|reflexivity].
  - destruct (str_in (lower k) tl) eqn:Hin.
    + destruct (String.eqb (lower k) "franchise") eqn:Hf.
      * apply String.eqb_eq in Hf.
        destruct (is_allowed_franchise allowed il) eqn:Ha.
        -- rewrite IH. split.
           ++ intros H k' [<-|Hk'] Hk; [by split|by apply H].
           ++ intros H k' Hk'. apply H. by right.
        -- split; [discriminate|].
           intros H. destruct (H k (or_introl eq_refl) Hin) as [_ ?]. discriminate.
      * apply String.eqb_neq in Hf.
        split; [discriminate|].
        intros H. destruct (H k (or_introl eq_refl) Hin) as [? _]. contradiction.
    + rewrite IH. split.
      * intros H k' [<-|Hk'] Hk; [congruence|by apply H].
      * intros H k' Hk'. apply H. by right.
Qed.

(** A reason of the title loop cites a keyword that occurs in the title
    and is not forgiven. *)
Lemma title_loop_some (kws allowed : list string) (tl il r : string) :
  title_loop kws allowed tl il = Some r ->
  exists k, In k kws
            /\ r = "Title contains excluded keyword '" ++ k ++ "'"
            /\ str_in (lower k) tl = true
            /\ (lower k = "franchise" -> is_allowed_franchise allowed il = false).
Proof.
  induction kws as [|k kws IH]; simpl; [discriminate|].
  destruct (str_in (lower k) tl) eqn:Hin.
  - destruct (String.eqb (lower k) "franchise") eqn:Hf.
    + destruct (is_allowed_franchise allowed il) eqn:Ha.
      * intros H. destruct (IH H) as (k' & ? & ?). exists k'. split; [by right|done].
      * intros [= <-]. exists k. split; [by left|]. by repeat split.
    + apply String.eqb_neq in Hf.
      intros [= <-]. exists k. split; [by left|]. by repeat split.
  - intros H. destruct (IH H) as (k' & ? & ?). exists k'. split; [by right|done].
Qed.

(** Allowed industries written in lower case are matched whatever the
    case of the industry of the listing. *)
Lemma is_allowed_franchise_lower (allowed : list string) (ind : string) :
  Forall (fun a => lower a = a) allowed ->
  is_allowed_franchise allowed (lower ind)
  = existsb (fun a => str_in (lower a) (lower ind)) allowed.
Proof.
  unfold is_allowed_franchise. induction 1 as [|a allowed Ha _ IH]; [done|].
  cbn [existsb]. by rewrite Ha, IH.
Qed.

(** With the default configuration a franchise title passes the title
    check for the industry "Legal Services" and fails it, citing
    "franchise", for the industry "Retail". *)
Lemma franchise_default_examples :
  title_check default_filter
    (sample_listing "Conveyancing Franchise" None (Some "Legal Services") None) (true, [])
  = (true, [])
  /\ title_check default_filter
       (sample_listing "Conveyancing Franchise" None (Some "Retail") None) (true, [])
     = (false, ["Title contains excluded keyword 'franchise'"]).
Proof. split; vm_compute; reflexivity. Qed.

(** C5 at the input on which the code departs from it: the allowed
    industry "Legal" occurs in "Legal Services", also when case is
    ignored, and yet the keyword is not forgiven. *)
Theorem franchise_allowed_is_case_sensitive :
  str_in (lower "Legal") (lower "Legal Services") = true
  /\ evaluate 0 capital_filter
       (sample_listing "Conveyancing Franchise" None (Some "Legal Services") None)
     = (false, ["Title contains excluded keyword 'franchise'"]).
Proof. split; vm_compute; reflexivity. Qed.

End FilterFacts.

(** ** The dedup and status store *)

Module RepositoryFacts.
Import PyStr Listing Repository.
Local Open Scope repo_scope.

Lemma rows_with_id_absent (x : string) (t : list ListingORM) :
  ~ In x (List.map orm_id t) -> rows_with_id x t = [].
Proof.
  induction t as [|a t IH]; simpl; [done|].
  intros H. destruct (String.eqb (orm_id a) x) eqn:E.
  - apply String.eqb_eq in E. destruct H. by left.
  - apply IH. intros ?. apply H. by right.
Qed.

Lemma lookup_id_absent (x : string) (t : list ListingORM) :
  ~ In x (List.map orm_id t) <-> lookup_id x t = None.
Proof.
  unfold lookup_id. induction t as [|a t IH]; simpl.
  - split; [done|tauto].
  - destruct (String.eqb (orm_id a) x) eqn:E.
    + apply String.eqb_eq in E. split; [|done]. intros H. destruct H. by left.
    + apply String.eqb_neq in E. rewrite <- IH. tauto.
Qed.

Lemma lookup_id_some (x : string) (t : list ListingORM) (r : ListingORM) :
  lookup_id x t = Some r -> In r t /\ orm_id r = x.
Proof.
  unfold lookup_id. intros H. apply find_some in H as [? E].
  by apply String.eqb_eq in E.
Qed.

(** Under the primary key the rows with an id are the row [lookup_id]
    finds, if any. *)
Lemma rows_with_id_unique (x : string) (t : list ListingORM) :
  pk_unique t ->
  rows_with_id x t = match lookup_id x t with Some r => [r] | None => [] end.
Proof.
  unfold pk_unique, rows_with_id, lookup_id.
  induction t as [|a t IH]; simpl; [done|].
  intros Hnd. apply List.NoDup_cons_iff in Hnd as [Ha Hnd].
  destruct (String.eqb (orm_id a) x) eqn:E.
  - apply String.eqb_eq in E. subst x.
    f_equal. by apply rows_with_id_absent.
  - by apply IH.
Qed.

Lemma lookup_id_in (t : list ListingORM) (r : ListingORM) :
  pk_unique t -> In r t -> lookup_id (orm_id r) t = Some r.
Proof.
  unfold pk_unique, lookup_id.
  induction t as [|a t IH]; simpl; [done|].
  intros Hnd. apply List.NoDup_cons_iff in Hnd as [Ha Hnd].
  intros [->|Hin].
  - by rewrite String.eqb_refl.
  - destruct (String.eqb (orm_id a) (orm_id r)) eqn:E; [|by apply IH].
    apply String.eqb_eq in E. destruct Ha. rewrite E. by apply in_map.
Qed.

Lemma get_by_id_spec (x : string) (s : session) :
  pk_unique (table s) -> get_by_id x s = Ok (lookup_id x (table s)) s.
Proof.
  intros Hpk. unfold get_by_id, bind, select_where.
  fold (rows_with_id x (table s)). rewrite (rows_with_id_unique x _ Hpk).
  by destruct (lookup_id x (table s)).
Qed.

(** Without the primary key too: no row with the id, no object. *)
Lemma get_by_id_absent (x : string) (s : session) :
  ~ In x (List.map orm_id (table s)) -> get_by_id x s = Ok None s.
Proof.
  intros H. unfold get_by_id, bind, select_where.
  fold (rows_with_id x (table s)). by rewrite rows_with_id_absent.
Qed.

Lemma filter_id_source (x src : string) (t : list ListingORM) :
  List.filter (fun r => String.eqb (orm_id r) x && String.eqb (orm_source r) src) t
  = List.filter (fun r => String.eqb (orm_source r) src) (rows_with_id x t).
Proof.
  unfold rows_with_id. induction t as [|a t IH]; simpl; [done|].
  destruct (String.eqb (orm_id a) x); simpl; [|exact IH].
  destruct (String.eqb (orm_source a) src); by rewrite IH.
Qed.

(** [exists] answers for the pair of id and source. *)
Lemma exists_spec (x src : string) (s : session) :
  pk_unique (table s) ->
  exists_ x src s
  = Ok (match lookup_id x (table s) with
        | Some r => String.eqb (orm_source r) src
        | None => false
        end) s.
Proof.
  intros Hpk. unfold exists_, bind, select_where.
  rewrite filter_id_source, (rows_with_id_unique x _ Hpk).
  destruct (lookup_id x (table s)) as [r|]; simpl; [|done].
  by destruct (String.eqb (orm_source r) src).
Qed.

Lemma map_id_replace (orm : ListingORM) (t : list ListingORM) :
  List.map orm_id (List.map (replace_row orm) t) = List.map orm_id t.
Proof.
  induction t as [|a t IH]; simpl; [done|]. rewrite IH. f_equal.
  unfold replace_row. destruct (String.eqb (orm_id a) (orm_id orm)) eqn:E; [|done].
  by apply String.eqb_eq in E.
Qed.

Lemma lookup_id_replace (x : string) (orm : ListingORM) (t : list ListingORM) :
  lookup_id x (List.map (replace_row orm) t)
  = if String.eqb (orm_id orm) x
    then match lookup_id x t with Some _ => Some orm | None => None end
    else lookup_id x t.
Proof.
  unfold lookup_id. induction t as [|a t IH]; simpl.
  - by destruct (String.eqb (orm_id orm) x).
  - assert (Hid : orm_id (replace_row orm a) = orm_id a).
    { unfold replace_row.
      destruct (String.eqb (orm_id a) (orm_id orm)) eqn:E; [|done].
      by apply String.eqb_eq in E. }
    rewrite Hid.
    destruct (String.eqb (orm_id a) x) eqn:E'; [|exact IH].
    apply String.eqb_eq in E'. subst x.
    unfold replace_row. rewrite (String.eqb_sym (orm_id orm)).
    by destruct (String.eqb (orm_id a) (orm_id orm)).
Qed.

Lemma refresh_spec (orm : ListingORM) (s : session) :
  refresh orm s
  = match lookup_id (orm_id orm) (table s) with
    | Some r => Ok r s
    | None => Raise ObjectDeletedError s
    end.
Proof.
  unfold refresh, bind, select_where, lookup_id.
  induction (table s) as [|a t IH]; simpl; [done|].
  destruct (String.eqb (orm_id a) (orm_id orm)); [done|exact IH].
Qed.


Lemma existsb_lookup_id (x : string) (t : list ListingORM) :
  existsb (fun r => String.eqb (orm_id r) x) t
  = match lookup_id x t with Some _ => true | None => false end.
Proof.
  unfold lookup_id. induction t as [|a t IH]; simpl; [done|].
  by destruct (String.eqb (orm_id a) x).
Qed.

Lemma lookup_id_app (x : string) (t u : list ListingORM) :
  lookup_id x (t ++ u)
  = match lookup_id x t with Some r => Some r | None => lookup_id x u end.
Proof.
  unfold lookup_id. induction t as [|a t IH]; simpl; [done|].
  by destruct (String.eqb (orm_id a) x).
Qed.

Lemma pk_unique_replace (orm : ListingORM) (t : list ListingORM) :
  pk_unique t -> pk_unique (List.map (replace_row orm) t).
Proof. unfold pk_unique. by rewrite map_id_replace. Qed.

Lemma pk_unique_add (orm : ListingORM) (t : list ListingORM) :
  pk_unique t -> lookup_id (orm_id orm) t = None -> pk_unique (t ++ [orm]).
Proof.
  unfold pk_unique. intros Hnd Hno. apply lookup_id_absent in Hno.
  rewrite List.map_app. simpl. clear -Hnd Hno.
  induction (List.map orm_id t) as [|a l IH]; simpl.
  - constructor; [intros []|constructor].
  - apply List.NoDup_cons_iff in Hnd as [Ha Hnd].
    constructor.
    + rewrite in_app_iff. intros [?|[E|[]]]; [done|]. apply Hno. left. congruence.
    + apply IH; [done|]. intros ?. apply Hno. by right.
Qed.

(** What [_update] and [_create] leave in the session. *)
Lemma _update_spec (now : Z) (existing r0 : ListingORM) (listing : BusinessListing)
                   (s : session) :
  lookup_id (orm_id existing) (table s) = Some r0 ->
  _update now existing listing s
  = Ok (assign_update now existing listing)
       {| table := List.map (replace_row (assign_update now existing listing)) (table s);
          log := (log s ++ [EvCommit])%list |}.
Proof.
  intros H. unfold _update, bind, flush, commit. cbv zeta.
  rewrite refresh_spec. cbn [table log].
  rewrite lookup_id_replace. cbn [orm_id assign_update].
  by rewrite String.eqb_refl, H.
Qed.

Lemma _create_spec (now : Z) (listing : BusinessListing) (s : session) :
  lookup_id (id listing) (table s) = None ->
  _create now listing s
  = Ok (new_row now listing)
       {| table := (table s ++ [new_row now listing])%list;
          log := (log s ++ [EvCommit])%list |}.
Proof.
  intros H. unfold _create, bind, add, commit. cbv zeta.
  rewrite existsb_lookup_id. cbn [orm_id new_row]. rewrite H.
  rewrite refresh_spec. cbn [table log].
  rewrite lookup_id_app. cbn [orm_id new_row]. rewrite H.
  unfold lookup_id. simpl. by rewrite String.eqb_refl.
Qed.

Lemma save_spec (now : Z) (listing : BusinessListing) (s : session) :
  pk_unique (table s) ->
  save now listing s = Ok (fst (saved now listing s)) (snd (saved now listing s)).
Proof.
  intros Hpk. unfold save, bind, saved. rewrite (get_by_id_spec _ _ Hpk).
  destruct (lookup_id (id listing) (table s)) as [e|] eqn:E.
  - destruct (lookup_id_some _ _ _ E) as [_ He].
    rewrite (_update_spec now e e); [done|]. by rewrite He.
  - by rewrite _create_spec.
Qed.

Lemma saved_pk_unique (now : Z) (listing : BusinessListing) (s : session) :
  pk_unique (table s) -> pk_unique (table (snd (saved now listing s))).
Proof.
  intros Hpk. unfold saved.
  destruct (lookup_id (id listing) (table s)) as [e|] eqn:E; cbn [snd table].
  - by apply pk_unique_replace.
  - by apply pk_unique_add.
Qed.

(** After [save] the row with the id of the listing is the returned one. *)
Lemma saved_lookup (now : Z) (listing : BusinessListing) (s : session) :
  lookup_id (id listing) (table (snd (saved now listing s)))
  = Some (fst (saved now listing s)).
Proof.
  unfold saved.
  destruct (lookup_id (id listing) (table s)) as [e|] eqn:E; cbn [fst snd table].
  - destruct (lookup_id_some _ _ _ E) as [_ He].
    rewrite lookup_id_replace. cbn [orm_id assign_update].
    apply String.eqb_eq in He. by rewrite He, E.
  - rewrite lookup_id_app, E. unfold lookup_id. simpl.
    by rewrite String.eqb_refl.
Qed.

Lemma save_with_dedup_check_spec (now : Z) (listing : BusinessListing) (s : session) :
  pk_unique (table s) ->
  save_with_dedup_check now listing s
  = Ok (fst (saved now listing s),
        negb (match lookup_id (id listing) (table s) with
              | Some r => String.eqb (orm_source r) (source listing)
              | None => false
              end))
       (snd (saved now listing s)).
Proof.
  intros Hpk. unfold save_with_dedup_check, bind.
  rewrite (exists_spec _ _ _ Hpk), (save_spec _ _ _ Hpk). reflexivity.
Qed.


(** Two upserts of one listing in a row: both succeed, one row has the
    id afterwards, and the second answer is [is_new = False] exactly when
    the row has the source of the listing. *)
Lemma upsert_twice (now1 now2 : Z) (listing : BusinessListing) (s : session) :
  pk_unique (table s) ->
  exists r1 n1 s1 r2 s2,
    save_with_dedup_check now1 listing s = Ok (r1, n1) s1
    /\ save_with_dedup_check now2 listing s1
       = Ok (r2, negb (String.eqb (orm_source r1) (source listing))) s2
    /\ rows_with_id (id listing) (table s2) = [r2]
    /\ pk_unique (table s2).
Proof.
  intros Hpk.
  pose proof (saved_pk_unique now1 listing s Hpk) as Hpk1.
  pose proof (saved_lookup now1 listing s) as Hl1.
  set (s1 := snd (saved now1 listing s)) in *.
  set (r1 := fst (saved now1 listing s)) in *.
  pose proof (saved_pk_unique now2 listing s1 Hpk1) as Hpk2.
  pose proof (saved_lookup now2 listing s1) as Hl2.
  eexists r1, _, s1, (fst (saved now2 listing s1)), (snd (saved now2 listing s1)).
  split; [by apply save_with_dedup_check_spec|].
  split; [rewrite (save_with_dedup_check_spec _ _ _ Hpk1); by rewrite Hl1|].
  split; [|done].
  by rewrite (rows_with_id_unique _ _ Hpk2), Hl2.
Qed.

(** C1 at the input on which the code departs from it: the table holds
    a row with the id of the listing that came from another source.  Both
    upserts answer [is_new = True], although neither creates a row: one
    row has the id before and after. *)
Theorem upsert_twice_across_sources :
  rows_with_id "seek_1" (table other_source_session) = [other_source_row]
  /\ exists r1 s1 r2 s2,
       save_with_dedup_check 1 (sample_financials None None None) other_source_session
       = Ok (r1, true) s1
       /\ save_with_dedup_check 2 (sample_financials None None None) s1
          = Ok (r2, true) s2
       /\ rows_with_id "seek_1" (table s2) = [r2]
       /\ orm_source r2 = "mock".
Proof.
  split; [reflexivity|].
  do 4 eexists.
  split; [vm_compute; reflexivity|].
  split; [vm_compute; reflexivity|].
  split; reflexivity.
Qed.

(** C9.  For a listing whose id is that of a stored row [r] from another
    source: [exists] answers for the pair of id and source (among the
    sources, only for that of [r] does it say yes), [get_by_id] finds [r]
    by the id alone, and [save_with_dedup_check] answers [is_new = True]
    while it overwrites [r] in place: the table keeps its length and its
    ids, and the row keeps the other source. *)
Theorem dedup_check_and_save_use_different_keys
    (now : Z) (listing : BusinessListing) (s : session) (r : ListingORM) :
  pk_unique (table s) ->
  In r (table s) ->
  orm_id r = id listing ->
  orm_source r <> source listing ->
  (forall src, exists_ (id listing) src s = Ok (String.eqb (orm_source r) src) s)
  /\ exists_ (id listing) (source listing) s = Ok false s
  /\ get_by_id (id listing) s = Ok (Some r) s
  /\ exists row s',
       save_with_dedup_check now listing s = Ok (row, true) s'
       /\ row = assign_update now r listing
       /\ table s' = List.map (replace_row row) (table s)
       /\ length (table s') = length (table s)
       /\ List.map orm_id (table s') = List.map orm_id (table s)
       /\ rows_with_id (id listing) (table s') = [row]
       /\ orm_source row = orm_source r
       /\ orm_title row = title listing.
Proof.
  intros Hpk Hin Hid Hsrc.
  pose proof (lookup_id_in _ _ Hpk Hin) as Hl. rewrite Hid in Hl.
  assert (Hne : String.eqb (orm_source r) (source listing) = false)
    by by apply String.eqb_neq.
  split; [intros src; by rewrite (exists_spec _ _ _ Hpk), Hl|].
  split; [by rewrite (exists_spec _ _ _ Hpk), Hl, Hne|].
  split; [by rewrite (get_by_id_spec _ _ Hpk), Hl|].
  pose proof (saved_pk_unique now listing s Hpk) as Hpk'.
  pose proof (saved_lookup now listing s) as Hl'.
  rewrite (save_with_dedup_check_spec _ _ _ Hpk), Hl, Hne.
  unfold saved in *. rewrite Hl in *. cbn [fst snd table] in *.
  eexists _, _. split; [reflexivity|].
  split; [reflexivity|]. split; [reflexivity|].
  cbn [table].
  split; [by rewrite List.length_map|].
  split; [by rewrite map_id_replace|].
  split; [by rewrite (rows_with_id_unique _ _ Hpk'), Hl'|].
  split; reflexivity.
Qed.

Lemma dedup_check_and_save_use_different_keys_witness :
  pk_unique (table other_source_session)
  /\ In other_source_row (table other_source_session)
  /\ orm_id other_source_row = id (sample_financials None None None)
  /\ orm_source other_source_row <> source (sample_financials None None None)
  /\ exists row s',
       save_with_dedup_check 1 (sample_financials None None None) other_source_session
       = Ok (row, true) s'
       /\ length (table s') = 1%nat
       /\ orm_source row = "mock".
Proof.
  assert (Hpk : pk_unique (table other_source_session)).
  { unfold pk_unique. simpl. constructor; [intros []|constructor]. }
  assert (Hin : In other_source_row (table other_source_session)) by (simpl; by left).
  assert (Hsrc : orm_source other_source_row <> source (sample_financials None None None))
    by (simpl; discriminate).
  split; [exact Hpk|]. split; [exact Hin|]. split; [reflexivity|]. split; [exact Hsrc|].
  destruct (dedup_check_and_save_use_different_keys 1 (sample_financials None None None)
              other_source_session other_source_row Hpk Hin eq_refl Hsrc)
    as (_ & _ & _ & row & s' & Hs & _ & _ & Hlen & _ & _ & Hso & _).
  exists row, s'. split; [exact Hs|]. split; [exact Hlen|exact Hso].
Defined.

Lemma update_status_absent (now : Z) (x : string) (st : ListingStatus) (p : option Z)
                            (s : session) :
  ~ In x (List.map orm_id (table s)) -> update_status now x st p s = Ok tt s.
Proof.
  intros H. unfold update_status, bind. by rewrite get_by_id_absent.
Qed.

(** C10.  [update_status] for an id that no row has returns normally and
    leaves the session as it was: every row, and no commit. *)
Theorem update_status_unknown_id_is_noop
    (now : Z) (listing_id : string) (status : ListingStatus) (processed_at : option Z)
    (s : session) :
  ~ In listing_id (List.map orm_id (table s)) ->
  update_status now listing_id status processed_at s = Ok tt s.
Proof. apply update_status_absent. Qed.

Lemma update_status_unknown_id_is_noop_witness :
  ~ In "seek_2" (List.map orm_id (table other_source_session))
  /\ update_status 5 "seek_2" PREFILTER_FAIL (Some 5%Z) other_source_session
     = Ok tt other_source_session.
Proof.
  assert (H : ~ In "seek_2" (List.map orm_id (table other_source_session))).
  { simpl. intros [E|[]]. discriminate E. }
  split; [exact H|].
  exact (update_status_unknown_id_is_noop 5 "seek_2" PREFILTER_FAIL (Some 5%Z)
           other_source_session H).
Defined.


Lemma calc_ebitda_margin_some (listing : BusinessListing) (e r : Z) :
  ebitda listing = Some e -> revenue listing = Some r -> (r > 0)%Z -> e <> 0%Z ->
  calc_ebitda_margin listing = Some (truediv e r).
Proof.
  intros He Hr Hpos Hnz. unfold calc_ebitda_margin. rewrite He, Hr.
  assert (E1 : (e =? 0)%Z = false) by by apply Z.eqb_neq.
  assert (E2 : (r =? 0)%Z = false) by (apply Z.eqb_neq; lia).
  assert (E3 : (r >? 0)%Z = true) by (apply Z.gtb_lt; lia).
  by rewrite E1, E2, E3.
Qed.

Lemma calc_ebitda_margin_none (listing : BusinessListing) :
  ~ (exists e r, ebitda listing = Some e /\ revenue listing = Some r
                 /\ (r > 0)%Z /\ e <> 0%Z) ->
  calc_ebitda_margin listing = None.
Proof.
  intros H. unfold calc_ebitda_margin.
  destruct (ebitda listing) as [e|]; [|done].
  destruct (revenue listing) as [r|]; [|done].
  destruct (negb (e =? 0)%Z && negb (r =? 0)%Z && (r >? 0)%Z) eqn:E; [|done].
  destruct H. exists e, r.
  apply andb_prop in E as [E E3]. apply andb_prop in E as [E1 E2].
  apply negb_true_iff, Z.eqb_neq in E1. apply Z.gtb_lt in E3.
  repeat split; [lia|done].
Qed.

Lemma calc_asking_multiple_some (listing : BusinessListing) (p e : Z) :
  price listing = Some p -> ebitda listing = Some e -> (e > 0)%Z -> p <> 0%Z ->
  calc_asking_multiple listing = Some (truediv p e).
Proof.
  intros Hp He Hpos Hnz. unfold calc_asking_multiple. rewrite Hp, He.
  assert (E1 : (p =? 0)%Z = false) by by apply Z.eqb_neq.
  assert (E2 : (e =? 0)%Z = false) by (apply Z.eqb_neq; lia).
  assert (E3 : (e >? 0)%Z = true) by (apply Z.gtb_lt; lia).
  by rewrite E1, E2, E3.
Qed.

Lemma calc_asking_multiple_none (listing : BusinessListing) :
  ~ (exists p e, price listing = Some p /\ ebitda listing = Some e
                 /\ (e > 0)%Z /\ p <> 0%Z) ->
  calc_asking_multiple listing = None.
Proof.
  intros H. unfold calc_asking_multiple.
  destruct (price listing) as [p|]; [|done].
  destruct (ebitda listing) as [e|]; [|done].
  destruct (negb (p =? 0)%Z && negb (e =? 0)%Z && (e >? 0)%Z) eqn:E; [|done].
  destruct H. exists p, e.
  apply andb_prop in E as [E E3]. apply andb_prop in E as [E1 E2].
  apply negb_true_iff, Z.eqb_neq in E1. apply Z.gtb_lt in E3.
  repeat split; [lia|done].
Qed.

(** C2, as amended.  [save] succeeds on a table with its primary key and
    stores the row it returns.  In that row, created or updated,
    [ebitda_margin] is [ebitda / revenue] whenever [revenue > 0] and
    [ebitda] is set and not zero, and [asking_multiple] is
    [price / ebitda] whenever [ebitda > 0] and [price] is set and not
    zero.  In a created row both are absent in all other cases. *)
Theorem derived_metrics_on_save (now : Z) (listing : BusinessListing) (s : session) :
  pk_unique (table s) ->
  exists row s',
    save now listing s = Ok row s'
    /\ lookup_id (id listing) (table s') = Some row
    /\ (forall e r,
          ebitda listing = Some e -> revenue listing = Some r ->
          (r > 0)%Z -> e <> 0%Z ->
          orm_ebitda_margin row = Some (truediv e r))
    /\ (forall p e,
          price listing = Some p -> ebitda listing = Some e ->
          (e > 0)%Z -> p <> 0%Z ->
          orm_asking_multiple row = Some (truediv p e))
    /\ (lookup_id (id listing) (table s) = None ->
        (~ (exists e r, ebitda listing = Some e /\ revenue listing = Some r
                        /\ (r > 0)%Z /\ e <> 0%Z) ->
         orm_ebitda_margin row = None)
        /\ (~ (exists p e, price listing = Some p /\ ebitda listing = Some e
                           /\ (e > 0)%Z /\ p <> 0%Z) ->
            orm_asking_multiple row = None)).
Proof.
  intros Hpk.
  exists (fst (saved now listing s)), (snd (saved now listing s)).
  split; [by apply save_spec|].
  split; [by apply saved_lookup|].
  unfold saved.
  destruct (lookup_id (id listing) (table s)) as [existing|] eqn:E; cbn [fst].
  - split; [|split; [|discriminate]].
    + intros e r He Hr Hpos Hnz. cbn [orm_ebitda_margin assign_update].
      by rewrite (calc_ebitda_margin_some _ e r).
    + intros p e Hp He Hpos Hnz. cbn [orm_asking_multiple assign_update].
      by rewrite (calc_asking_multiple_some _ p e).
  - split; [|split; [|intros _; split]].
    + intros e r He Hr Hpos Hnz. by apply calc_ebitda_margin_some.
    + intros p e Hp He Hpos Hnz. by apply calc_asking_multiple_some.
    + apply calc_ebitda_margin_none.
    + apply calc_asking_multiple_none.
Qed.

Lemma derived_metrics_on_save_witness :
  pk_unique (table other_source_session)
  /\ exists row s',
       save 7 (sample_financials (Some 900000%Z) (Some 180000%Z) (Some 400000%Z))
            other_source_session = Ok row s'
       /\ orm_ebitda_margin row = Some (truediv 180000 900000)
       /\ orm_asking_multiple row = Some (truediv 400000 180000).
Proof.
  assert (Hpk : pk_unique (table other_source_session)).
  { unfold pk_unique. simpl. constructor; [intros []|constructor]. }
  split; [exact Hpk|].
  destruct (derived_metrics_on_save 7
              (sample_financials (Some 900000%Z) (Some 180000%Z) (Some 400000%Z))
              other_source_session Hpk)
    as (row & s' & Hs & _ & Hm & Ha & _).
  exists row, s'. split; [exact Hs|]. split.
  - apply Hm; [reflexivity|reflexivity|lia|lia].
  - apply Ha; [reflexivity|reflexivity|lia|lia].
Defined.

(** C2 as stated fails: a listing with [revenue = 100 > 0] and [ebitda]
    set, to [0], is stored without an [ebitda_margin], not with
    [0 / 100]; likewise [price = 0] with [ebitda = 20 > 0] is stored
    without an [asking_multiple]. *)
Lemma zero_amounts_leave_metrics_absent :
  exists row s',
    save 0 (sample_financials (Some 100%Z) (Some 0%Z) None) empty_session = Ok row s'
    /\ orm_revenue row = Some 100%Z
    /\ orm_ebitda row = Some 0%Z
    /\ orm_ebitda_margin row = None
    /\ orm_ebitda_margin row <> Some (truediv 0 100)
  /\ exists row2 s2,
    save 0 (sample_financials None (Some 20%Z) (Some 0%Z)) empty_session = Ok row2 s2
    /\ orm_price row2 = Some 0%Z
    /\ orm_ebitda row2 = Some 20%Z
    /\ orm_asking_multiple row2 = None.
Proof.
  eexists _, _. split; [vm_compute; reflexivity|].
  do 3 (split; [reflexivity|]).
  split; [discriminate|].
  eexists _, _. split; [vm_compute; reflexivity|].
  repeat split.
Qed.

(** An update under which a derived metric is not computed keeps the
    value stored before, where a creation stores none. *)
Lemma update_keeps_stale_metrics :
  exists row s',
    save 9 (sample_financials None None None) other_source_session = Ok row s'
    /\ orm_revenue row = None
    /\ orm_ebitda row = None
    /\ orm_ebitda_margin row = Some (truediv 180000 900000)
    /\ orm_asking_multiple row = Some (truediv 400000 180000).
Proof.
  eexists _, _. split; [vm_compute; reflexivity|]. repeat split.
Qed.

End RepositoryFacts.

(** ** The filtering pass *)

Module CliFacts.
Import PyStr Listing Repository Cli RepositoryFacts.
Local Open Scope repo_scope.

Lemma frame_refl (x : string) (s : session) : pk_unique (table s) -> frame x s s.
Proof. intros H. repeat split; [done|]. intros e He. by left. Qed.

Lemma frame_trans (x : string) (s1 s2 s3 : session) :
  frame x s1 s2 -> frame x s2 s3 -> frame x s1 s3.
Proof.
  intros (Hp1 & Hi1 & Hl1 & Hg1) (Hp2 & Hi2 & Hl2 & Hg2).
  repeat split; [done|congruence|congruence|].
  intros e He. destruct (Hg2 e He) as [H|H]; [by apply Hg1|by right].
Qed.

Lemma in_log_app (e : event) (l : list event) (e' : event) :
  In e (l ++ [e']) -> In e l \/ e = e'.
Proof.
  rewrite in_app_iff. intros [H|[H|[]]]; [by left|by right].
Qed.

(** Writing a row leaves the rows of the other ids alone. *)
Lemma frame_replace (x : string) (orm : ListingORM) (s : session) :
  pk_unique (table s) -> x <> orm_id orm ->
  frame x s {| table := List.map (replace_row orm) (table s);
               log := (log s ++ [EvCommit])%list |}.
Proof.
  intros Hpk Hne. repeat split; cbn [table log].
  - by apply pk_unique_replace.
  - apply map_id_replace.
  - rewrite lookup_id_replace.
    destruct (String.eqb (orm_id orm) x) eqn:E; [|done].
    apply String.eqb_eq in E. congruence.
  - intros e He. apply in_log_app in He as [H| ->]; [by left|by right].
Qed.

Lemma onupdate_id (now : Z) (r r' : ListingORM) :
  orm_id (onupdate now r r') = orm_id r'.
Proof. unfold onupdate. by destruct (_ && _). Qed.

Lemma assign_status_id (r : ListingORM) (st : ListingStatus) (p : option Z) :
  orm_id (assign_status r st p) = orm_id r.
Proof. unfold assign_status. by destruct p. Qed.

Lemma update_status_spec (now : Z) (x : string) (st : ListingStatus) (p : option Z)
                         (s : session) (r : ListingORM) :
  pk_unique (table s) -> lookup_id x (table s) = Some r ->
  update_status now x st p s
  = Ok tt {| table := List.map (replace_row (onupdate now r (assign_status r st p)))
                               (table s);
             log := (log s ++ [EvCommit])%list |}.
Proof.
  intros Hpk Hl. unfold update_status, bind.
  by rewrite (get_by_id_spec _ _ Hpk), Hl.
Qed.

Lemma update_status_frame (now : Z) (y : string) (st : ListingStatus) (p : option Z)
                          (s : session) (x : string) :
  pk_unique (table s) -> x <> y ->
  exists s', update_status now y st p s = Ok tt s' /\ frame x s s'.
Proof.
  intros Hpk Hne.
  destruct (lookup_id y (table s)) as [r|] eqn:E.
  - rewrite (update_status_spec _ _ _ _ _ r Hpk E). eexists. split; [done|].
    apply frame_replace; [done|].
    rewrite onupdate_id, assign_status_id.
    destruct (lookup_id_some _ _ _ E) as [_ ->]. done.
  - exists s. split; [|by apply frame_refl].
    apply update_status_absent. by apply lookup_id_absent.
Qed.


Lemma process_listing_frame (now : Z) (pf : PrefilterService) (l : BusinessListing)
                            (s : session) (x : string) (r0 : ListingORM) :
  pk_unique (table s) -> lookup_id (id l) (table s) = Some r0 -> x <> id l ->
  exists v s', process_listing now pf l s = Ok v s' /\ frame x s s'.
Proof.
  intros Hpk Hl Hne. unfold process_listing, bind.
  rewrite (save_with_dedup_check_spec _ _ _ Hpk).
  pose proof (saved_pk_unique now l s Hpk) as Hpk1.
  assert (Hf1 : frame x s (snd (saved now l s))).
  { unfold saved. rewrite Hl. cbn [snd].
    apply frame_replace; [done|]. cbn [orm_id assign_update].
    destruct (lookup_id_some _ _ _ Hl) as [_ ->]. done. }
  set (s1 := snd (saved now l s)) in *.
  unfold call_evaluate.
  set (s2 := {| table := table s1; log := (log s1 ++ [EvEvaluate (id l)])%list |}).
  assert (Hf2 : frame x s1 s2).
  { repeat split; cbn [table log]; [done|].
    intros e He. apply in_log_app in He as [H| ->]; [by left|right].
    intros [= E]. by apply Hne. }
  destruct (update_status_frame now (id l)
              (if fst (evaluate now (filters pf) l) then PREFILTER_PASS else PREFILTER_FAIL)
              None s2 x Hpk1 Hne) as (s3 & -> & Hf3).
  eexists _, s3. split; [reflexivity|].
  eapply frame_trans; [exact Hf1|]. eapply frame_trans; [exact Hf2|exact Hf3].
Qed.

(** The loop over listings none of which is [x]. *)
Lemma filter_loop_frame (now : Z) (pf : PrefilterService) (x : string)
                        (todo : list ListingORM) :
  forall (t : tally) (s : session),
    pk_unique (table s) ->
    (forall o, In o todo -> In (orm_id o) (List.map orm_id (table s))) ->
    ~ In x (List.map orm_id todo) ->
    exists t' s', filter_loop now pf todo t s = Ok t' s' /\ frame x s s'.
Proof.
  induction todo as [|o todo IH]; intros t s Hpk Hsub Hx.
  - exists t, s. split; [done|by apply frame_refl].
  - cbn [filter_loop]. unfold bind at 1. rewrite refresh_spec.
    destruct (lookup_id (orm_id o) (table s)) as [ry|] eqn:Ey.
    2:{ apply lookup_id_absent in Ey. destruct Ey. apply Hsub. by left. }
    destruct (lookup_id_some _ _ _ Ey) as [_ Hy].
    assert (Hne : x <> orm_id ry).
    { rewrite Hy. intros ->. apply Hx. by left. }
    assert (Hx' : ~ In x (List.map orm_id todo)) by (intros ?; apply Hx; by right).
    assert (Hnext : forall s', frame x s s' ->
              forall o', In o' todo -> In (orm_id o') (List.map orm_id (table s'))).
    { intros s' (_ & Hi & _) o' Ho'. rewrite Hi. apply Hsub. by right. }
    destruct (is_sold (model_validate ry)).
    + destruct (update_status_frame now (id (model_validate ry)) PREFILTER_FAIL None
                  s x Hpk Hne) as (s1 & Hs1 & Hf1).
      unfold bind. rewrite Hs1.
      destruct (IH {| passed := passed t; failed := failed t;
                      skipped_sold := S (skipped_sold t) |} s1)
        as (t' & s' & Hs' & Hf'); [by destruct Hf1|by apply Hnext|done|].
      exists t', s'. split; [done|]. by eapply frame_trans.
    + destruct (process_listing_frame now pf (model_validate ry) s x ry Hpk)
        as (v & s1 & Hs1 & Hf1); [by rewrite <- Hy in Ey|done|].
      unfold bind. rewrite Hs1.
      destruct (fst v).
      * destruct (IH {| passed := S (passed t); failed := failed t;
                        skipped_sold := skipped_sold t |} s1)
          as (t' & s' & Hs' & Hf'); [by destruct Hf1|by apply Hnext|done|].
        exists t', s'. split; [done|]. by eapply frame_trans.
      * destruct (IH {| passed := passed t; failed := S (failed t);
                        skipped_sold := skipped_sold t |} s1)
          as (t' & s' & Hs' & Hf'); [by destruct Hf1|by apply Hnext|done|].
        exists t', s'. split; [done|]. by eapply frame_trans.
Qed.


(** The loop over listings one of which is the sold listing [x]. *)
Lemma filter_loop_sold (now : Z) (pf : PrefilterService) (x : string) (r : ListingORM)
                       (todo : list ListingORM) :
  is_sold (model_validate r) = true ->
  forall (t : tally) (s : session),
    pk_unique (table s) ->
    (forall o, In o todo -> In (orm_id o) (List.map orm_id (table s))) ->
    List.NoDup (List.map orm_id todo) ->
    In x (List.map orm_id todo) ->
    lookup_id x (table s) = Some r ->
    exists t' s',
      filter_loop now pf todo t s = Ok t' s'
      /\ pk_unique (table s')
      /\ lookup_id x (table s') = Some (forced_fail now r)
      /\ (forall e, In e (log s') -> In e (log s) \/ e <> EvEvaluate x).
Proof.
  intros Hsold.
  induction todo as [|o todo IH]; intros t s Hpk Hsub Hnd Hx Hr; [destruct Hx|].
  cbn [List.map] in Hnd. apply List.NoDup_cons_iff in Hnd as [Ho Hnd].
  cbn [filter_loop]. unfold bind at 1. rewrite refresh_spec.
  destruct (lookup_id (orm_id o) (table s)) as [ry|] eqn:Ey.
  2:{ apply lookup_id_absent in Ey. destruct Ey. apply Hsub. by left. }
  destruct (lookup_id_some _ _ _ Ey) as [_ Hy].
  assert (Hnext : forall s', List.map orm_id (table s') = List.map orm_id (table s) ->
            forall o', In o' todo -> In (orm_id o') (List.map orm_id (table s'))).
  { intros s' Hi o' Ho'. rewrite Hi. apply Hsub. by right. }
  destruct (String.eqb (orm_id o) x) eqn:Eo.
  - (* this is the sold listing *)
    apply String.eqb_eq in Eo. rewrite Eo in Ey, Ho. rewrite Hr in Ey.
    injection Ey as <-. rewrite Hsold.
    assert (Hid : id (model_validate r) = x) by (cbn; congruence).
    unfold bind. rewrite Hid, (update_status_spec _ _ _ _ _ r Hpk Hr).
    fold (forced_fail now r).
    set (s1 := {| table := List.map (replace_row (forced_fail now r)) (table s);
                  log := (log s ++ [EvCommit])%list |}).
    assert (Hfid : orm_id (forced_fail now r) = x).
    { unfold forced_fail. by rewrite onupdate_id, assign_status_id. }
    assert (Hpk1 : pk_unique (table s1)) by by apply pk_unique_replace.
    assert (Hl1 : lookup_id x (table s1) = Some (forced_fail now r)).
    { cbn [table s1]. rewrite lookup_id_replace, Hfid, String.eqb_refl. by rewrite Hr. }
    destruct (filter_loop_frame now pf x todo
                {| passed := passed t; failed := failed t;
                   skipped_sold := S (skipped_sold t) |} s1 Hpk1)
      as (t' & s' & Hs' & Hp' & _ & Hl' & Hg'); [|done|].
    { apply Hnext. cbn [table s1]. apply map_id_replace. }
    exists t', s'. split; [done|]. split; [done|]. split; [congruence|].
    intros e He. destruct (Hg' e He) as [H|H]; [|by right].
    cbn [log s1] in H. apply in_log_app in H as [H| ->]; [by left|by right].
  - (* another listing *)
    apply String.eqb_neq in Eo.
    assert (Hne : x <> orm_id ry) by congruence.
    assert (Hx' : In x (List.map orm_id todo)).
    { destruct Hx as [Hx|Hx]; [congruence|done]. }
    destruct (is_sold (model_validate ry)).
    + destruct (update_status_frame now (id (model_validate ry)) PREFILTER_FAIL None
                  s x Hpk Hne) as (s1 & Hs1 & Hp1 & Hi1 & Hl1 & Hg1).
      unfold bind. rewrite Hs1.
      destruct (IH {| passed := passed t; failed := failed t;
                      skipped_sold := S (skipped_sold t) |} s1)
        as (t' & s' & Hs' & Hp' & Hl' & Hg');
        [done|by apply Hnext|done|done|congruence|].
      exists t', s'. split; [done|]. split; [done|]. split; [done|].
      intros e He. destruct (Hg' e He) as [H|H]; [by apply Hg1|by right].
    + destruct (process_listing_frame now pf (model_validate ry) s x ry Hpk)
        as (v & s1 & Hs1 & Hp1 & Hi1 & Hl1 & Hg1); [by rewrite <- Hy in Ey|done|].
      unfold bind. rewrite Hs1.
      destruct (fst v).
      * destruct (IH {| passed := S (passed t); failed := failed t;
                        skipped_sold := skipped_sold t |} s1)
          as (t' & s' & Hs' & Hp' & Hl' & Hg');
          [done|by apply Hnext|done|done|congruence|].
        exists t', s'. split; [done|]. split; [done|]. split; [done|].
        intros e He. destruct (Hg' e He) as [H|H]; [by apply Hg1|by right].
      * destruct (IH {| passed := passed t; failed := S (failed t);
                        skipped_sold := skipped_sold t |} s1)
          as (t' & s' & Hs' & Hp' & Hl' & Hg');
          [done|by apply Hnext|done|done|congruence|].
        exists t', s'. split; [done|]. split; [done|]. split; [done|].
        intros e He. destruct (Hg' e He) as [H|H]; [by apply Hg1|by right].
Qed.


Lemma status_eqb_eq (a b : ListingStatus) : status_eqb a b = true <-> a = b.
Proof. split; [by destruct a, b|intros ->; by destruct b]. Qed.

Lemma filter_ids_nodup (p : ListingORM -> bool) (t : list ListingORM) :
  pk_unique t -> List.NoDup (List.map orm_id (List.filter p t)).
Proof.
  unfold pk_unique. induction t as [|a t IH]; simpl; [constructor|].
  intros Hnd. apply List.NoDup_cons_iff in Hnd as [Ha Hnd].
  destruct (p a); [|by apply IH].
  simpl. constructor; [|by apply IH].
  intros Hin. apply Ha. apply in_map_iff in Hin as (o & Ho & Hin).
  apply filter_In in Hin as [Hin _]. rewrite <- Ho. by apply in_map.
Qed.

(** The loop on the listings of one status, for a sold one among them. *)
Lemma filter_pass_sold (now : Z) (pf : PrefilterService) (s : session) (r : ListingORM) :
  pk_unique (table s) -> In r (table s) -> orm_status r = NEW ->
  is_sold (model_validate r) = true ->
  exists new_listings t s',
    get_by_status NEW None s = Ok new_listings s
    /\ filter_loop now pf new_listings
         {| passed := 0; failed := 0; skipped_sold := 0 |} s = Ok t s'
    /\ lookup_id (orm_id r) (table s') = Some (forced_fail now r)
    /\ (forall e, In e (log s') -> In e (log s) \/ e <> EvEvaluate (orm_id r)).
Proof.
  intros Hpk Hin Hst Hsold.
  set (todo := List.filter (fun o => status_eqb (orm_status o) NEW) (table s)).
  destruct (filter_loop_sold now pf (orm_id r) r todo Hsold
              {| passed := 0; failed := 0; skipped_sold := 0 |} s Hpk)
    as (t & s' & Hs' & _ & Hl' & Hg').
  - intros o Ho. apply filter_In in Ho as [Ho _]. by apply in_map.
  - by apply filter_ids_nodup.
  - apply in_map. apply filter_In. split; [done|]. by apply status_eqb_eq.
  - by apply lookup_id_in.
  - exists todo, t, s'. by repeat split.
Qed.

(** A title that contains "sold" is not empty. *)
Lemma sold_title_is_sold (r : ListingORM) :
  str_in "sold" (lower (orm_title r)) = true -> is_sold (model_validate r) = true.
Proof.
  unfold is_sold. cbn [title model_validate]. intros H. rewrite H.
  destruct (orm_title r); [discriminate H|reflexivity].
Qed.

Lemma forced_fail_fields (now : Z) (r : ListingORM) :
  orm_status (forced_fail now r) = PREFILTER_FAIL
  /\ model_validate (forced_fail now r) = model_validate r
  /\ orm_ebitda_margin (forced_fail now r) = orm_ebitda_margin r
  /\ orm_asking_multiple (forced_fail now r) = orm_asking_multiple r
  /\ orm_processed_at (forced_fail now r) = orm_processed_at r.
Proof.
  unfold forced_fail, onupdate, assign_status.
  by destruct (_ && _).
Qed.

(** C4.  A stored listing whose title contains "sold", whatever its
    price, industry and other fields: the filtering pass of
    [filter_command] (when the listing is NEW) and that of
    [reset_and_filter] (always) end normally with the row of the listing
    in status PREFILTER_FAIL and its listing fields as they were, and no
    call of [evaluate] for it was made on the way. *)
Theorem sold_listing_forced_to_fail
    (now max_price : Z) (s : session) (r : ListingORM) :
  pk_unique (table s) ->
  In r (table s) ->
  str_in "sold" (lower (orm_title r)) = true ->
  (orm_status r = NEW ->
   exists t s' r',
     filter_command now max_price s = Ok t s'
     /\ lookup_id (orm_id r) (table s') = Some r'
     /\ orm_status r' = PREFILTER_FAIL
     /\ model_validate r' = model_validate r
     /\ (forall e, In e (log s') -> In e (log s) \/ e <> EvEvaluate (orm_id r)))
  /\ (exists c s' r',
        reset_and_filter now s = Ok c s'
        /\ lookup_id (orm_id r) (table s') = Some r'
        /\ orm_status r' = PREFILTER_FAIL
        /\ model_validate r' = model_validate r
        /\ (forall e, In e (log s') -> In e (log s) \/ e <> EvEvaluate (orm_id r))).
Proof.
  intros Hpk Hin Htitle.
  pose proof (sold_title_is_sold r Htitle) as Hsold. split.
  - intros Hst.
    destruct (filter_pass_sold now (new_PrefilterService (Some (make_filter max_price)))
                s r Hpk Hin Hst Hsold) as (todo & t & s' & Hg & Hs' & Hl' & Hlog).
    exists t, s', (forced_fail now r).
    split; [unfold filter_command, bind; cbv zeta; by rewrite Hg|].
    split; [done|].
    destruct (forced_fail_fields now r) as (? & ? & _). by repeat split.
  - set (reset := fun o => set_last_updated_at (set_status o NEW) now).
    set (s0 := {| table := List.map reset (table s);
                  log := (log s ++ [EvCommit])%list |}).
    assert (Hids : List.map orm_id (table s0) = List.map orm_id (table s)).
    { cbn [table s0]. rewrite List.map_map. by apply List.map_ext. }
    assert (Hpk0 : pk_unique (table s0)) by (unfold pk_unique; by rewrite Hids).
    assert (Hin0 : In (reset r) (table s0)) by (cbn [table s0]; by apply in_map).
    destruct (filter_pass_sold now (new_PrefilterService (Some default_filter))
                s0 (reset r) Hpk0 Hin0 eq_refl Hsold)
      as (todo & t & s' & Hg & Hs' & Hl' & Hlog).
    exists (passed t, failed t), s', (forced_fail now (reset r)).
    split.
    { unfold reset_and_filter, bind, reset_all. cbv zeta.
      fold reset. fold s0. by rewrite Hg, Hs'. }
    split; [exact Hl'|].
    destruct (forced_fail_fields now (reset r)) as (Hfs & Hmv & _).
    split; [done|]. split; [by rewrite Hmv|].
    intros e He. destruct (Hlog e He) as [Hx|Hx]; [|by right].
    cbn [log s0] in Hx. apply in_log_app in Hx as [Hx| ->]; [by left|by right].
Qed.

Lemma sold_listing_forced_to_fail_witness :
  pk_unique (table sample_store)
  /\ In sold_cafe (table sample_store)
  /\ str_in "sold" (lower (orm_title sold_cafe)) = true
  /\ orm_status sold_cafe = NEW
  /\ exists t s' r',
       filter_command 5 1000000 sample_store = Ok t s'
       /\ lookup_id "seek_2" (table s') = Some r'
       /\ orm_status r' = PREFILTER_FAIL
       /\ ~ In (EvEvaluate "seek_2") (log s').
Proof.
  assert (Hpk : pk_unique (table sample_store)).
  { unfold pk_unique. simpl.
    repeat (constructor; [simpl; intuition discriminate|]).
    constructor. }
  assert (Hin : In sold_cafe (table sample_store)) by (simpl; right; by left).
  assert (Hsold : str_in "sold" (lower (orm_title sold_cafe)) = true) by reflexivity.
  split; [exact Hpk|]. split; [exact Hin|]. split; [exact Hsold|].
  split; [reflexivity|].
  destruct (sold_listing_forced_to_fail 5 1000000 sample_store sold_cafe Hpk Hin Hsold)
    as [Hf _].
  destruct (Hf eq_refl) as (t & s' & r' & Hs & Hl & Hst & _ & Hlog).
  exists t, s', r'. split; [exact Hs|]. split; [exact Hl|]. split; [exact Hst|].
  intros He. destruct (Hlog _ He) as [[]|Hne]. by apply Hne.
Defined.

End CliFacts.

(** ** The fetch orchestrator *)

Module SeekFacts.
Import PyStr Listing Seek.
Local Open Scope fetch_scope.

Lemma loads_only_refl (s : state) : loads_only s s.
Proof.
  repeat split; [lia|]. exists []. split; [by rewrite app_nil_r|constructor].
Qed.

Lemma loads_only_trans (s1 s2 s3 : state) :
  loads_only s1 s2 -> loads_only s2 s3 -> loads_only s1 s3.
Proof.
  intros (Hs1 & Hv1 & Hl1 & ev1 & Ht1 & Hq1) (Hs2 & Hv2 & Hl2 & ev2 & Ht2 & Hq2).
  repeat split; [congruence|congruence|lia|].
  exists (ev1 ++ ev2)%list. split.
  - by rewrite Ht2, Ht1, <- app_assoc.
  - by apply Forall_app.
Qed.

Lemma emit_loads (e : event) (s : state) :
  quiet e = true -> exists s', emit e s = Ok tt s' /\ loads_only s s'.
Proof.
  intros Hq. eexists. split; [reflexivity|].
  repeat split; cbn; [lia|]. exists [e]. split; [done|by repeat constructor].
Qed.

Lemma sleep_loads (base lo hi : Z) (s : state) :
  exists s', sleep base lo hi s = Ok tt s' /\ loads_only s s'.
Proof. by apply emit_loads. Qed.

(** A page load either gives a document, and then the site has one
    answer less, or raises. *)
Lemma goto_loads (p : nat) (url : string) (s : state) :
  (exists d s', goto p url s = Ok d s' /\ loads_only s s'
                /\ (length (script s') < length (script s))%nat)
  \/ (exists e s', goto p url s = Raise e s' /\ loads_only s s').
Proof.
  unfold goto.
  destruct (_context (self s)) as [q|];
    [|right; eexists _, _; split; [reflexivity|apply loads_only_refl]].
  destruct (Nat.eqb p q);
    [|right; eexists _, _; split; [reflexivity|apply loads_only_refl]].
  assert (Hl : forall scr,
             script s = scr ->
             loads_only s {| script := tail scr; self := self s; vars := vars s;
                             trace := (trace s ++ [EvGoto url])%list |}).
  { intros scr Hscr. repeat split; cbn.
    - rewrite Hscr. destruct scr; simpl; lia.
    - exists [EvGoto url]. split; [done|by repeat constructor]. }
  destruct (script s) as [|[|d] rest] eqn:E.
  - right. eexists _, _. split; [reflexivity|]. rewrite <- E. by apply Hl.
  - right. eexists _, _. split; [reflexivity|]. rewrite <- E. by apply Hl.
  - left. eexists _, _. split; [reflexivity|]. split.
    + rewrite <- E. by apply Hl.
    + cbn. lia.
Qed.


(** One attempt at a search page: result items, with an answer of the
    site used up, or an exception. *)
Lemma list_attempt_spec (p : nat) (url : string) (s : state) :
  exists r s',
    try_ (d <- goto p url ;; wait_for_selector d ;;; ret (doc_items d)) s = Ok r s'
    /\ loads_only s s'
    /\ match r with
       | inl items => items <> [] /\ (length (script s') < length (script s))%nat
       | inr _ => True
       end.
Proof.
  unfold try_, bind.
  destruct (goto_loads p url s) as [(d & s1 & -> & Hl & Hlen)|(e & s1 & -> & Hl)].
  - unfold wait_for_selector. destruct (doc_items d) as [|i items] eqn:E.
    + by eexists (inr _), s1.
    + exists (inl (i :: items)), s1. split; [reflexivity|]. split; [exact Hl|]. by split.
  - by eexists (inr _), s1.
Qed.

(** [_fetch_list_page] never raises: it returns the result items of a
    page that loaded, or the empty list. *)
Lemma list_page_attempts_spec (todo : nat) :
  forall (attempt p : nat) (url : string) (s : state),
  exists items s',
    list_page_attempts todo attempt p url s = Ok items s'
    /\ loads_only s s'
    /\ (items <> [] -> (length (script s') < length (script s))%nat).
Proof.
  induction todo as [|todo IH]; intros attempt p url s.
  - exists [], s. split; [done|]. split; [apply loads_only_refl|done].
  - cbn [list_page_attempts]. unfold bind at 1.
    destruct (list_attempt_spec p url s) as (r & s1 & -> & Hl1 & Hr).
    destruct r as [items|e].
    + exists items, s1. split; [done|]. split; [done|]. intros _. by destruct Hr.
    + destruct (attempt <? max_retries)%nat.
      * destruct (sleep_loads (3 * Z.of_nat attempt) 0 2 s1) as (s2 & Hs2 & Hl2).
        unfold bind. rewrite Hs2.
        destruct (IH (S attempt) p url s2) as (items & s3 & -> & Hl3 & Hlen).
        exists items, s3. split; [done|].
        assert (Hl : loads_only s s3).
        { eapply loads_only_trans; [exact Hl1|].
          eapply loads_only_trans; [exact Hl2|exact Hl3]. }
        split; [done|]. intros Hne. specialize (Hlen Hne).
        destruct Hl1 as (_ & _ & ? & _). destruct Hl2 as (_ & _ & ? & _). lia.
      * exists [], s1. split; [reflexivity|]. by split.
Qed.

(** [_fetch_detail_page] never raises. *)
Lemma detail_page_attempts_spec (et : string -> option string) (todo : nat) :
  forall (attempt p : nat) (url : string) (s : state),
  exists res s',
    detail_page_attempts et todo attempt p url s = Ok res s' /\ loads_only s s'.
Proof.
  induction todo as [|todo IH]; intros attempt p url s.
  - exists detail_failure, s. split; [done|apply loads_only_refl].
  - cbn [detail_page_attempts]. unfold bind at 1, try_, bind at 1.
    destruct (sleep_loads 0 1 3 s) as (s0 & -> & Hl0).
    assert (Hretry : forall base s1, loads_only s s1 ->
              exists res s',
                (sleep base 0 2 ;;; detail_page_attempts et todo (S attempt) p url) s1
                = Ok res s' /\ loads_only s s').
    { intros base s1 Hl1. unfold bind.
      destruct (sleep_loads base 0 2 s1) as (s2 & -> & Hl2).
      destruct (IH (S attempt) p url s2) as (res & s3 & -> & Hl3).
      exists res, s3. split; [done|].
      eapply loads_only_trans; [exact Hl1|].
      eapply loads_only_trans; [exact Hl2|exact Hl3]. }
    assert (Hretry3 : forall base s1, loads_only s s1 ->
              exists res s',
                (sleep base 0 3 ;;; detail_page_attempts et todo (S attempt) p url) s1
                = Ok res s' /\ loads_only s s').
    { intros base s1 Hl1. unfold bind.
      destruct (sleep_loads base 0 3 s1) as (s2 & -> & Hl2).
      destruct (IH (S attempt) p url s2) as (res & s3 & -> & Hl3).
      exists res, s3. split; [done|].
      eapply loads_only_trans; [exact Hl1|].
      eapply loads_only_trans; [exact Hl2|exact Hl3]. }
    destruct (goto_loads p url s0) as [(d & s1 & -> & Hl1 & _)|(e & s1 & -> & Hl1)].
    + assert (Hl : loads_only s s1) by by eapply loads_only_trans.
      destruct (title_is_sold (doc_title d)); [by eexists _, s1|].
      destruct (_is_blocked_page (doc_title d)); [|by eexists _, s1].
      destruct (attempt <? max_retries)%nat; [by apply Hretry3|by eexists _, s1].
    + assert (Hl : loads_only s s1) by by eapply loads_only_trans.
      destruct (attempt <? max_retries)%nat; [by apply Hretry|by eexists _, s1].
Qed.


Section Run.
Variable parse_datetime : string -> option datetime.
Variable extract_title : string -> option string.

(** An element is skipped, or tracked and yielded, after page loads
    only. *)
Lemma process_element_cases (fetch_details : bool) (known_ids : gset string)
                            (e : element) (s : state) :
  exists s1,
    loads_only s s1
    /\ (process_element parse_datetime extract_title fetch_details known_ids e s = Ok tt s1
        \/ process_element parse_datetime extract_title fetch_details known_ids e s
           = incr_skipped s1
        \/ exists b title desc prel pcalc sd df,
             process_element parse_datetime extract_title fetch_details known_ids e s
             = track_and_yield parse_datetime b title desc prel pcalc sd df s1).
Proof.
  remember (process_element parse_datetime extract_title fetch_details known_ids e s)
    as r eqn:Hr.
  unfold process_element, _parse_listing_basic in Hr.
  destruct e as [b|]; [|exists s; split; [apply loads_only_refl|by left]].
  destruct (str_in "sold" (lower (bi_title b)));
    [exists s; split; [apply loads_only_refl|right; by left]|].
  destruct (bool_decide (bi_id b ∈ known_ids));
    [exists s; split; [apply loads_only_refl|right; by left]|].
  destruct (fetch_details && negb (String.eqb (bi_url b) "")).
  - unfold bind, get_vars, _fetch_detail_page in Hr.
    destruct (detail_page_attempts_spec extract_title max_retries 1
                (page (vars s)) (bi_url b) s) as (res & s1 & Hd & Hl).
    rewrite Hd in Hr.
    exists s1. split; [exact Hl|].
    destruct res as [[[[real_title desc] prel] pcalc] sd].
    destruct (match real_title with
              | Some t => String.eqb t "__SOLD__"
              | None => false
              end); [right; by left|].
    right; right. by eexists b, _, desc, prel, pcalc, sd, _.
  - exists s. split; [apply loads_only_refl|].
    right; right. by eexists b, _, None, None, None, (PDict []), false.
Qed.


Ltac unfold_fetch :=
  unfold track_and_yield, refresh_context, new_BusinessListing, _close_context,
    _close_browser, _get_context_and_page, _init_browser, assign_page,
    assign_consecutive_failures, incr_fetched, incr_skipped, incr_page_num,
    sleep, emit, set_vars, set_self, get_vars, get_self, bind, ret, raise.

Lemma keeps_script_bind {A B} (m : F A) (k : A -> F B) :
  keeps_script m -> (forall a, keeps_script (k a)) -> keeps_script (bind m k).
Proof.
  intros Hm Hk s. unfold bind. specialize (Hm s).
  destruct (m s) as [a s1|e s1|s1]; [|done|done].
  specialize (Hk a s1). destruct (k a s1); congruence.
Qed.

Lemma keeps_script_ret {A} (a : A) : keeps_script (ret a).
Proof. by intros s. Qed.

Lemma keeps_script_raise {A} (e : exn) : keeps_script (@raise A e).
Proof. by intros s. Qed.

Lemma keeps_script_emit (e : event) : keeps_script (emit e).
Proof. by intros s. Qed.

Lemma keeps_script_set_vars (v : locals) : keeps_script (set_vars v).
Proof. by intros s. Qed.

Lemma keeps_script_set_self (f : fetcher) : keeps_script (set_self f).
Proof. by intros s. Qed.

Lemma keeps_script_get_vars : keeps_script get_vars.
Proof. by intros s. Qed.

Lemma keeps_script_get_self : keeps_script get_self.
Proof. by intros s. Qed.

Ltac keeps_script_step :=
  first
    [ apply keeps_script_ret
    | apply keeps_script_raise
    | apply keeps_script_emit
    | apply keeps_script_set_vars
    | apply keeps_script_set_self
    | apply keeps_script_get_vars
    | apply keeps_script_get_self
    | apply keeps_script_bind; [|intros ?]
    | match goal with
      | |- keeps_script (if ?c then _ else _) => destruct c
      | |- keeps_script (match ?x with _ => _ end) => destruct x
      end ].

Lemma keeps_script_close_context : keeps_script _close_context.
Proof. unfold _close_context. repeat keeps_script_step. Qed.

Lemma keeps_script_close_browser : keeps_script _close_browser.
Proof. unfold _close_browser. repeat keeps_script_step. Qed.

Lemma keeps_script_get_context_and_page : keeps_script _get_context_and_page.
Proof. unfold _get_context_and_page, _init_browser. repeat keeps_script_step. Qed.

Lemma keeps_script_incr_skipped : keeps_script incr_skipped.
Proof. unfold incr_skipped. repeat keeps_script_step. Qed.

(** Tracking and yielding loads no page. *)
Lemma keeps_script_track_and_yield (b : basic_info) (title : string)
    (desc prel pcalc : option string) (sd : pyval) (df : bool) :
  keeps_script (track_and_yield parse_datetime b title desc prel pcalc sd df).
Proof.
  unfold track_and_yield, refresh_context, new_BusinessListing, assign_page,
    assign_consecutive_failures, incr_fetched, sleep.
  repeat first [ apply keeps_script_close_context
               | apply keeps_script_get_context_and_page
               | keeps_script_step ].
Qed.


(** The body of the loop over the elements, under its [try]: it ends
    normally and the site has no more answers left than before. *)
Lemma process_element_safe (fetch_details : bool) (known_ids : gset string)
                           (e : element) (s : state) :
  exists r s',
    try_ (process_element parse_datetime extract_title fetch_details known_ids e) s
    = Ok r s'
    /\ (length (script s') <= length (script s))%nat.
Proof.
  destruct (process_element_cases fetch_details known_ids e s)
    as (s1 & (_ & _ & Hlen & _) & Hcases).
  unfold try_.
  destruct Hcases as [-> | [-> | (b & title & desc & prel & pcalc & sd & df & ->)]].
  - by eexists _, s1.
  - pose proof (keeps_script_incr_skipped s1) as H.
    destruct (incr_skipped s1) as [a s2|x s2|s2]; [| |done];
      eexists _, s2; (split; [reflexivity|congruence]).
  - pose proof (keeps_script_track_and_yield b title desc prel pcalc sd df s1) as H.
    destruct (track_and_yield _ _ _ _ _ _ _ _ s1) as [a s2|x s2|s2]; [| |done];
      eexists _, s2; (split; [reflexivity|congruence]).
Qed.

Lemma for_elements_safe (count : Z) (fetch_details : bool) (known_ids : gset string)
                        (els : list element) :
  forall s,
  exists s',
    for_elements parse_datetime extract_title count fetch_details known_ids els s
    = Ok tt s'
    /\ (length (script s') <= length (script s))%nat.
Proof.
  induction els as [|e els IH]; intros s.
  - by exists s.
  - cbn [for_elements]. unfold bind at 1, get_vars.
    destruct (count <=? Z.of_nat (fetched (vars s)))%Z; [by exists s|].
    unfold bind at 1.
    destruct (process_element_safe fetch_details known_ids e s) as (r & s1 & -> & Hl1).
    destruct (IH s1) as (s2 & -> & Hl2).
    exists s2. split; [done|lia].
Qed.

(** The loop over the pages ends when it may run for more pages than
    the site has answers left. *)
Lemma while_pages_safe (search_url : string) (count : Z) (fetch_details : bool)
                       (known_ids : gset string) (fuel : nat) :
  forall s,
    (length (script s) < fuel)%nat ->
    exists s',
      while_pages parse_datetime extract_title fuel search_url count fetch_details
                  known_ids s = Ok tt s'.
Proof.
  induction fuel as [|fuel IH]; intros s Hfuel; [lia|].
  cbn [while_pages]. unfold bind at 1, get_vars.
  destruct (Z.of_nat (fetched (vars s)) <? count)%Z; [|by exists s].
  unfold bind at 1, _fetch_list_page.
  destruct (list_page_attempts_spec max_retries 1 (page (vars s))
              (search_url ++ "&pg=" ++ str_of_int (Z.of_nat (page_num (vars s)))) s)
    as (items & s1 & -> & _ & Hlen).
  destruct items as [|i items]; [by exists s1|].
  assert (Hl1 : (length (script s1) < length (script s))%nat) by by apply Hlen.
  unfold bind at 1, assign_consecutive_failures, bind at 1, get_vars, set_vars.
  unfold bind at 1.
  match goal with
  | |- context [for_elements _ _ _ _ _ _ ?st] =>
      destruct (for_elements_safe count fetch_details known_ids (i :: items) st)
        as (s2 & -> & Hl2)
  end.
  cbn [script] in Hl2.
  unfold bind at 1, incr_page_num, bind at 1, get_vars, set_vars.
  apply IH. cbn [script]. lia.
Qed.

(** The cleanup of [fetch] releases the session. *)
Lemma cleanup_spec (s : state) :
  exists s',
    (_close_context ;;; _close_browser) s = Ok tt s'
    /\ _context (self s') = None
    /\ _browser (self s') = false
    /\ script s' = script s
    /\ yields (trace s') = yields (trace s).
Proof.
  destruct s as [scr [br ctx pm] v tr].
  unfold _close_context, _close_browser, bind, get_self, emit, set_self, ret.
  destruct ctx, br; cbn; eexists; (split; [reflexivity|]); cbn;
    repeat split; unfold yields; rewrite ?flat_map_app; cbn;
    by rewrite ?app_nil_r.
Qed.


Lemma yields_quiet (tr ev : list event) :
  Forall (fun e => quiet e = true) ev -> yields (tr ++ ev) = yields tr.
Proof.
  intros H. unfold yields. rewrite flat_map_app.
  induction H as [|e ev He _ IH]; cbn; [by rewrite app_nil_r|].
  destruct e; try discriminate He; exact IH.
Qed.

Lemma loads_only_yields (s s' : state) :
  loads_only s s' -> yields (trace s') = yields (trace s).
Proof. intros (_ & _ & _ & ev & -> & Hq). by apply yields_quiet. Qed.

Lemma firstn_tail_in {A} (n : nat) (l : list A) (x : A) :
  In x (firstn n (tail l)) -> In x (firstn (S n) l).
Proof. destruct l as [|a l]; cbn; [by destruct n|by right]. Qed.

Lemma firstn_in_succ {A} (n : nat) (l : list A) (x : A) :
  In x (firstn n l) -> In x (firstn (S n) l).
Proof.
  revert l. induction n as [|n IH]; intros l; [done|].
  destruct l as [|a l]; [done|]. cbn. intros [->|H]; [by left|right].
  by apply (IH l).
Qed.

(** A search page whose attempts all fail comes back empty. *)
Lemma list_page_attempts_fail (todo : nat) :
  forall (attempt p : nat) (url : string) (s : state),
    (forall r, In r (firstn todo (script s)) -> list_load_fails r = true) ->
    exists s', list_page_attempts todo attempt p url s = Ok [] s' /\ loads_only s s'.
Proof.
  induction todo as [|todo IH]; intros attempt p url s Hfail.
  - exists s. split; [done|apply loads_only_refl].
  - cbn [list_page_attempts]. unfold bind at 1.
    assert (Hone : exists e s1,
               try_ (d <- goto p url ;; wait_for_selector d ;;; ret (doc_items d)) s
               = Ok (inr e) s1
               /\ loads_only s s1
               /\ (forall r, In r (firstn todo (script s1)) -> list_load_fails r = true)).
    { unfold try_, bind.
      destruct (goto_loads p url s) as [(d & s1 & Hg & Hl & _)|(e & s1 & Hg & Hl)].
      - rewrite Hg. unfold goto in Hg.
        destruct (_context (self s)) as [q|]; [|discriminate].
        destruct (Nat.eqb p q); [|discriminate].
        destruct (script s) as [|[|d'] rest] eqn:E; try discriminate.
        injection Hg as -> <-.
        assert (Hd : list_load_fails (Page d) = true) by (apply Hfail; by left).
        unfold wait_for_selector. cbn in Hd.
        destruct (doc_items d); [|discriminate].
        eexists _, _. split; [reflexivity|]. split; [exact Hl|].
        cbn [script tail]. intros r Hr. apply Hfail. by right.
      - rewrite Hg. exists e, s1. split; [reflexivity|]. split; [exact Hl|].
        intros r Hr. apply Hfail.
        unfold goto in Hg.
        destruct (_context (self s)) as [q|];
          [|injection Hg as _ <-; by apply firstn_in_succ].
        destruct (Nat.eqb p q); [|injection Hg as _ <-; by apply firstn_in_succ].
        destruct (script s) as [|[|d'] rest] eqn:E; try discriminate;
          injection Hg as _ <-; cbn [script] in Hr; by apply firstn_tail_in. }
    destruct Hone as (e & s1 & -> & Hl1 & Hfail1).
    destruct (attempt <? max_retries)%nat.
    + destruct (sleep_loads (3 * Z.of_nat attempt) 0 2 s1) as (s2 & Hs2 & Hl2).
      unfold bind. rewrite Hs2.
      destruct (IH (S attempt) p url s2) as (s3 & -> & Hl3).
      { unfold sleep, emit in Hs2. injection Hs2 as <-. exact Hfail1. }
      exists s3. split; [done|].
      eapply loads_only_trans; [exact Hl1|].
      eapply loads_only_trans; [exact Hl2|exact Hl3].
    + by exists s1.
Qed.


Lemma fetch_unfold (site : list response) (location : string) (radius_km count : Z)
                   (fetch_details : bool) (known_ids : option (gset string)) :
  fetch parse_datetime extract_title site location radius_km count fetch_details known_ids
  = finally_
      (while_pages parse_datetime extract_title (S (length site))
                   (_build_search_url location radius_km) count fetch_details
                   (default ∅ known_ids))
      (_close_context ;;; _close_browser)
      (started site).
Proof. reflexivity. Qed.

(** C6, as amended.  No page-load failure raises to the caller: for
    every site and all arguments a run of [fetch] ends normally, with
    the context and the browser closed.  When the first search page
    cannot be loaded in its three attempts, the run ends normally as
    well and yields no listing. *)
Theorem fetch_never_raises (site : list response) (location : string)
    (radius_km count : Z) (fetch_details : bool) (known_ids : option (gset string)) :
  (exists s,
      fetch parse_datetime extract_title site location radius_km count
            fetch_details known_ids = Ok tt s
      /\ _context (self s) = None
      /\ _browser (self s) = false)
  /\ ((forall r, In r (firstn 3 site) -> list_load_fails r = true) ->
      exists s,
        fetch parse_datetime extract_title site location radius_km count
              fetch_details known_ids = Ok tt s
        /\ yields (trace s) = []).
Proof.
  rewrite fetch_unfold. unfold finally_. split.
  - destruct (while_pages_safe (_build_search_url location radius_km) count
                fetch_details (default ∅ known_ids) (S (length site)) (started site))
      as (s1 & ->); [cbn; lia|].
    unfold bind at 1.
    destruct (cleanup_spec s1) as (s2 & -> & Hc & Hb & _).
    by exists s2.
  - intros Hfail. cbn [while_pages]. unfold bind at 1, get_vars.
    destruct (Z.of_nat (fetched (vars (started site))) <? count)%Z.
    + unfold bind at 1, _fetch_list_page.
      destruct (list_page_attempts_fail max_retries 1 (page (vars (started site)))
                  (_build_search_url location radius_km ++ "&pg="
                     ++ str_of_int (Z.of_nat (page_num (vars (started site)))))
                  (started site) Hfail) as (s1 & -> & Hl).
      unfold ret at 1. unfold bind at 1.
      destruct (cleanup_spec s1) as (s2 & -> & _ & _ & _ & Hy).
      exists s2. split; [done|].
      by rewrite Hy, (loads_only_yields _ _ Hl).
    + unfold ret at 1. unfold bind at 1.
      destruct (cleanup_spec (started site)) as (s2 & -> & _ & _ & _ & Hy).
      exists s2. split; [done|]. by rewrite Hy.
Qed.


Lemma yields_app (a b : list event) : yields (a ++ b) = (yields a ++ yields b)%list.
Proof. unfold yields. apply flat_map_app. Qed.

(** Three page loads that fail in a row: [_fetch_detail_page] gives up. *)
Lemma detail_three_failures (p : nat) (url : string) (s : state) (answers : list response) :
  _context (self s) = Some p ->
  script s = Fails :: Fails :: Fails :: answers ->
  _fetch_detail_page extract_title p url s
  = Ok detail_failure
       {| script := answers; self := self s; vars := vars s;
          trace := (trace s ++ [EvSleep 0 1 3; EvGoto url; EvSleep 3 0 2;
                                EvSleep 0 1 3; EvGoto url; EvSleep 6 0 2;
                                EvSleep 0 1 3; EvGoto url])%list |}.
Proof.
  destruct s as [scr [br ctx pm] v tr]. cbn [self script _context vars trace].
  intros -> ->.
  unfold _fetch_detail_page, max_retries. cbn [detail_page_attempts].
  unfold bind, try_, sleep, emit, goto, ret. cbn.
  rewrite !Nat.eqb_refl. cbn. rewrite !Nat.eqb_refl. cbn. rewrite !Nat.eqb_refl. cbn.
  by rewrite <- !app_assoc.
Qed.


Ltac fields :=
  cbn [script self vars trace _browser _context pages_made
       page fetched skipped consecutive_failures page_num].

(** A listing whose detail fetch failed and has no computed date is
    yielded from its summary data. *)
Lemma track_summary (b : basic_info) (s : state) :
  live s ->
  exists s',
    track_and_yield parse_datetime b (bi_title b) None None None (PDict []) true s
    = Ok tt s'
    /\ script s' = script s
    /\ fetched (vars s') = S (fetched (vars s))
    /\ yields (trace s') = (yields (trace s) ++ [summary_only_listing b])%list
    /\ live s'.
Proof.
  destruct s as [scr [br ctx pm] [pg ft sk cf pn] tr]. unfold live. fields.
  intros ->. unfold_fetch. fields.
  destruct (5 <=? S cf)%nat; fields.
  - destruct br; eexists; (split; [reflexivity|]); fields;
      rewrite !yields_app; cbn; by rewrite !app_nil_r.
  - eexists; (split; [reflexivity|]); fields.
    rewrite !yields_app; cbn. by rewrite ?app_nil_r.
Qed.

(** C7.  An element that is neither sold nor known, met while the site
    answers the next three page loads with failures: the body of the
    loop does not raise; it uses up the three answers, yields the
    listing built from the summary data, with no description and
    [detail_fetched = False], and the loop goes on with the next
    element. *)
Theorem detail_failure_yields_summary
    (count : Z) (known_ids : gset string) (b : basic_info)
    (rest : list element) (answers : list response) (s : state) :
  live s ->
  script s = Fails :: Fails :: Fails :: answers ->
  (Z.of_nat (fetched (vars s)) < count)%Z ->
  str_in "sold" (lower (bi_title b)) = false ->
  bi_id b ∉ known_ids ->
  bi_url b <> "" ->
  exists s',
    try_ (process_element parse_datetime extract_title true known_ids (Some b)) s
    = Ok (inl tt) s'
    /\ for_elements parse_datetime extract_title count true known_ids (Some b :: rest) s
       = for_elements parse_datetime extract_title count true known_ids rest s'
    /\ script s' = answers
    /\ fetched (vars s') = S (fetched (vars s))
    /\ yields (trace s') = (yields (trace s) ++ [summary_only_listing b])%list
    /\ description (summary_only_listing b) = None
    /\ dict_get "detail_fetched" (default PNone (raw_data (summary_only_listing b)))
       = Some (PBool false)
    /\ live s'.
Proof.
  intros Hlive Hscript Hcount Hsold Hknown Hurl.
  assert (Hbody : exists s',
             process_element parse_datetime extract_title true known_ids (Some b) s
             = Ok tt s'
             /\ script s' = answers
             /\ fetched (vars s') = S (fetched (vars s))
             /\ yields (trace s') = (yields (trace s) ++ [summary_only_listing b])%list
             /\ live s').
  { unfold process_element, _parse_listing_basic.
    rewrite Hsold, (bool_decide_eq_false_2 _ Hknown).
    apply String.eqb_neq in Hurl. rewrite Hurl.
    cbn [negb andb]. unfold bind at 1, get_vars. unfold bind at 1.
    rewrite (detail_three_failures _ _ _ answers Hlive Hscript).
    unfold detail_failure. cbn [is_none andb truthy_str].
    match goal with
    | |- context [track_and_yield _ _ _ _ _ _ _ _ ?st] =>
        destruct (track_summary b st) as (s' & Hs' & Hsc & Hf & Hy & Hl');
          [exact Hlive|]
    end.
    exists s'. split; [exact Hs'|]. split; [exact Hsc|]. split; [exact Hf|].
    split; [|exact Hl'].
    rewrite Hy. fields. rewrite yields_app. cbn. by rewrite app_nil_r. }
  destruct Hbody as (s' & Hs' & Hsc & Hf & Hy & Hl').
  exists s'.
  split; [unfold try_; by rewrite Hs'|].
  split.
  { cbn [for_elements]. unfold bind at 1, get_vars.
    assert (Hc : (count <=? Z.of_nat (fetched (vars s)))%Z = false)
      by (apply Z.leb_gt; lia).
    rewrite Hc. unfold bind at 1, try_. by rewrite Hs'. }
  by repeat split.
Qed.


Lemma failure_streaks_app (a b : list event) :
  forall cur best,
    failure_streaks (a ++ b) cur best
    = failure_streaks b (fst (failure_streaks a cur best)) (snd (failure_streaks a cur best)).
Proof.
  induction a as [|e a IH]; intros cur best; [done|].
  cbn [app failure_streaks].
  destruct e; try apply IH. by destruct (detail_fetch_failed listing).
Qed.

Lemma failure_streaks_quiet (ev : list event) (cur best : nat) :
  Forall (fun e => quiet e = true) ev -> failure_streaks ev cur best = (cur, best).
Proof.
  induction 1 as [|e ev He _ IH]; [done|].
  destruct e; try discriminate He; exact IH.
Qed.

Lemma detail_fetch_failed_raw (l : BusinessListing) (b : basic_info)
                              (prel : option string) (sd : pyval) (df : bool) :
  raw_data l = Some (make_raw_data b prel sd df) -> detail_fetch_failed l = df.
Proof. unfold detail_fetch_failed. intros ->. by destruct df. Qed.

(** The counter and the refresh, for one tracked element. *)
Lemma track_and_yield_counter (b : basic_info) (title : string)
    (desc prel pcalc : option string) (sd : pyval) (df : bool) (s : state) :
  _context (self s) <> None ->
  match track_and_yield parse_datetime b title desc prel pcalc sd df s with
  | Ok _ s' | Raise _ s' =>
      exists ev,
        trace s' = (trace s ++ ev)%list
        /\ counter_step df (consecutive_failures (vars s))
                        (consecutive_failures (vars s')) ev
  | OutOfFuel _ => False
  end.
Proof.
  destruct s as [scr [br [q|] pm] [pg ft sk cf pn] tr]; fields; [intros _|done].
  unfold counter_step. unfold_fetch.
  destruct df; fields; [destruct (5 <=? S cf)%nat; fields|].
  - destruct br; destruct pcalc as [text|]; fields;
      try destruct (parse_datetime text); fields;
      (eexists; split; [rewrite <- !app_assoc; reflexivity|]);
      (split; [reflexivity|]).
    all: first [ exists [], []; split; [reflexivity|]
               | eexists [], [_]; split; [reflexivity|]
               | exists [EvLaunch], []; split; [reflexivity|]
               | eexists [EvLaunch], [_]; split; [reflexivity|] ].
    all: split; [by (left + right)|].
    all: cbn; intuition discriminate.
  - destruct pcalc as [text|]; fields; try destruct (parse_datetime text); fields;
      (eexists; split; [first [ reflexivity
                              | rewrite <- !app_assoc; reflexivity
                              | symmetry; apply app_nil_r ]|]);
      (split; [reflexivity|]); cbn; intuition discriminate.
  - destruct pcalc as [text|]; fields; try destruct (parse_datetime text); fields;
      (eexists; split; [first [ reflexivity
                              | rewrite <- !app_assoc; reflexivity
                              | symmetry; apply app_nil_r ]|]);
      (split; [reflexivity|]); cbn; intuition discriminate.
Qed.


(** When every date is accepted, tracking an element yields it, and the
    streak numbers stay within the bound of the counter. *)
Lemma track_and_yield_streak (b : basic_info) (title : string)
    (desc prel pcalc : option string) (sd : pyval) (df : bool)
    (s : state) (cb : nat * nat) :
  accepts_all parse_datetime ->
  streak_inv s cb ->
  exists s' ev,
    track_and_yield parse_datetime b title desc prel pcalc sd df s = Ok tt s'
    /\ trace s' = (trace s ++ ev)%list
    /\ streak_inv s' (failure_streaks ev (fst cb) (snd cb)).
Proof.
  destruct s as [scr [br [q|] pm] [pg ft sk cf pn] tr], cb as [cur best];
    unfold streak_inv; fields; cbn [fst snd];
    intros Hacc (Hcf & Hcur & Hbest & Hctx); [|done].
  assert (Hparse : forall text, exists d, parse_datetime text = Some d).
  { intros text. destruct (parse_datetime text) as [d|] eqn:E; [by exists d|].
    by destruct (Hacc text). }
  unfold_fetch.
  destruct df; fields; [destruct (5 <=? S cf)%nat eqn:E; fields|].
  - apply Nat.leb_le in E.
    destruct br; destruct pcalc as [text|]; fields;
      try (destruct (Hparse text) as [d ->]); fields;
      (eexists _, _; split; [reflexivity|]);
      (split; [rewrite <- !app_assoc; reflexivity|]);
      cbn; repeat split; try lia; done.
  - apply Nat.leb_gt in E.
    destruct pcalc as [text|]; fields;
      try (destruct (Hparse text) as [d ->]); fields;
      (eexists _, _; split; [reflexivity|]);
      (split; [rewrite <- ?app_assoc; reflexivity|]);
      cbn; repeat split; try lia; done.
  - destruct pcalc as [text|]; fields;
      try (destruct (Hparse text) as [d ->]); fields;
      (eexists _, _; split; [reflexivity|]);
      (split; [rewrite <- ?app_assoc; reflexivity|]);
      cbn; repeat split; try lia; done.
Qed.


Lemma streak_inv_loads (s s1 : state) (cb : nat * nat) :
  loads_only s s1 -> streak_inv s cb -> streak_inv s1 cb.
Proof.
  intros (Hs & Hv & _) H. unfold streak_inv in *. by rewrite Hs, Hv.
Qed.

Lemma process_element_streak (fetch_details : bool) (known_ids : gset string)
                             (e : element) (s : state) (cb : nat * nat) :
  accepts_all parse_datetime ->
  streak_inv s cb ->
  exists r s' ev,
    try_ (process_element parse_datetime extract_title fetch_details known_ids e) s
    = Ok r s'
    /\ trace s' = (trace s ++ ev)%list
    /\ streak_inv s' (failure_streaks ev (fst cb) (snd cb)).
Proof.
  intros Hacc Hinv.
  destruct (process_element_cases fetch_details known_ids e s) as (s1 & Hl & Hcases).
  pose proof (streak_inv_loads _ _ _ Hl Hinv) as Hinv1.
  destruct Hl as (_ & _ & _ & ev1 & Ht1 & Hq1).
  unfold try_.
  destruct Hcases as [-> | [-> | (b & title & desc & prel & pcalc & sd & df & ->)]].
  - eexists _, s1, ev1. split; [reflexivity|]. split; [exact Ht1|].
    rewrite (failure_streaks_quiet _ _ _ Hq1). by destruct cb.
  - eexists _, _, ev1. split; [reflexivity|]. split; [exact Ht1|].
    rewrite (failure_streaks_quiet _ _ _ Hq1). by destruct cb.
  - destruct (track_and_yield_streak b title desc prel pcalc sd df s1 cb Hacc Hinv1)
      as (s' & ev2 & -> & Ht2 & Hinv2).
    eexists _, s', (ev1 ++ ev2)%list. split; [reflexivity|].
    split; [by rewrite Ht2, Ht1, <- app_assoc|].
    by rewrite failure_streaks_app, (failure_streaks_quiet _ _ _ Hq1).
Qed.

Lemma for_elements_streak (count : Z) (fetch_details : bool) (known_ids : gset string)
                          (els : list element) :
  accepts_all parse_datetime ->
  forall (s : state) (cb : nat * nat),
    streak_inv s cb ->
    exists s' ev,
      for_elements parse_datetime extract_title count fetch_details known_ids els s
      = Ok tt s'
      /\ trace s' = (trace s ++ ev)%list
      /\ streak_inv s' (failure_streaks ev (fst cb) (snd cb)).
Proof.
  intros Hacc. induction els as [|e els IH]; intros s cb Hinv.
  - exists s, []. split; [done|]. split; [by rewrite app_nil_r|by destruct cb].
  - cbn [for_elements]. unfold bind at 1, get_vars.
    destruct (count <=? Z.of_nat (fetched (vars s)))%Z.
    { exists s, []. split; [done|]. split; [by rewrite app_nil_r|by destruct cb]. }
    unfold bind at 1.
    destruct (process_element_streak fetch_details known_ids e s cb Hacc Hinv)
      as (r & s1 & ev1 & -> & Ht1 & Hinv1).
    destruct (IH s1 _ Hinv1) as (s2 & ev2 & -> & Ht2 & Hinv2).
    exists s2, (ev1 ++ ev2)%list. split; [done|].
    split; [by rewrite Ht2, Ht1, <- app_assoc|].
    rewrite failure_streaks_app.
    by destruct (failure_streaks ev1 (fst cb) (snd cb)).
Qed.


(** Whatever the reader of dates does, the counter stays below 5 and
    the context open. *)
Lemma track_and_yield_bound (b : basic_info) (title : string)
    (desc prel pcalc : option string) (sd : pyval) (df : bool) (s : state) :
  _context (self s) <> None ->
  (consecutive_failures (vars s) <= 4)%nat ->
  match track_and_yield parse_datetime b title desc prel pcalc sd df s with
  | Ok _ s' | Raise _ s' =>
      (consecutive_failures (vars s') <= 4)%nat
      /\ _context (self s') <> None
      /\ exists ev, trace s' = (trace s ++ ev)%list
  | OutOfFuel _ => False
  end.
Proof.
  destruct s as [scr [br [q|] pm] [pg ft sk cf pn] tr]; fields; [intros _ Hcf|done].
  unfold_fetch.
  destruct df; fields; [destruct (5 <=? S cf)%nat eqn:E; fields|].
  - destruct br; destruct pcalc as [text|]; fields;
      try destruct (parse_datetime text); fields;
      (split; [lia|]); (split; [done|]);
      eexists; rewrite <- !app_assoc; reflexivity.
  - apply Nat.leb_gt in E.
    destruct pcalc as [text|]; fields; try destruct (parse_datetime text); fields;
      (split; [lia|]); (split; [done|]);
      eexists; first [ reflexivity
                     | rewrite <- !app_assoc; reflexivity
                     | symmetry; apply app_nil_r ].
  - destruct pcalc as [text|]; fields; try destruct (parse_datetime text); fields;
      (split; [lia|]); (split; [done|]);
      eexists; first [ reflexivity
                     | rewrite <- !app_assoc; reflexivity
                     | symmetry; apply app_nil_r ].
Qed.

Lemma process_element_bound (fetch_details : bool) (known_ids : gset string)
                            (e : element) (s : state) :
  _context (self s) <> None ->
  (consecutive_failures (vars s) <= 4)%nat ->
  exists r s' ev,
    try_ (process_element parse_datetime extract_title fetch_details known_ids e) s
    = Ok r s'
    /\ trace s' = (trace s ++ ev)%list
    /\ (consecutive_failures (vars s') <= 4)%nat
    /\ _context (self s') <> None.
Proof.
  intros Hctx Hcf.
  destruct (process_element_cases fetch_details known_ids e s)
    as (s1 & (Hs1 & Hv1 & _ & ev1 & Ht1 & _) & Hcases).
  rewrite <- Hs1 in Hctx. rewrite <- Hv1 in Hcf.
  unfold try_.
  destruct Hcases as [-> | [-> | (b & title & desc & prel & pcalc & sd & df & ->)]].
  - by eexists _, s1, ev1.
  - by eexists _, _, ev1.
  - pose proof (track_and_yield_bound b title desc prel pcalc sd df s1 Hctx Hcf) as H.
    destruct (track_and_yield _ _ _ _ _ _ _ _ s1) as [a s2|x s2|s2]; [| |done];
      destruct H as (Hcf2 & Hctx2 & ev2 & Ht2);
      eexists _, s2, (ev1 ++ ev2)%list;
      (split; [reflexivity|]); (split; [by rewrite Ht2, Ht1, <- app_assoc|done]).
Qed.

Lemma for_elements_bound (count : Z) (fetch_details : bool) (known_ids : gset string)
                         (els : list element) :
  forall s,
    _context (self s) <> None ->
    (consecutive_failures (vars s) <= 4)%nat ->
    exists s' ev,
      for_elements parse_datetime extract_title count fetch_details known_ids els s
      = Ok tt s'
      /\ trace s' = (trace s ++ ev)%list
      /\ (consecutive_failures (vars s') <= 4)%nat
      /\ _context (self s') <> None.
Proof.
  induction els as [|e els IH]; intros s Hctx Hcf.
  - exists s, []. split; [done|]. split; [by rewrite app_nil_r|done].
  - cbn [for_elements]. unfold bind at 1, get_vars.
    destruct (count <=? Z.of_nat (fetched (vars s)))%Z.
    { exists s, []. split; [done|]. split; [by rewrite app_nil_r|done]. }
    unfold bind at 1.
    destruct (process_element_bound fetch_details known_ids e s Hctx Hcf)
      as (r & s1 & ev1 & -> & Ht1 & Hcf1 & Hctx1).
    destruct (IH s1 Hctx1 Hcf1) as (s2 & ev2 & -> & Ht2 & Hcf2 & Hctx2).
    exists s2, (ev1 ++ ev2)%list. split; [done|].
    split; [by rewrite Ht2, Ht1, <- app_assoc|done].
Qed.

(** A detail page that shows a sold listing: the element is skipped and
    the counter is left as it is. *)
Lemma sold_detail_is_skipped (known_ids : gset string) (b : basic_info) (d : document)
                             (answers : list response) (s : state) :
  live s ->
  script s = Page d :: answers ->
  title_is_sold (doc_title d) = true ->
  str_in "sold" (lower (bi_title b)) = false ->
  bi_id b ∉ known_ids ->
  bi_url b <> "" ->
  exists s',
    process_element parse_datetime extract_title true known_ids (Some b) s = Ok tt s'
    /\ consecutive_failures (vars s') = consecutive_failures (vars s)
    /\ skipped (vars s') = S (skipped (vars s))
    /\ trace s' = (trace s ++ [EvSleep 0 1 3; EvGoto (bi_url b)])%list.
Proof.
  intros Hlive Hscript Hd Hsold Hknown Hurl.
  unfold process_element, _parse_listing_basic.
  rewrite Hsold, (bool_decide_eq_false_2 _ Hknown).
  apply String.eqb_neq in Hurl. rewrite Hurl. cbn [negb andb].
  destruct s as [scr [br ctx pm] [pg ft sk cf pn] tr].
  unfold live in Hlive. cbn [script self vars _context page] in Hlive, Hscript.
  subst ctx scr.
  unfold _fetch_detail_page, max_retries. cbn [detail_page_attempts].
  unfold bind, try_, sleep, emit, goto, get_vars, ret, incr_skipped, set_vars. fields.
  rewrite Nat.eqb_refl. fields. rewrite Hd. unfold SOLD_SENTINEL. cbn.
  eexists. split; [reflexivity|]. fields. by rewrite <- app_assoc.
Qed.

(** C8, as amended.  Within one search page: the tracking of an element
    adds one to the counter on a detail failure and resets it otherwise,
    and the failure that brings it to 5 closes and reopens the context,
    sleeps 5 to 10 and leaves the counter at 0; a sold detail page leaves
    the counter as it is; and from a counter at 0, as every page starts,
    the loop over the elements of the page ends with the counter below
    5, and, when every listing can be built (its date is accepted), never
    yields more than 5 listings in a row whose detail fetch failed
    without a refresh between them. *)
Theorem consecutive_failures_within_page :
  (forall b title desc prel pcalc sd df s,
      _context (self s) <> None ->
      match track_and_yield parse_datetime b title desc prel pcalc sd df s with
      | Ok _ s' | Raise _ s' =>
          exists ev,
            trace s' = (trace s ++ ev)%list
            /\ counter_step df (consecutive_failures (vars s))
                            (consecutive_failures (vars s')) ev
      | OutOfFuel _ => False
      end)
  /\ (forall known_ids b d answers s,
        live s ->
        script s = Page d :: answers ->
        title_is_sold (doc_title d) = true ->
        str_in "sold" (lower (bi_title b)) = false ->
        bi_id b ∉ known_ids ->
        bi_url b <> "" ->
        exists s',
          process_element parse_datetime extract_title true known_ids (Some b) s
          = Ok tt s'
          /\ consecutive_failures (vars s') = consecutive_failures (vars s)
          /\ trace s' = (trace s ++ [EvSleep 0 1 3; EvGoto (bi_url b)])%list)
  /\ (forall count fetch_details known_ids els s,
        consecutive_failures (vars s) = 0%nat ->
        _context (self s) <> None ->
        exists s' ev,
          for_elements parse_datetime extract_title count fetch_details known_ids els s
          = Ok tt s'
          /\ trace s' = (trace s ++ ev)%list
          /\ (consecutive_failures (vars s') < 5)%nat
          /\ (accepts_all parse_datetime -> (longest_failure_streak ev <= 5)%nat)).
Proof.
  split; [intros; by apply track_and_yield_counter|]. split.
  - intros known_ids b d answers s Hlive Hscript Hd Hsold Hknown Hurl.
    destruct (sold_detail_is_skipped known_ids b d answers s Hlive Hscript Hd Hsold
                Hknown Hurl) as (s' & Hs' & Hcf & _ & Ht).
    by exists s'.
  - intros count fetch_details known_ids els s Hcf Hctx.
    destruct (for_elements_bound count fetch_details known_ids els s Hctx)
      as (s' & ev & Hs' & Ht & Hcf' & _); [lia|].
    exists s', ev. split; [done|]. split; [done|]. split; [lia|].
    intros Hacc.
    destruct (for_elements_streak count fetch_details known_ids els Hacc s (0%nat, 0%nat))
      as (s2 & ev2 & Hs2 & Ht2 & _ & _ & Hbest & _).
    { unfold streak_inv. cbn [fst snd]. rewrite Hcf. repeat split; [lia|lia|lia|done]. }
    rewrite Hs' in Hs2. injection Hs2 as <-.
    rewrite Ht in Ht2. apply app_inv_head in Ht2 as <-.
    exact Hbest.
Qed.

End Run.


Lemma fetch_never_raises_witness :
  (forall r, In r (firstn 3 [Fails; Fails; Fails]) -> list_load_fails r = true)
  /\ exists s,
       fetch any_date no_title [Fails; Fails; Fails] "sunshine-coast-qld" 50 20 true None
       = Ok tt s
       /\ yields (trace s) = [].
Proof.
  assert (H : forall r, In r (firstn 3 [Fails; Fails; Fails]) -> list_load_fails r = true).
  { cbn. intros r [<-|[<-|[<-|[]]]]; reflexivity. }
  split; [exact H|].
  exact (proj2 (fetch_never_raises any_date no_title [Fails; Fails; Fails]
                  "sunshine-coast-qld" 50 20 true None) H).
Defined.

(** C6 as stated fails: the first search page fails on all three
    attempts, and the run ends normally: nothing is raised, nothing is
    yielded, the session is released. *)
Lemma first_page_failure_is_not_raised :
  exists s,
    fetch any_date no_title [Fails; Fails; Fails] "sunshine-coast-qld" 50 20 true None
    = Ok tt s
    /\ trace s = [ EvLaunch; EvNewContext;
                   EvGoto sample_search_page; EvSleep 3 0 2;
                   EvGoto sample_search_page; EvSleep 6 0 2;
                   EvGoto sample_search_page;
                   EvCloseContext; EvCloseBrowser ]
    /\ forall e s',
         fetch any_date no_title [Fails; Fails; Fails] "sunshine-coast-qld" 50 20 true None
         <> Raise e s'.
Proof.
  eexists. split; [vm_compute; reflexivity|].
  split; [reflexivity|].
  intros e s'. vm_compute. discriminate.
Qed.

Lemma detail_failure_yields_summary_witness :
  live (started [Fails; Fails; Fails])
  /\ script (started [Fails; Fails; Fails]) = [Fails; Fails; Fails]
  /\ (Z.of_nat (fetched (vars (started [Fails; Fails; Fails]))) < 20)%Z
  /\ str_in "sold" (lower (bi_title (sample_info "1"))) = false
  /\ (bi_id (sample_info "1") ∉ (∅ : gset string))
  /\ bi_url (sample_info "1") <> ""
  /\ exists s',
       try_ (process_element any_date no_title true ∅ (sample_item "1"))
            (started [Fails; Fails; Fails]) = Ok (inl tt) s'
       /\ yields (trace s') = [summary_only_listing (sample_info "1")]
       /\ script s' = [].
Proof.
  assert (H1 : live (started [Fails; Fails; Fails])) by reflexivity.
  assert (H3 : (Z.of_nat (fetched (vars (started [Fails; Fails; Fails]))) < 20)%Z)
    by (cbn; lia).
  assert (H5 : bi_id (sample_info "1") ∉ (∅ : gset string)) by apply not_elem_of_empty.
  assert (H6 : bi_url (sample_info "1") <> "") by (cbn; discriminate).
  split; [exact H1|]. split; [reflexivity|]. split; [exact H3|].
  split; [reflexivity|]. split; [exact H5|]. split; [exact H6|].
  destruct (detail_failure_yields_summary any_date no_title 20 ∅ (sample_info "1") [] []
              (started [Fails; Fails; Fails]) H1 eq_refl H3 eq_refl H5 H6)
    as (s' & Hs' & _ & Hsc & _ & Hy & _).
  exists s'. split; [exact Hs'|]. split; [exact Hy|exact Hsc].
Defined.

Lemma consecutive_failures_within_page_witness :
  accepts_all any_date
  /\ consecutive_failures (vars (started (repeat Fails 18))) = 0%nat
  /\ _context (self (started (repeat Fails 18))) <> None
  /\ exists s' ev,
       for_elements any_date no_title 100 true ∅ six_items (started (repeat Fails 18))
       = Ok tt s'
       /\ trace s' = (trace (started (repeat Fails 18)) ++ ev)%list
       /\ (longest_failure_streak ev <= 5)%nat.
Proof.
  assert (H1 : accepts_all any_date) by (intros text; discriminate).
  assert (H3 : _context (self (started (repeat Fails 18))) <> None) by (cbn; discriminate).
  split; [exact H1|]. split; [reflexivity|]. split; [exact H3|].
  destruct (proj2 (proj2 (consecutive_failures_within_page any_date no_title))
              100%Z true ∅ six_items (started (repeat Fails 18)) eq_refl H3)
    as (s' & ev & Hs' & Ht & _ & Hl).
  exists s', ev. split; [exact Hs'|]. split; [exact Ht|exact (Hl H1)].
Defined.

(** C8 as stated fails over a page boundary: on a site with two pages
    of four listings each, all detail pages failing, the run yields
    eight listings in a row whose detail fetch failed, and the only
    closing of the context is the one that ends the run. *)
Lemma failures_accumulate_across_pages :
  exists s,
    fetch any_date no_title failing_site "sunshine-coast-qld" 50 100 true None = Ok tt s
    /\ List.map detail_fetch_failed (yields (trace s)) = repeat true 8
    /\ session_events (trace s) = [EvLaunch; EvNewContext; EvCloseContext; EvCloseBrowser]
    /\ longest_failure_streak (trace s) = 8%nat
    /\ ~ (longest_failure_streak (trace s) <= 5)%nat.
Proof.
  eexists. split; [vm_compute; reflexivity|].
  split; [vm_compute; reflexivity|].
  split; [vm_compute; reflexivity|].
  split; [vm_compute; reflexivity|].
  intros H. vm_compute in H. lia.
Qed.

End SeekFacts.

(** ** More on the eligibility filter *)

Module FilterMore.
Import PyStr Listing FilterFacts.

Lemma price_check_passes (f : ListingFilter) (l : BusinessListing) (v : verdict) :
  fst (price_check f l v) = true
  <-> fst v = true
      /\ (forall p, price l = Some p -> p = 0%Z \/ (p <= max_price f)%Z).
Proof.
  unfold price_check. destruct (price l) as [p|].
  - destruct (Z.eqb_spec p 0) as [->|Hp]; cbn [negb andb].
    + split; [intros H; split; [done|]; intros ? [= <-]; by left|by intros [? _]].
    + destruct (Z.gtb_spec p (max_price f)) as [Hgt|Hle]; cbn [fail fst].
      * split; [done|]. intros [_ H]. destruct (H p eq_refl); lia.
      * split; [intros H; split; [done|]; intros ? [= <-]; by right|by intros [? _]].
  - split; [intros H; split; [done|]; intros ? [=]|by intros [? _]].
Qed.

Lemma industry_loop_none (excl : list string) (ind : string) :
  industry_loop excl ind = None
  <-> forall k, In k excl -> str_in (lower k) (lower ind) = false.
Proof.
  induction excl as [|e excl IH]; cbn [industry_loop].
  - split; [intros _ k []|done].
  - destruct (str_in (lower e) (lower ind)) eqn:E.
    + split; [done|]. intros H. rewrite (H e) in E; [done|by left].
    + rewrite IH. split.
      * intros H k [<-|Hk]; [done|by apply H].
      * intros H k Hk. apply H. by right.
Qed.

Lemma truthy_list_or_empty {A} (o : option (list A)) :
  truthy_list o = false -> or_empty o = [].
Proof. by destruct o as [[|a l]|]. Qed.

Lemma industry_check_passes (f : ListingFilter) (l : BusinessListing) (v : verdict) :
  fst (industry_check f l v) = true
  <-> fst v = true
      /\ (forall ind k, industry l = Some ind -> ind <> "" ->
            In k (or_empty (excluded_industries f)) ->
            str_in (lower k) (lower ind) = false).
Proof.
  unfold industry_check.
  destruct (truthy_list (excluded_industries f)) eqn:El; cbn [andb].
  - destruct (industry l) as [ind|]; simpl.
    + destruct (String.eqb_spec ind "") as [->|Hne]; simpl.
      * split; [intros H; split; [done|]; by intros ? ? [= <-]|by intros [? _]].
      * destruct (industry_loop _ ind) as [r|] eqn:E.
        -- cbn [fail fst]. split; [done|]. intros [_ H].
           assert (Hn : industry_loop (or_empty (excluded_industries f)) ind = None).
           { apply industry_loop_none. intros k Hk. by apply (H ind k). }
           congruence.
        -- split; [|by intros [? _]]. intros H. split; [done|].
           intros ind' k [= <-] _ Hk.
           by apply (proj1 (industry_loop_none _ _) E).
    + split; [intros H; split; [done|]; by intros ? ? [=]|by intros [? _]].
  - rewrite (truthy_list_or_empty _ El).
    split; [intros H; split; [done|]; by intros ? ? _ _ []|by intros [? _]].
Qed.

Lemma title_check_passes (f : ListingFilter) (l : BusinessListing) (v : verdict) :
  fst (title_check f l v) = true
  <-> fst v = true
      /\ (title l <> "" ->
          forall k, In k (or_empty (excluded_title_keywords f)) ->
            str_in (lower k) (lower (title l)) = true ->
            lower k = "franchise"
            /\ is_allowed_franchise (or_empty (franchise_allowed_industries f))
                 (lower (default "" (industry l))) = true).
Proof.
  unfold title_check.
  destruct (truthy_list (excluded_title_keywords f)) eqn:El; cbn [andb].
  - destruct (String.eqb_spec (title l) "") as [Ht|Hne]; cbn [negb].
    + split; [intros H; split; [done|]; by intros ?|by intros [? _]].
    + cbv zeta. destruct (title_loop _ _ _ _) as [r|] eqn:E.
      * cbn [fail fst]. split; [done|]. intros [_ H].
        specialize (H Hne). apply title_loop_none in H. congruence.
      * split; [|by intros [? _]]. intros H. split; [done|]. intros _.
        by apply title_loop_none.
  - rewrite (truthy_list_or_empty _ El).
    split; [intros H; split; [done|]; by intros _ ? []|by intros [? _]].
Qed.

Lemma freshness_check_passes (now : Z) (f : ListingFilter) (l : BusinessListing)
                             (v : verdict) :
  fst (freshness_check now f l v) = true
  <-> fst v = true
      /\ (forall m d n, max_days_listed f = Some m -> m <> 0%Z ->
            posted_date l = Some d -> days_listed now d = Some n -> (n <= m)%Z).
Proof.
  unfold freshness_check.
  destruct (max_days_listed f) as [m|];
    [|split; [intros H; split; [done|]; by intros ? ? ? [=]|by intros [? _]]].
  destruct (posted_date l) as [d|];
    [|split; [intros H; split; [done|]; by intros ? ? ? _ _ [=]|by intros [? _]]].
  destruct (Z.eqb_spec m 0) as [->|Hm]; cbn [negb].
  { split; [intros H; split; [done|]; by intros ? ? ? [= <-] ?|by intros [? _]]. }
  destruct (days_listed now d) as [n|] eqn:E;
    [|split; [intros H; split; [done|]; intros ? ? ? _ _ [= <-] E'; congruence
             |by intros [? _]]].
  destruct (Z.gtb_spec n m) as [Hgt|Hle]; cbn [fail fst].
  - split; [done|]. intros [_ H]. specialize (H m d n eq_refl Hm eq_refl E). lia.
  - split; [|by intros [? _]]. intros H. split; [done|].
    intros ? ? ? [= <-] _ [= <-] E'. rewrite E in E'. by injection E' as <-.
Qed.


(** The four checks of [evaluate], taken together. *)
Lemma evaluate_passes (now : Z) (f : ListingFilter) (l : BusinessListing) :
  fst (evaluate now f l) = true
  <-> (forall p, price l = Some p -> p = 0%Z \/ (p <= max_price f)%Z)
      /\ (forall ind k, industry l = Some ind -> ind <> "" ->
            In k (or_empty (excluded_industries f)) ->
            str_in (lower k) (lower ind) = false)
      /\ (title l <> "" ->
          forall k, In k (or_empty (excluded_title_keywords f)) ->
            str_in (lower k) (lower (title l)) = true ->
            lower k = "franchise"
            /\ is_allowed_franchise (or_empty (franchise_allowed_industries f))
                 (lower (default "" (industry l))) = true)
      /\ (forall m d n, max_days_listed f = Some m -> m <> 0%Z ->
            posted_date l = Some d -> days_listed now d = Some n -> (n <= m)%Z).
Proof.
  unfold evaluate.
  rewrite freshness_check_passes, title_check_passes, industry_check_passes,
    price_check_passes.
  cbn [fst]. tauto.
Qed.

(** X1.  [evaluate] passes a listing exactly when its price is absent, zero or
    within the ceiling; no excluded industry keyword occurs in its
    industry; every excluded title keyword that occurs in its title is
    "franchise" and forgiven by its industry; and it was not posted more
    than the configured number of days ago. *)
Theorem evaluate_passes_iff (now : Z) (f : ListingFilter) (l : BusinessListing) :
  fst (evaluate now f l) = true
  <-> (forall p, price l = Some p -> p = 0%Z \/ (p <= max_price f)%Z)
      /\ (forall ind k, industry l = Some ind -> ind <> "" ->
            In k (or_empty (excluded_industries f)) ->
            str_in (lower k) (lower ind) = false)
      /\ (title l <> "" ->
          forall k, In k (or_empty (excluded_title_keywords f)) ->
            str_in (lower k) (lower (title l)) = true ->
            lower k = "franchise"
            /\ is_allowed_franchise (or_empty (franchise_allowed_industries f))
                 (lower (default "" (industry l))) = true)
      /\ (forall m d n, max_days_listed f = Some m -> m <> 0%Z ->
            posted_date l = Some d -> days_listed now d = Some n -> (n <= m)%Z).
Proof. apply evaluate_passes. Qed.

(** X2.  Raising the price ceiling never turns a pass into a fail. *)
Theorem evaluate_monotone_in_max_price (now : Z) (f f' : ListingFilter)
                                       (l : BusinessListing) :
  max_days_listed f' = max_days_listed f ->
  excluded_industries f' = excluded_industries f ->
  excluded_title_keywords f' = excluded_title_keywords f ->
  franchise_allowed_industries f' = franchise_allowed_industries f ->
  (max_price f <= max_price f')%Z ->
  fst (evaluate now f l) = true ->
  fst (evaluate now f' l) = true.
Proof.
  intros Hd Hi Ht Ha Hle. rewrite !evaluate_passes, Hd, Hi, Ht, Ha.
  intros (Hp & Hrest). split; [|exact Hrest].
  intros p E. destruct (Hp p E); [by left|right; lia].
Qed.

Lemma evaluate_monotone_in_max_price_witness :
  max_days_listed (make_filter 2000000) = max_days_listed (make_filter 1000000)
  /\ (max_price (make_filter 1000000) <= max_price (make_filter 2000000))%Z
  /\ fst (evaluate 0 (make_filter 1000000)
            (sample_listing "Accounting Practice" (Some 900000%Z) (Some "Accounting") None))
     = true
  /\ fst (evaluate 0 (make_filter 2000000)
            (sample_listing "Accounting Practice" (Some 900000%Z) (Some "Accounting") None))
     = true.
Proof.
  assert (H : fst (evaluate 0 (make_filter 1000000)
                     (sample_listing "Accounting Practice" (Some 900000%Z)
                        (Some "Accounting") None)) = true) by (vm_compute; reflexivity).
  split; [reflexivity|]. split; [cbn; lia|]. split; [exact H|].
  apply (evaluate_monotone_in_max_price 0 (make_filter 1000000) (make_filter 2000000));
    [reflexivity|reflexivity|reflexivity|reflexivity|cbn; lia|exact H].
Defined.

(** X3.  The industry check names the first excluded keyword, in the order of
    the configuration, that occurs in the industry when case is ignored. *)
Theorem industry_loop_first_match (excl : list string) (ind r : string) :
  industry_loop excl ind = Some r
  <-> exists before k after,
        excl = (before ++ k :: after)%list
        /\ (forall k', In k' before -> str_in (lower k') (lower ind) = false)
        /\ str_in (lower k) (lower ind) = true
        /\ r = "Industry '" ++ ind ++ "' matches exclusion '" ++ k ++ "'".
Proof.
  revert r. induction excl as [|e excl IH]; intros r; cbn [industry_loop].
  - split; [done|]. intros (before & k & after & H & _). by destruct before.
  - destruct (str_in (lower e) (lower ind)) eqn:E.
    + split.
      * intros [= <-]. exists [], e, excl. by repeat split.
      * intros (before & k & after & Hx & Hb & Hk & ->).
        destruct before as [|b before]; cbn in Hx; injection Hx as -> ->; [done|].
        rewrite (Hb b) in E; [done|by left].
    + rewrite IH. split.
      * intros (before & k & after & -> & Hb & Hk & ->).
        exists (e :: before), k, after. split; [done|]. split; [|done].
        intros k' [<-|Hk']; [done|by apply Hb].
      * intros (before & k & after & Hx & Hb & Hk & ->).
        destruct before as [|b before]; cbn in Hx; injection Hx as -> ->;
          [congruence|].
        exists before, k, after. split; [done|]. split; [|done].
        intros k' Hk'. apply Hb. by right.
Qed.

(** X4.  The freshness check fails open: with no day limit (absent or 0), or
    with a posting date that is absent or timezone aware, the verdict
    carries no freshness reason and is the same at every time. *)
Theorem freshness_fails_open (f : ListingFilter) (l : BusinessListing) :
  max_days_listed f = None \/ max_days_listed f = Some 0%Z
  \/ posted_date l = None \/ (exists us, posted_date l = Some (Aware us)) ->
  forall now1 now2 v,
    freshness_check now1 f l v = v
    /\ evaluate now1 f l = evaluate now2 f l.
Proof.
  intros H now1 now2 v.
  assert (Hf : forall now v', freshness_check now f l v' = v').
  { intros now v'. unfold freshness_check.
    destruct H as [-> | [-> | [-> | [us ->]]]]; try done.
    - by destruct (posted_date l).
    - by destruct (max_days_listed f).
    - destruct (max_days_listed f) as [m|]; [|done]. by destruct (negb (m =? 0)%Z). }
  split; [apply Hf|]. unfold evaluate. by rewrite !Hf.
Qed.

Lemma freshness_fails_open_witness :
  (max_days_listed default_filter = None \/ max_days_listed default_filter = Some 0%Z
   \/ posted_date (sample_listing "Accounting Practice" None None (Some (Aware 0))) = None
   \/ (exists us, posted_date (sample_listing "Accounting Practice" None None
                                 (Some (Aware 0))) = Some (Aware us)))
  /\ evaluate 0 default_filter (sample_listing "Accounting Practice" None None (Some (Aware 0)))
     = evaluate (1000 * us_per_day) default_filter
         (sample_listing "Accounting Practice" None None (Some (Aware 0))).
Proof.
  assert (H : max_days_listed default_filter = None \/ max_days_listed default_filter = Some 0%Z
              \/ posted_date (sample_listing "Accounting Practice" None None
                                (Some (Aware 0))) = None
              \/ (exists us, posted_date (sample_listing "Accounting Practice" None None
                                            (Some (Aware 0))) = Some (Aware us))).
  { right; right; right. by exists 0%Z. }
  split; [exact H|].
  exact (proj2 (freshness_fails_open default_filter _ H 0%Z (1000 * us_per_day)%Z (true, []))).
Defined.

End FilterMore.

(** ** More on the dedup and status store *)

Module RepositoryMore.
Import PyStr Listing Repository Cli RepositoryFacts CliFacts.
Local Open Scope repo_scope.

Lemma saved_frame (now : Z) (l : BusinessListing) (s : session) (x : string) :
  x <> id l ->
  lookup_id x (table (snd (saved now l s))) = lookup_id x (table s).
Proof.
  intros Hne. unfold saved.
  destruct (lookup_id (id l) (table s)) as [e|] eqn:E; cbn [snd table].
  - rewrite lookup_id_replace. cbn [orm_id assign_update].
    destruct (lookup_id_some _ _ _ E) as [_ He]. rewrite He.
    destruct (String.eqb_spec (id l) x); [congruence|done].
  - rewrite lookup_id_app. destruct (lookup_id x (table s)); [done|].
    unfold lookup_id. cbn.
    destruct (String.eqb_spec (id l) x); [congruence|done].
Qed.



(** X6.  A listing that is saved and read back is the listing that was saved,
    as long as the row stored under its id, if any, has its source. *)
Theorem save_then_read_back (now : Z) (l : BusinessListing) (s : session) :
  pk_unique (table s) ->
  (forall r, lookup_id (id l) (table s) = Some r -> orm_source r = source l) ->
  exists row s',
    save now l s = Ok row s'
    /\ get_by_id (id l) s' = Ok (Some row) s'
    /\ exists_ (id l) (source l) s' = Ok true s'
    /\ model_validate row = l.
Proof.
  intros Hpk Hsrc.
  exists (fst (saved now l s)), (snd (saved now l s)).
  pose proof (saved_pk_unique now l s Hpk) as Hpk'.
  pose proof (saved_lookup now l s) as Hl'.
  split; [by apply save_spec|].
  split; [by rewrite (get_by_id_spec _ _ Hpk'), Hl'|].
  assert (Hrow : model_validate (fst (saved now l s)) = l).
  { unfold saved. destruct (lookup_id (id l) (table s)) as [e|] eqn:E; cbn [fst].
    - destruct (lookup_id_some _ _ _ E) as [_ He]. specialize (Hsrc e eq_refl).
      unfold model_validate, assign_update. cbn. rewrite He, Hsrc. by destruct l.
    - unfold model_validate, new_row. cbn. by destruct l. }
  split; [|exact Hrow].
  rewrite (exists_spec _ _ _ Hpk'), Hl'.
  replace (orm_source (fst (saved now l s))) with (source (model_validate (fst (saved now l s))))
    by reflexivity.
  by rewrite Hrow, String.eqb_refl.
Qed.

Lemma save_then_read_back_witness :
  pk_unique (table empty_session)
  /\ (forall r, lookup_id (id (sample_financials None None None)) (table empty_session)
                = Some r -> orm_source r = source (sample_financials None None None))
  /\ exists row s',
       save 3 (sample_financials None None None) empty_session = Ok row s'
       /\ model_validate row = sample_financials None None None.
Proof.
  assert (Hpk : pk_unique (table empty_session)) by constructor.
  assert (Hsrc : forall r, lookup_id (id (sample_financials None None None))
                             (table empty_session) = Some r ->
                           orm_source r = source (sample_financials None None None))
    by (intros r H; discriminate H).
  split; [exact Hpk|]. split; [exact Hsrc|].
  destruct (save_then_read_back 3 (sample_financials None None None) empty_session
              Hpk Hsrc) as (row & s' & Hs & _ & _ & Hr).
  exists row, s'. split; [exact Hs|exact Hr].
Defined.

(** X7.  Saving a listing whose id is stored keeps what the store knows about
    it: the source, the processing status, [first_seen_at],
    [processed_at] and the research results; [last_updated_at] becomes
    the time of the save.  Saving a listing whose id is not stored gives a
    row in status NEW, first seen at the time of the save. *)
Theorem save_keeps_processing_state (now : Z) (l : BusinessListing) (s : session) :
  pk_unique (table s) ->
  exists row s',
    save now l s = Ok row s'
    /\ orm_last_updated_at row = now
    /\ match lookup_id (id l) (table s) with
       | Some r =>
           orm_source row = orm_source r
           /\ orm_status row = orm_status r
           /\ orm_first_seen_at row = orm_first_seen_at r
           /\ orm_processed_at row = orm_processed_at r
           /\ orm_research_findings row = orm_research_findings r
           /\ orm_confidence_score row = orm_confidence_score r
           /\ orm_scalability_score row = orm_scalability_score r
           /\ orm_memo row = orm_memo r
       | None =>
           orm_source row = source l
           /\ orm_status row = NEW
           /\ orm_first_seen_at row = now
           /\ orm_processed_at row = None
       end.
Proof.
  intros Hpk.
  exists (fst (saved now l s)), (snd (saved now l s)).
  split; [by apply save_spec|].
  unfold saved. by destruct (lookup_id (id l) (table s)).
Qed.

Lemma save_keeps_processing_state_witness :
  pk_unique (table sample_store)
  /\ exists row s',
       save 9 (fetched_listing "seek_3" "Bookkeeping Firm") sample_store = Ok row s'
       /\ orm_status row = PREFILTER_PASS.
Proof.
  assert (Hpk : pk_unique (table sample_store)).
  { unfold pk_unique. simpl.
    repeat (constructor; [simpl; intuition discriminate|]). constructor. }
  split; [exact Hpk|].
  destruct (save_keeps_processing_state 9 (fetched_listing "seek_3" "Bookkeeping Firm")
              sample_store Hpk) as (row & s' & Hs & _ & H).
  exists row, s'. split; [exact Hs|].
  change (lookup_id (id (fetched_listing "seek_3" "Bookkeeping Firm")) (table sample_store))
    with (Some (stored "seek_3" "Bookkeeping Firm" (Some 2000000%Z) PREFILTER_PASS)) in H.
  exact (proj1 (proj2 H)).
Defined.


Lemma update_status_stored
    (now : Z) (x : string) (st : ListingStatus) (p : option Z)
    (s : session) (r : ListingORM) :
  pk_unique (table s) ->
  lookup_id x (table s) = Some r ->
  exists s' r',
    update_status now x st p s = Ok tt s'
    /\ pk_unique (table s')
    /\ List.map orm_id (table s') = List.map orm_id (table s)
    /\ lookup_id x (table s') = Some r'
    /\ orm_status r' = st
    /\ orm_processed_at r' = match p with Some t => Some t | None => orm_processed_at r end
    /\ model_validate r' = model_validate r
    /\ orm_last_updated_at r'
       = (if status_eqb (orm_status r) st
             && opt_Z_eqb (orm_processed_at r)
                  (match p with Some t => Some t | None => orm_processed_at r end)
          then orm_last_updated_at r else now)
    /\ (forall y, y <> x -> lookup_id y (table s') = lookup_id y (table s)).
Proof.
  intros Hpk Hl.
  destruct (lookup_id_some _ _ _ Hl) as [_ Hid].
  rewrite (update_status_spec _ _ _ _ _ r Hpk Hl).
  set (r' := onupdate now r (assign_status r st p)).
  assert (Hid' : orm_id r' = x).
  { unfold r'. by rewrite onupdate_id, assign_status_id. }
  exists {| table := List.map (replace_row r') (table s);
            log := (log s ++ [EvCommit])%list |}, r'.
  split; [done|]. cbn [table].
  split; [by apply pk_unique_replace|].
  split; [apply map_id_replace|].
  split; [by rewrite lookup_id_replace, Hid', String.eqb_refl, Hl|].
  assert (Hfields : orm_status r' = st
            /\ orm_processed_at r'
               = match p with Some t => Some t | None => orm_processed_at r end
            /\ model_validate r' = model_validate r
            /\ orm_last_updated_at r'
               = (if status_eqb (orm_status r) st
                     && opt_Z_eqb (orm_processed_at r)
                          (match p with Some t => Some t | None => orm_processed_at r end)
                  then orm_last_updated_at r else now)).
  { unfold r', onupdate, assign_status. destruct p as [t|]; cbn;
      by destruct (_ && _). }
  destruct Hfields as (H1 & H2 & H3 & H4).
  do 4 (split; [done|]).
  intros y Hy. rewrite lookup_id_replace, Hid'.
  destruct (String.eqb_spec x y); [congruence|done].
Qed.

(** X8.  [update_status] for a stored id gives the row the status, gives it
    [processed_at] when one is passed and keeps the old one otherwise,
    moves [last_updated_at] exactly when that changed the row, and leaves
    the listing fields, the row count and every other row as they are. *)
Theorem update_status_on_stored_row
    (now : Z) (x : string) (st : ListingStatus) (p : option Z)
    (s : session) (r : ListingORM) :
  pk_unique (table s) ->
  lookup_id x (table s) = Some r ->
  exists s' r',
    update_status now x st p s = Ok tt s'
    /\ pk_unique (table s')
    /\ List.map orm_id (table s') = List.map orm_id (table s)
    /\ lookup_id x (table s') = Some r'
    /\ orm_status r' = st
    /\ orm_processed_at r' = match p with Some t => Some t | None => orm_processed_at r end
    /\ model_validate r' = model_validate r
    /\ orm_last_updated_at r'
       = (if status_eqb (orm_status r) st
             && opt_Z_eqb (orm_processed_at r)
                  (match p with Some t => Some t | None => orm_processed_at r end)
          then orm_last_updated_at r else now)
    /\ (forall y, y <> x -> lookup_id y (table s') = lookup_id y (table s)).
Proof.
  intros Hpk Hl. by apply update_status_stored.
Qed.

Lemma update_status_on_stored_row_witness :
  pk_unique (table sample_store)
  /\ lookup_id "seek_1" (table sample_store)
     = Some (stored "seek_1" "Accounting Practice" (Some 500000%Z) NEW)
  /\ exists s' r',
       update_status 8 "seek_1" RESEARCHING (Some 8%Z) sample_store = Ok tt s'
       /\ lookup_id "seek_1" (table s') = Some r'
       /\ orm_status r' = RESEARCHING
       /\ orm_processed_at r' = Some 8%Z.
Proof.
  assert (Hpk : pk_unique (table sample_store)).
  { unfold pk_unique. simpl.
    repeat (constructor; [simpl; intuition discriminate|]). constructor. }
  split; [exact Hpk|]. split; [reflexivity|].
  destruct (update_status_on_stored_row 8 "seek_1" RESEARCHING (Some 8%Z) sample_store
              (stored "seek_1" "Accounting Practice" (Some 500000%Z) NEW) Hpk eq_refl)
    as (s' & r' & Hs & _ & _ & Hl & Hst & Hp & _).
  exists s', r'. split; [exact Hs|]. split; [exact Hl|]. split; [exact Hst|exact Hp].
Defined.



Lemma count_statuses_spec (sts : list ListingStatus) (s : session) :
  count_statuses sts s
  = Ok (List.map (fun st => (status_value st,
                             length (List.filter (fun r => status_eqb (orm_status r) st)
                                                 (table s)))) sts) s.
Proof.
  induction sts as [|st sts IH]; [done|].
  cbn [count_statuses]. unfold bind, count_where, bind, select_where, ret.
  by rewrite IH.
Qed.

(** X10.  [get_stats] reads without writing; it reports one count for each
    of the six statuses, under its value, and the counts add up to the
    total. *)
Theorem get_stats_counts_add_up (s : session) :
  exists st,
    get_stats s = Ok st s
    /\ total_listings st = length (table s)
    /\ List.map fst (by_status st) = List.map status_value all_statuses
    /\ list_sum (List.map snd (by_status st)) = total_listings st.
Proof.
  unfold get_stats, bind, count_where, bind, select_where, ret.
  rewrite count_statuses_spec.
  eexists. split; [reflexivity|]. cbn [total_listings by_status].
  split; [by rewrite List.filter_true|].
  split; [reflexivity|].
  induction (table s) as [|a t IH]; [reflexivity|].
  cbn in *. destruct (orm_status a); cbn; lia.
Qed.


(** What [process_listing] leaves in the session, for every id. *)
Lemma process_listing_effect (now : Z) (pf : PrefilterService) (l : BusinessListing)
                             (s : session) :
  pk_unique (table s) ->
  exists s' r',
    process_listing now pf l s = Ok (evaluate now (filters pf) l) s'
    /\ pk_unique (table s')
    /\ List.map orm_id (table s')
       = List.map orm_id (table (snd (saved now l s)))
    /\ lookup_id (id l) (table s') = Some r'
    /\ orm_status r'
       = (if fst (evaluate now (filters pf) l) then PREFILTER_PASS else PREFILTER_FAIL)
    /\ model_validate r' = model_validate (fst (saved now l s))
    /\ (forall x, x <> id l -> lookup_id x (table s') = lookup_id x (table s))
    /\ log s' = (log s ++ [EvCommit; EvEvaluate (id l); EvCommit])%list.
Proof.
  intros Hpk. unfold process_listing, bind.
  rewrite (save_with_dedup_check_spec _ _ _ Hpk).
  pose proof (saved_pk_unique now l s Hpk) as Hpk1.
  pose proof (saved_lookup now l s) as Hl1.
  assert (Hlog1 : log (snd (saved now l s)) = (log s ++ [EvCommit])%list).
  { unfold saved. by destruct (lookup_id (id l) (table s)). }
  set (s1 := snd (saved now l s)) in *.
  set (r1 := fst (saved now l s)) in *.
  unfold call_evaluate.
  set (v := evaluate now (filters pf) l).
  set (s2 := {| table := table s1; log := (log s1 ++ [EvEvaluate (id l)])%list |}).
  destruct (update_status_stored now (id l)
              (if fst v then PREFILTER_PASS else PREFILTER_FAIL) None s2 r1 Hpk1 Hl1)
    as (s3 & r3 & Hs3 & Hpk3 & Hids3 & Hl3 & Hst3 & _ & Hmv3 & _ & Hframe3).
  rewrite Hs3. exists s3, r3.
  split; [reflexivity|]. split; [exact Hpk3|]. split; [exact Hids3|].
  split; [exact Hl3|]. split; [exact Hst3|]. split; [exact Hmv3|].
  split.
  - intros x Hx. rewrite (Hframe3 x Hx). cbn [table s2]. by apply saved_frame.
  - rewrite (update_status_spec now (id l) _ None s2 r1 Hpk1 Hl1) in Hs3.
    injection Hs3 as <-. cbn [log s2]. rewrite Hlog1. by rewrite <- !app_assoc.
Qed.



End RepositoryMore.

(* ===================================================================== *)
(** ** The filtering pass and the ingest loop as a whole *)
(* ===================================================================== *)

Module CliMore.
Import PyStr Listing Repository Cli RepositoryFacts CliFacts RepositoryMore.
Local Open Scope repo_scope.

(** One iteration of the loop on a row that is stored as the loop has it. *)
Lemma filter_loop_step (now : Z) (pf : PrefilterService) (o : ListingORM)
                       (todo : list ListingORM) (t : tally) (s : session) :
  pk_unique (table s) ->
  lookup_id (orm_id o) (table s) = Some o ->
  exists s1 r1,
    filter_loop now pf (o :: todo) t s
    = filter_loop now pf todo
        {| passed := (if counts_passed now pf o then 1 else 0) + passed t;
           failed := (if counts_failed now pf o then 1 else 0) + failed t;
           skipped_sold := (if counts_sold o then 1 else 0) + skipped_sold t |} s1
    /\ pk_unique (table s1)
    /\ List.map orm_id (table s1) = List.map orm_id (table s)
    /\ lookup_id (orm_id o) (table s1) = Some r1
    /\ orm_status r1 = outcome now pf o
    /\ model_validate r1 = model_validate o
    /\ (forall x, x <> orm_id o -> lookup_id x (table s1) = lookup_id x (table s)).
Proof.
  intros Hpk Hl. cbn [filter_loop]. unfold bind at 1. rewrite refresh_spec, Hl.
  unfold outcome, counts_passed, counts_failed, counts_sold.
  destruct (is_sold (model_validate o)) eqn:Es.
  - destruct (update_status_stored now (id (model_validate o)) PREFILTER_FAIL None
                s o Hpk Hl)
      as (s1 & r1 & Hs1 & Hpk1 & Hids1 & Hl1 & Hst1 & _ & Hmv1 & _ & Hframe1).
    unfold bind. rewrite Hs1. exists s1, r1. by repeat split.
  - destruct (process_listing_effect now pf (model_validate o) s Hpk)
      as (s1 & r1 & Hs1 & Hpk1 & Hids1 & Hl1 & Hst1 & Hmv1 & Hframe1 & _).
    unfold bind. rewrite Hs1. exists s1, r1.
    assert (Hsaved : saved now (model_validate o) s
              = (assign_update now o (model_validate o),
                 {| table := List.map (replace_row (assign_update now o (model_validate o)))
                                      (table s);
                    log := (log s ++ [EvCommit])%list |})).
    { unfold saved. cbn [id model_validate]. by rewrite Hl. }
    rewrite Hsaved in Hids1, Hmv1. cbn [fst snd table] in Hids1, Hmv1.
    rewrite map_id_replace in Hids1.
    split; [by destruct (fst (evaluate now (filters pf) (model_validate o)))|].
    split; [done|]. split; [done|]. split; [exact Hl1|].
    split; [by rewrite Hst1; destruct (fst (evaluate now (filters pf) (model_validate o)))|].
    split; [by rewrite Hmv1|exact Hframe1].
Qed.

(** The loop over rows with distinct ids, each stored as the loop has it. *)
Lemma filter_loop_settles (now : Z) (pf : PrefilterService) (todo : list ListingORM) :
  forall (t : tally) (s : session),
    pk_unique (table s) ->
    List.NoDup (List.map orm_id todo) ->
    (forall o, In o todo -> lookup_id (orm_id o) (table s) = Some o) ->
    exists t' s',
      filter_loop now pf todo t s = Ok t' s'
      /\ pk_unique (table s')
      /\ List.map orm_id (table s') = List.map orm_id (table s)
      /\ (forall o, In o todo -> exists r',
            lookup_id (orm_id o) (table s') = Some r'
            /\ orm_status r' = outcome now pf o
            /\ model_validate r' = model_validate o)
      /\ (forall x, ~ In x (List.map orm_id todo) ->
            lookup_id x (table s') = lookup_id x (table s))
      /\ passed t' = (length (List.filter (counts_passed now pf) todo) + passed t)%nat
      /\ failed t' = (length (List.filter (counts_failed now pf) todo) + failed t)%nat
      /\ skipped_sold t'
         = (length (List.filter counts_sold todo) + skipped_sold t)%nat.
Proof.
  induction todo as [|o todo IH]; intros t s Hpk Hnd Hlook.
  - exists t, s. by repeat split.
  - cbn [List.map] in Hnd. apply List.NoDup_cons_iff in Hnd as [Ho Hnd].
    destruct (filter_loop_step now pf o todo t s Hpk (Hlook o (or_introl eq_refl)))
      as (s1 & r1 & -> & Hpk1 & Hids1 & Hl1 & Hst1 & Hmv1 & Hframe1).
    assert (Hlook1 : forall o', In o' todo -> lookup_id (orm_id o') (table s1) = Some o').
    { intros o' Ho'. rewrite Hframe1; [apply Hlook; by right|].
      intros E. apply Ho. rewrite <- E. by apply in_map. }
    destruct (IH {| passed := (if counts_passed now pf o then 1 else 0) + passed t;
                    failed := (if counts_failed now pf o then 1 else 0) + failed t;
                    skipped_sold := (if counts_sold o then 1 else 0) + skipped_sold t |}
                 s1 Hpk1 Hnd Hlook1)
      as (t' & s' & Hs' & Hpk' & Hids' & Hrows' & Hframe' & Hp' & Hf' & Hk').
    cbn [passed failed skipped_sold] in Hp', Hf', Hk'.
    exists t', s'. split; [exact Hs'|]. split; [exact Hpk'|].
    split; [by rewrite Hids'|].
    split.
    { intros o' [<-|Ho']; [|by apply Hrows'].
      exists r1. by rewrite (Hframe' _ Ho). }
    split.
    { intros x Hx. rewrite Hframe'; [apply Hframe1|]; intros E; apply Hx;
        [left; congruence|by right]. }
    cbn [List.filter].
    destruct (counts_passed now pf o), (counts_failed now pf o), (counts_sold o);
      cbn [length]; lia.
Qed.

(** The rows [get_by_status] hands to the loop meet what the loop needs. *)
Lemma filter_rows_ready (p : ListingORM -> bool) (s : session) :
  pk_unique (table s) ->
  List.NoDup (List.map orm_id (List.filter p (table s)))
  /\ (forall o, In o (List.filter p (table s)) ->
        lookup_id (orm_id o) (table s) = Some o).
Proof.
  intros Hpk. split; [by apply filter_ids_nodup|].
  intros o Ho. apply filter_In in Ho as [Ho _]. by apply lookup_id_in.
Qed.

(** What the loop on the rows of a status leaves of a table. *)
Lemma filter_pass_settles (now : Z) (pf : PrefilterService) (s : session) :
  pk_unique (table s) ->
  let todo := List.filter (fun r => status_eqb (orm_status r) NEW) (table s) in
  exists t s',
    filter_loop now pf todo {| passed := 0; failed := 0; skipped_sold := 0 |} s = Ok t s'
    /\ pk_unique (table s')
    /\ List.map orm_id (table s') = List.map orm_id (table s)
    /\ (forall r, In r (table s) -> orm_status r = NEW ->
          exists r', lookup_id (orm_id r) (table s') = Some r'
                     /\ orm_status r' = outcome now pf r
                     /\ model_validate r' = model_validate r)
    /\ (forall r, In r (table s) -> orm_status r <> NEW ->
          lookup_id (orm_id r) (table s') = Some r)
    /\ passed t = length (List.filter (counts_passed now pf) todo)
    /\ failed t = length (List.filter (counts_failed now pf) todo)
    /\ skipped_sold t = length (List.filter counts_sold todo).
Proof.
  intros Hpk todo.
  destruct (filter_rows_ready (fun r => status_eqb (orm_status r) NEW) s Hpk)
    as [Hnd Hlook].
  destruct (filter_loop_settles now pf todo
              {| passed := 0; failed := 0; skipped_sold := 0 |} s Hpk Hnd Hlook)
    as (t & s' & Hs' & Hpk' & Hids' & Hrows' & Hframe' & Hp' & Hf' & Hk').
  cbn [passed failed skipped_sold] in Hp', Hf', Hk'.
  exists t, s'. split; [exact Hs'|]. split; [exact Hpk'|]. split; [exact Hids'|].
  split.
  { intros r Hin Hst. apply Hrows'. apply filter_In. split; [done|].
    by apply status_eqb_eq. }
  split.
  { intros r Hin Hst. rewrite Hframe'; [by apply lookup_id_in|].
    intros Hx. apply in_map_iff in Hx as (o & Hid & Ho).
    apply filter_In in Ho as [Ho Hso]. apply status_eqb_eq in Hso.
    assert (o = r); [|congruence].
    pose proof (lookup_id_in _ _ Hpk Ho) as H1.
    pose proof (lookup_id_in _ _ Hpk Hin) as H2. congruence. }
  split; [lia|]. split; lia.
Qed.

(** The three branches of an iteration exclude each other and leave
    nothing out. *)
Lemma counts_partition (now : Z) (pf : PrefilterService) (todo : list ListingORM) :
  (length (List.filter (counts_passed now pf) todo)
   + length (List.filter (counts_failed now pf) todo)
   + length (List.filter counts_sold todo))%nat
  = length todo.
Proof.
  induction todo as [|o todo IH]; [done|]. cbn [List.filter].
  unfold counts_passed, counts_failed, counts_sold in *.
  destruct (is_sold (model_validate o)),
           (fst (evaluate now (filters pf) (model_validate o)));
    cbn [negb andb length]; lia.
Qed.

Lemma outcome_settled (now : Z) (pf : PrefilterService) (r : ListingORM) :
  outcome now pf r <> NEW.
Proof. unfold outcome. by destruct (counts_passed now pf r). Qed.

(** X12.  [filter_command] ends normally.  Every row that was NEW ends in
    PREFILTER_PASS when its title has no "sold" in it and [evaluate]
    passes it, and in PREFILTER_FAIL otherwise, with its listing fields as
    they were; every other row is left as it is; so no row is NEW
    afterwards.  The three counters are the numbers of NEW rows of the
    three branches, and add up to the number of NEW rows. *)
Theorem filter_command_settles_new_rows (now max_price : Z) (s : session) :
  pk_unique (table s) ->
  let pf := new_PrefilterService (Some (make_filter max_price)) in
  let todo := List.filter (fun r => status_eqb (orm_status r) NEW) (table s) in
  exists t s',
    filter_command now max_price s = Ok t s'
    /\ List.map orm_id (table s') = List.map orm_id (table s)
    /\ (forall r, In r (table s) -> orm_status r = NEW ->
          exists r', lookup_id (orm_id r) (table s') = Some r'
                     /\ orm_status r' = outcome now pf r
                     /\ model_validate r' = model_validate r)
    /\ (forall r, In r (table s) -> orm_status r <> NEW ->
          lookup_id (orm_id r) (table s') = Some r)
    /\ (forall r', In r' (table s') -> orm_status r' <> NEW)
    /\ passed t = length (List.filter (counts_passed now pf) todo)
    /\ failed t = length (List.filter (counts_failed now pf) todo)
    /\ skipped_sold t = length (List.filter counts_sold todo)
    /\ (passed t + failed t + skipped_sold t)%nat = length todo.
Proof.
  intros Hpk pf todo.
  destruct (filter_pass_settles now pf s Hpk)
    as (t & s' & Hs' & Hpk' & Hids' & Hnew & Hold & Hp & Hf & Hk).
  exists t, s'.
  split.
  { unfold filter_command, bind, get_by_status, select_where, ret. cbv zeta.
    exact Hs'. }
  split; [exact Hids'|]. split; [exact Hnew|]. split; [exact Hold|].
  split.
  { intros r' Hin' Hst'.
    assert (Hid : In (orm_id r') (List.map orm_id (table s))).
    { rewrite <- Hids'. by apply in_map. }
    apply in_map_iff in Hid as (r & Hid & Hin).
    pose proof (lookup_id_in _ _ Hpk' Hin') as Hl'. rewrite <- Hid in Hl'.
    destruct (status_eqb (orm_status r) NEW) eqn:E.
    - apply status_eqb_eq in E.
      destruct (Hnew r Hin E) as (r2 & Hl2 & Hst2 & _).
      assert (r2 = r') by congruence. subst r2.
      apply (outcome_settled now pf r). congruence.
    - assert (Hne : orm_status r <> NEW).
      { intros H. apply status_eqb_eq in H. congruence. }
      pose proof (Hold r Hin Hne) as Hl2.
      assert (r = r') by congruence. by subst r'. }
  split; [exact Hp|]. split; [exact Hf|]. split; [exact Hk|].
  rewrite Hp, Hf, Hk. apply counts_partition.
Qed.

Lemma filter_command_settles_new_rows_witness :
  pk_unique (table sample_store)
  /\ exists t s',
       filter_command 5 1000000 sample_store = Ok t s'
       /\ (forall r', In r' (table s') -> orm_status r' <> NEW)
       /\ (passed t + failed t + skipped_sold t)%nat = 2%nat.
Proof.
  assert (Hpk : pk_unique (table sample_store)).
  { unfold pk_unique. simpl.
    repeat (constructor; [simpl; intuition discriminate|]).
    constructor. }
  split; [exact Hpk|].
  destruct (filter_command_settles_new_rows 5 1000000 sample_store Hpk)
    as (t & s' & Hs & _ & _ & _ & Hnone & _ & _ & _ & Hsum).
  exists t, s'. split; [exact Hs|]. split; [exact Hnone|exact Hsum].
Defined.


Lemma filter_reset_row (now : Z) (p : ListingORM -> bool) (t : list ListingORM) :
  (forall r, p (reset_row now r) = p r) ->
  length (List.filter p (List.map (reset_row now) t)) = length (List.filter p t).
Proof.
  intros Hp. induction t as [|a t IH]; [done|]. cbn [List.map List.filter].
  rewrite Hp. destruct (p a); cbn [length]; by rewrite IH.
Qed.

Lemma filter_all (A : Type) (p : A -> bool) (t : list A) :
  (forall a, In a t -> p a = true) -> List.filter p t = t.
Proof.
  induction t as [|a t IH]; intros H; [done|]. cbn [List.filter].
  rewrite (H a (or_introl eq_refl)). f_equal. apply IH. intros b Hb. apply H. by right.
Qed.

(** X13.  [reset_and_filter] ends normally and decides every row again,
    whatever its status was: the row ends in PREFILTER_PASS when its
    title has no "sold" in it and [evaluate] with the default filter
    passes it, and in PREFILTER_FAIL otherwise, with its listing fields as
    they were.  The two numbers it returns are the passed and the failed
    rows; together with the rows with "sold" in the title, which it does
    not count, they are all the rows. *)
Theorem reset_and_filter_decides_every_row (now : Z) (s : session) :
  pk_unique (table s) ->
  let pf := new_PrefilterService (Some default_filter) in
  exists c s',
    reset_and_filter now s = Ok c s'
    /\ List.map orm_id (table s') = List.map orm_id (table s)
    /\ (forall r, In r (table s) ->
          exists r', lookup_id (orm_id r) (table s') = Some r'
                     /\ orm_status r' = outcome now pf r
                     /\ model_validate r' = model_validate r)
    /\ fst c = length (List.filter (counts_passed now pf) (table s))
    /\ snd c = length (List.filter (counts_failed now pf) (table s))
    /\ (fst c + snd c + length (List.filter counts_sold (table s)))%nat
       = length (table s).
Proof.
  intros Hpk pf.
  set (s0 := {| table := List.map (reset_row now) (table s);
                log := (log s ++ [EvCommit])%list |}).
  assert (Hids : List.map orm_id (table s0) = List.map orm_id (table s)).
  { cbn [table s0]. rewrite List.map_map. by apply List.map_ext. }
  assert (Hpk0 : pk_unique (table s0)) by (unfold pk_unique; by rewrite Hids).
  assert (Hall : List.filter (fun r => status_eqb (orm_status r) NEW) (table s0)
                 = table s0).
  { apply filter_all. cbn [table s0]. intros a Ha.
    apply in_map_iff in Ha as (r & <- & _). reflexivity. }
  destruct (filter_pass_settles now pf s0 Hpk0)
    as (t & s' & Hs' & Hpk' & Hids' & Hnew & _ & Hp & Hf & Hk).
  rewrite Hall in Hs', Hp, Hf, Hk. cbn [table s0] in Hp, Hf, Hk.
  rewrite filter_reset_row in Hp, Hf, Hk by reflexivity.
  exists (passed t, failed t), s'.
  split.
  { assert (Hg : get_by_status NEW None s0 = Ok (table s0) s0).
    { unfold get_by_status, bind, select_where, ret. by rewrite Hall. }
    unfold reset_and_filter, bind, reset_all. cbv zeta.
    change {| table := List.map (fun r => set_last_updated_at (set_status r NEW) now)
                                (table s);
              log := (log s ++ [EvCommit])%list |} with s0.
    fold pf. by rewrite Hg, Hs'. }
  split; [by rewrite Hids'|].
  split.
  { intros r Hin.
    destruct (Hnew (reset_row now r)) as (r' & Hl' & Hst' & Hmv');
      [cbn [table s0]; by apply in_map|reflexivity|].
    by exists r'. }
  cbn [fst snd]. split; [exact Hp|]. split; [exact Hf|].
  rewrite Hp, Hf. apply counts_partition.
Qed.

Lemma reset_and_filter_decides_every_row_witness :
  pk_unique (table sample_store)
  /\ exists c s',
       reset_and_filter 5 sample_store = Ok c s'
       /\ (exists r', lookup_id "seek_3" (table s') = Some r'
                      /\ orm_status r' = PREFILTER_FAIL)
       /\ c = (1%nat, 1%nat).
Proof.
  assert (Hpk : pk_unique (table sample_store)).
  { unfold pk_unique. simpl.
    repeat (constructor; [simpl; intuition discriminate|]).
    constructor. }
  split; [exact Hpk|].
  destruct (reset_and_filter_decides_every_row 5 sample_store Hpk)
    as (c & s' & Hs & _ & Hrows & Hp & Hf & _).
  exists c, s'. split; [exact Hs|].
  split.
  { destruct (Hrows (stored "seek_3" "Bookkeeping Firm" (Some 2000000%Z) PREFILTER_PASS))
      as (r' & Hl & Hst & _); [simpl; tauto|].
    exists r'. split; [exact Hl|exact Hst]. }
  destruct c as [p f]. cbn [fst snd] in Hp, Hf. rewrite Hp, Hf. reflexivity.
Defined.






(** Two tables with the same ids in the same order, row by row. *)
Lemma rows_aligned (P : ListingORM -> ListingORM -> Prop) (t : list ListingORM) :
  forall t',
    List.map orm_id t' = List.map orm_id t ->
    (forall r r', In r t -> In r' t' -> orm_id r' = orm_id r -> P r r') ->
    List.Forall2 P t t'.
Proof.
  induction t as [|r t IH]; intros [|r' t'] Hids HP; try discriminate Hids.
  - constructor.
  - cbn [List.map] in Hids. injection Hids as Hid Hids.
    constructor; [apply HP; by (left + idtac)|].
    apply IH; [done|]. intros a a' Ha Ha'. apply HP; by right.
Qed.

(** The rows in PREFILTER_PASS after a pass over the NEW rows: those
    that were, and the NEW rows that passed. *)
Lemma count_candidates (now : Z) (pf : PrefilterService) (t t' : list ListingORM) :
  List.Forall2 (fun r r' =>
                  (orm_status r = NEW -> orm_status r' = outcome now pf r)
                  /\ (orm_status r <> NEW -> r' = r)) t t' ->
  length (List.filter (fun r => status_eqb (orm_status r) PREFILTER_PASS) t')
  = (length (List.filter (fun r => status_eqb (orm_status r) PREFILTER_PASS) t)
     + length (List.filter (counts_passed now pf)
                 (List.filter (fun r => status_eqb (orm_status r) NEW) t)))%nat.
Proof.
  induction 1 as [|r r' t t' [Hnew Hold] _ IH]; [done|].
  cbn [List.filter].
  destruct (status_eqb (orm_status r) NEW) eqn:En.
  - apply status_eqb_eq in En. rewrite (Hnew En), En. cbn [status_eqb List.filter].
    unfold outcome. change (status_eqb NEW PREFILTER_PASS) with false.
    destruct (counts_passed now pf r);
      [change (status_eqb PREFILTER_PASS PREFILTER_PASS) with true
      |change (status_eqb PREFILTER_FAIL PREFILTER_PASS) with false];
      cbn [length]; lia.
  - assert (Hne : orm_status r <> NEW).
    { intros H. apply status_eqb_eq in H. congruence. }
    rewrite (Hold Hne).
    destruct (status_eqb (orm_status r) PREFILTER_PASS); cbn [length]; lia.
Qed.

(** X22.  The candidates after [filter_command] are the candidates
    before it and the NEW rows that passed: every row that
    [get_candidates] returned before is returned after, and their number
    grows by the counter [passed]. *)
Theorem candidates_after_filter (now max_price : Z) (s : session) :
  pk_unique (table s) ->
  let pf := new_PrefilterService (Some (make_filter max_price)) in
  exists before t s' after,
    get_candidates pf None s = Ok before s
    /\ filter_command now max_price s = Ok t s'
    /\ get_candidates pf None s' = Ok after s'
    /\ length after = (length before + passed t)%nat
    /\ (forall r, In r before -> In r after).
Proof.
  intros Hpk pf.
  destruct (filter_pass_settles now pf s Hpk)
    as (t & s' & Hs' & Hpk' & Hids' & Hnew & Hold & Hp & _ & _).
  exists (List.filter (fun r => status_eqb (orm_status r) PREFILTER_PASS) (table s)),
         t, s',
         (List.filter (fun r => status_eqb (orm_status r) PREFILTER_PASS) (table s')).
  split; [done|].
  split.
  { unfold filter_command, bind, get_by_status, select_where, ret. cbv zeta.
    exact Hs'. }
  split; [done|].
  split.
  - rewrite Hp. apply count_candidates. apply rows_aligned; [exact Hids'|].
    intros r r' Hin Hin' Hid.
    pose proof (lookup_id_in _ _ Hpk' Hin') as Hl'. rewrite Hid in Hl'.
    split.
    + intros Hst. destruct (Hnew r Hin Hst) as (r2 & Hl2 & Hst2 & _). congruence.
    + intros Hst. pose proof (Hold r Hin Hst). congruence.
  - intros r Hr. apply filter_In in Hr as [Hin Hst]. apply filter_In.
    split; [|exact Hst].
    assert (Hne : orm_status r <> NEW).
    { apply status_eqb_eq in Hst. congruence. }
    by destruct (lookup_id_some _ _ _ (Hold r Hin Hne)).
Qed.

Lemma candidates_after_filter_witness :
  pk_unique (table sample_store)
  /\ exists before t s' after,
       get_candidates (new_PrefilterService (Some (make_filter 1000000))) None sample_store
       = Ok before sample_store
       /\ filter_command 5 1000000 sample_store = Ok t s'
       /\ get_candidates (new_PrefilterService (Some (make_filter 1000000))) None s'
          = Ok after s'
       /\ length after = (length before + passed t)%nat.
Proof.
  assert (Hpk : pk_unique (table sample_store)).
  { unfold pk_unique. simpl.
    repeat (constructor; [simpl; intuition discriminate|]).
    constructor. }
  split; [exact Hpk|].
  destruct (candidates_after_filter 5 1000000 sample_store Hpk)
    as (before & t & s' & after & Hb & Hs & Ha & Hlen & _).
  exists before, t, s', after.
  split; [exact Hb|]. split; [exact Hs|]. split; [exact Ha|exact Hlen].
Defined.

End CliMore.

(* ===================================================================== *)
(** ** fetchers/seek.py: what a run yields, and the retries *)
(* ===================================================================== *)

Module SeekMore.
Import PyStr Listing Seek SeekFacts.
Local Open Scope fetch_scope.


Ltac proj :=
  cbn [script self vars trace _browser _context pages_made
       page fetched skipped consecutive_failures page_num].

Tactic Notation "proj" "in" hyp(H) :=
  cbn [script self vars trace _browser _context pages_made
       page fetched skipped consecutive_failures page_num] in H.

Section Yields.
Variable parse_datetime : string -> option datetime.
Variable extract_title : string -> option string.












Lemma loads_app (a b : list event) : loads (a ++ b) = (loads a + loads b)%nat.
Proof. unfold loads. by rewrite List.filter_app, List.length_app. Qed.

Lemma rate_limit_sleeps_app (a b : list event) :
  rate_limit_sleeps (a ++ b) = (rate_limit_sleeps a + rate_limit_sleeps b)%nat.
Proof. unfold rate_limit_sleeps. by rewrite List.filter_app, List.length_app. Qed.

(** The attempts of [_fetch_list_page] by a live page, from any one of
    them on. *)
Lemma list_page_attempts_retries (p : nat) (url : string) (todo : nat) :
  forall (attempt : nat) (s : state),
    (attempt + todo = 4)%nat ->
    _context (self s) = Some p ->
    exists s' ev,
      list_page_attempts todo attempt p url s
      = Ok (first_loaded (firstn todo (script s))) s'
      /\ self s' = self s /\ vars s' = vars s
      /\ trace s' = (trace s ++ ev)%list
      /\ script s' = skipn (loads ev) (script s)
      /\ (loads ev <= todo)%nat
      /\ (0 < todo -> 1 <= loads ev)%nat
      /\ (first_loaded (firstn todo (script s)) = [] -> loads ev = todo).
Proof.
  induction todo as [|todo IH]; intros attempt s Hatt Hctx.
  - exists s, []. cbn. rewrite app_nil_r. repeat split; try done; lia.
  - destruct s as [scr [br ctx pm] v tr]. proj in Hctx. subst ctx.
    cbn [list_page_attempts]. proj.
    set (s1 := {| script := tail scr;
                  self := {| _browser := br; _context := Some p; pages_made := pm |};
                  vars := v; trace := (tr ++ [EvGoto url])%list |}).
    assert (Hretry : first_loaded (firstn (S todo) scr) = first_loaded (firstn todo (tail scr)) ->
              exists s' ev,
                (if (attempt <? max_retries)%nat
                 then sleep (3 * Z.of_nat attempt) 0 2 ;;;
                      list_page_attempts todo (S attempt) p url
                 else ret []) s1
                = Ok (first_loaded (firstn (S todo) scr)) s'
                /\ self s' = {| _browser := br; _context := Some p; pages_made := pm |}
                /\ vars s' = v
                /\ trace s' = (tr ++ ev)%list
                /\ script s' = skipn (loads ev) scr
                /\ (loads ev <= S todo)%nat
                /\ (0 < S todo -> 1 <= loads ev)%nat
                /\ (first_loaded (firstn (S todo) scr) = [] -> loads ev = S todo)).
    { intros Hfirst. rewrite Hfirst.
      destruct (attempt <? max_retries)%nat eqn:E.
      - unfold bind, sleep, emit. proj.
        match goal with
        | |- context [list_page_attempts _ _ _ _ ?st] =>
            destruct (IH (S attempt) st) as (s' & ev & -> & Hself & Hv & Ht & Hsc & Hle & Hpos & Hnone);
              [lia|reflexivity|]
        end.
        unfold s1 in Hself, Hv, Ht, Hsc, Hnone.
        proj in Hself. proj in Hv. proj in Ht. proj in Hsc. proj in Hnone.
        exists s', (EvGoto url :: EvSleep (3 * Z.of_nat attempt) 0 2 :: ev)%list.
        split; [done|]. split; [done|]. split; [done|].
        split; [by rewrite Ht, <- !app_assoc|].
        change (loads (EvGoto url :: EvSleep (3 * Z.of_nat attempt) 0 2 :: ev))
          with (S (loads ev)).
        split; [rewrite Hsc; by destruct scr; rewrite ?skipn_nil|].
        split; [lia|]. split; [lia|]. intros H. rewrite (Hnone H). done.
      - apply Nat.ltb_ge in E. unfold max_retries in E.
        assert (todo = 0%nat) as -> by lia.
        exists s1, [EvGoto url]. cbn [firstn first_loaded].
        split; [done|]. split; [done|]. split; [done|]. split; [done|].
        split; [by destruct scr|]. split; [cbn; lia|]. split; [cbn; lia|done]. }
    unfold bind at 1, try_, bind at 1, goto. proj. rewrite Nat.eqb_refl.
    destruct scr as [|[|d] rest].
    + apply Hretry. cbn [tail firstn first_loaded]. by rewrite firstn_nil.
    + apply Hretry. reflexivity.
    + fold s1. unfold wait_for_selector.
      destruct (doc_items d) as [|i items] eqn:Ed.
      * unfold raise. apply Hretry. cbn [tail firstn first_loaded list_load_fails].
        by rewrite Ed.
      * unfold bind, ret.
        exists s1, [EvGoto url]. cbn [firstn first_loaded list_load_fails]. rewrite Ed.
        split; [done|]. split; [done|]. split; [done|]. split; [done|].
        split; [done|]. split; [cbn; lia|]. split; [cbn; lia|done].
Qed.

(** X17.  [_fetch_list_page] by a live page returns the result items of the
    first of the next three answers of the site that is a page with
    result items, and the empty list when none of them is.  It loads the
    page once for each answer up to that one, at least once and at most
    three times, and gives up only after three loads. *)
Theorem fetch_list_page_retries (p : nat) (url : string) (s : state) :
  _context (self s) = Some p ->
  exists s' ev,
    _fetch_list_page p url s = Ok (first_loaded (firstn 3 (script s))) s'
    /\ self s' = self s
    /\ vars s' = vars s
    /\ trace s' = (trace s ++ ev)%list
    /\ script s' = skipn (loads ev) (script s)
    /\ (1 <= loads ev <= 3)%nat
    /\ (first_loaded (firstn 3 (script s)) = [] -> loads ev = 3%nat).
Proof.
  intros Hctx.
  destruct (list_page_attempts_retries p url 3 1 s eq_refl Hctx)
    as (s' & ev & Hs' & Hself & Hv & Ht & Hsc & Hle & Hpos & Hnone).
  exists s', ev. split; [exact Hs'|]. split; [done|]. split; [done|].
  split; [done|]. split; [done|]. split; [lia|done].
Qed.


Lemma loads_attempt (url : string) (b h : Z) (ev : list event) :
  loads (EvSleep 0 1 3 :: EvGoto url :: EvSleep b 0 h :: ev) = S (loads ev)
  /\ rate_limit_sleeps (EvSleep 0 1 3 :: EvGoto url :: EvSleep b 0 h :: ev)
     = S (rate_limit_sleeps ev).
Proof. split; [reflexivity|]. unfold rate_limit_sleeps. cbn. by destruct b. Qed.

(** The attempts of [_fetch_detail_page] by a live page, from any one
    of them on. *)
Lemma detail_page_attempts_retries (p : nat) (url : string) (todo : nat) :
  forall (attempt : nat) (s : state),
    (attempt + todo = 4)%nat ->
    _context (self s) = Some p ->
    exists res s' ev,
      detail_page_attempts extract_title todo attempt p url s = Ok res s'
      /\ self s' = self s /\ vars s' = vars s
      /\ trace s' = (trace s ++ ev)%list
      /\ script s' = skipn (loads ev) (script s)
      /\ (loads ev <= todo)%nat
      /\ (0 < todo -> 1 <= loads ev)%nat
      /\ rate_limit_sleeps ev = loads ev
      /\ (forall r, In r (firstn (loads ev - 1) (script s)) -> retryable r = true)
      /\ (0 < todo -> res = detail_of extract_title url
                              (nth_error (script s) (loads ev - 1)))
      /\ ((loads ev < todo)%nat -> settles (nth_error (script s) (loads ev - 1))).
Proof.
  induction todo as [|todo IH]; intros attempt s Hatt Hctx.
  - exists detail_failure, s, []. cbn. rewrite app_nil_r.
    repeat split; try done; lia.
  - destruct s as [scr [br ctx pm] v tr]. proj in Hctx. subst ctx.
    cbn [detail_page_attempts]. proj.
    set (s1 := {| script := tail scr;
                  self := {| _browser := br; _context := Some p; pages_made := pm |};
                  vars := v;
                  trace := ((tr ++ [EvSleep 0 1 3]) ++ [EvGoto url])%list |}).
    (* the last attempt, or an attempt whose answer settles the matter *)
    assert (Hstop : forall res,
              res = detail_of extract_title url (nth_error scr 0) ->
              (todo = 0%nat \/ settles (nth_error scr 0)) ->
              exists res' s' ev,
                Ok res s1 = Ok res' s'
                /\ self s' = {| _browser := br; _context := Some p; pages_made := pm |}
                /\ vars s' = v
                /\ trace s' = (tr ++ ev)%list
                /\ script s' = skipn (loads ev) scr
                /\ (loads ev <= S todo)%nat
                /\ (0 < S todo -> 1 <= loads ev)%nat
                /\ rate_limit_sleeps ev = loads ev
                /\ (forall r, In r (firstn (loads ev - 1) scr) -> retryable r = true)
                /\ (0 < S todo -> res' = detail_of extract_title url
                                           (nth_error scr (loads ev - 1)))
                /\ ((loads ev < S todo)%nat -> settles (nth_error scr (loads ev - 1)))).
    { intros res Hres Hlast. exists res, s1, [EvSleep 0 1 3; EvGoto url].
      split; [done|]. split; [done|]. split; [done|].
      split; [unfold s1; proj; by rewrite <- app_assoc|].
      change (loads [EvSleep 0 1 3; EvGoto url]) with 1%nat.
      change (rate_limit_sleeps [EvSleep 0 1 3; EvGoto url]) with 1%nat.
      cbn [Nat.sub firstn].
      split; [by destruct scr|]. split; [lia|]. split; [lia|]. split; [done|].
      split; [by intros r []|]. split; [done|].
      intros Hlt. destruct Hlast as [->|H]; [lia|done]. }
    (* an attempt with a retryable answer and another attempt left *)
    assert (Hretry : forall b h,
              (attempt <? max_retries)%nat = true ->
              (forall r, nth_error scr 0 = Some r -> retryable r = true) ->
              exists res' s' ev,
                (sleep b 0 h ;;; detail_page_attempts extract_title todo (S attempt) p url) s1
                = Ok res' s'
                /\ self s' = {| _browser := br; _context := Some p; pages_made := pm |}
                /\ vars s' = v
                /\ trace s' = (tr ++ ev)%list
                /\ script s' = skipn (loads ev) scr
                /\ (loads ev <= S todo)%nat
                /\ (0 < S todo -> 1 <= loads ev)%nat
                /\ rate_limit_sleeps ev = loads ev
                /\ (forall r, In r (firstn (loads ev - 1) scr) -> retryable r = true)
                /\ (0 < S todo -> res' = detail_of extract_title url
                                           (nth_error scr (loads ev - 1)))
                /\ ((loads ev < S todo)%nat -> settles (nth_error scr (loads ev - 1)))).
    { intros b h E Hhead. apply Nat.ltb_lt in E. unfold max_retries in E.
      unfold bind, sleep, emit. unfold s1. proj.
      match goal with
      | |- context [detail_page_attempts _ _ _ _ _ ?st] =>
          destruct (IH (S attempt) st)
            as (res' & s' & ev & -> & Hself & Hv & Ht & Hsc & Hle & Hpos & Hrate
                & Hpre & Hres & Hset); [lia|reflexivity|]
      end.
      proj in Hself. proj in Hv. proj in Ht. proj in Hsc. proj in Hpre.
      proj in Hres. proj in Hset.
      assert (Htodo : (0 < todo)%nat) by lia.
      specialize (Hpos Htodo). specialize (Hres Htodo).
      destruct (loads ev) as [|k] eqn:Ek; [lia|].
      cbn [Nat.sub] in Hpre, Hres, Hset. rewrite Nat.sub_0_r in Hpre, Hres, Hset.
      exists res', s', (EvSleep 0 1 3 :: EvGoto url :: EvSleep b 0 h :: ev)%list.
      destruct (loads_attempt url b h ev) as [-> ->]. rewrite Hrate, Ek.
      cbn [Nat.sub].
      split; [done|]. split; [done|]. split; [done|].
      split; [by rewrite Ht, <- !app_assoc|].
      split; [rewrite Hsc; by destruct scr; rewrite ?skipn_nil|].
      split; [lia|]. split; [lia|]. split; [done|].
      split.
      { destruct scr as [|r0 rest]; [by intros r []|].
        cbn [firstn tail] in *. intros r [<-|Hr]; [by apply Hhead|by apply Hpre]. }
      split.
      { intros _. rewrite Hres. by destruct scr; [destruct k|]. }
      intros Hlt. assert (Hk : (S k < todo)%nat) by lia.
      specialize (Hset Hk). by destruct scr; [destruct k|]. }
    unfold bind at 1, try_, bind at 1, sleep, emit, goto. proj. rewrite Nat.eqb_refl.
    fold s1.
    destruct scr as [|[|d] rest].
    + destruct (attempt <? max_retries)%nat eqn:E.
      * by apply Hretry.
      * apply Nat.ltb_ge in E. unfold max_retries in E.
        apply Hstop; [done|left; lia].
    + destruct (attempt <? max_retries)%nat eqn:E.
      * apply Hretry; [done|]. by intros r [= <-].
      * apply Nat.ltb_ge in E. unfold max_retries in E.
        apply Hstop; [done|left; lia].
    + cbn [nth_error detail_of] in Hstop.
      destruct (title_is_sold (doc_title d)) eqn:Esold.
      * apply Hstop; [done|]. right. exists d. split; [done|].
        cbn [retryable]. by rewrite Esold.
      * destruct (_is_blocked_page (doc_title d)) eqn:Eblocked.
        -- destruct (attempt <? max_retries)%nat eqn:E.
           ++ apply Hretry; [done|]. intros r [= <-].
              cbn [retryable]. by rewrite Esold, Eblocked.
           ++ apply Nat.ltb_ge in E. unfold max_retries in E.
              apply Hstop; [done|left; lia].
        -- apply Hstop; [done|]. right. exists d. split; [done|].
           cbn [retryable]. by rewrite Esold, Eblocked.
Qed.

(** X18.  [_fetch_detail_page] by a live page loads the page at least once
    and at most three times, each time after a rate-limit sleep.  Every
    answer before the last one it used was a failed load or a blocked
    page; its result is made of the last one; and it stops before the
    third load only at a page that is sold or not blocked. *)
Theorem fetch_detail_page_retries (p : nat) (url : string) (s : state) :
  _context (self s) = Some p ->
  exists res s' ev,
    _fetch_detail_page extract_title p url s = Ok res s'
    /\ self s' = self s
    /\ vars s' = vars s
    /\ trace s' = (trace s ++ ev)%list
    /\ script s' = skipn (loads ev) (script s)
    /\ (1 <= loads ev <= 3)%nat
    /\ rate_limit_sleeps ev = loads ev
    /\ (forall r, In r (firstn (loads ev - 1) (script s)) -> retryable r = true)
    /\ res = detail_of extract_title url (nth_error (script s) (loads ev - 1))
    /\ ((loads ev < 3)%nat -> settles (nth_error (script s) (loads ev - 1))).
Proof.
  intros Hctx.
  destruct (detail_page_attempts_retries p url 3 1 s eq_refl Hctx)
    as (res & s' & ev & Hs' & Hself & Hv & Ht & Hsc & Hle & Hpos & Hrate
        & Hpre & Hres & Hset).
  exists res, s', ev. split; [exact Hs'|]. split; [done|]. split; [done|].
  split; [done|]. split; [done|]. split; [lia|]. split; [done|].
  split; [done|]. split; [apply Hres; lia|done].
Qed.

(** One attempt of [_fetch_detail_page] that meets a blocked page. *)
Lemma detail_attempt_blocked (todo attempt p : nat) (url : string) (s : state)
                             (d : document) (answers : list response) :
  _context (self s) = Some p ->
  script s = Page d :: answers ->
  retryable (Page d) = true ->
  detail_page_attempts extract_title (S todo) attempt p url s
  = if (attempt <? max_retries)%nat
    then detail_page_attempts extract_title todo (S attempt) p url
           {| script := answers; self := self s; vars := vars s;
              trace := (trace s ++ [EvSleep 0 1 3; EvGoto url;
                                    EvSleep (5 * Z.of_nat attempt) 0 3])%list |}
    else Ok (extract_title url, doc_description d, doc_posted_relative d,
             doc_posted_calculated d, doc_structured_data d)
            {| script := answers; self := self s; vars := vars s;
               trace := (trace s ++ [EvSleep 0 1 3; EvGoto url])%list |}.
Proof.
  destruct s as [scr [br ctx pm] v tr]. proj. intros -> -> H.
  cbn [retryable] in H. apply andb_prop in H as [Hs Hb].
  apply negb_true_iff in Hs.
  cbn [detail_page_attempts].
  unfold bind at 1, try_, bind at 1, sleep, emit, goto. proj.
  rewrite Nat.eqb_refl, Hs, Hb.
  destruct (attempt <? max_retries)%nat; unfold bind, sleep, emit, ret; proj;
    cbn [tail]; by rewrite <- !app_assoc.
Qed.

(** X19.  A detail page that is blocked on all three attempts: the two waits
    between them are of 5 and of 10 seconds plus up to 3, and the result
    has the title read from the address and, from the blocked page of the
    third attempt, its description, dates and structured data. *)
Theorem blocked_detail_page_falls_back (p : nat) (url : string) (s : state)
    (d1 d2 d3 : document) (answers : list response) :
  _context (self s) = Some p ->
  script s = Page d1 :: Page d2 :: Page d3 :: answers ->
  retryable (Page d1) = true ->
  retryable (Page d2) = true ->
  retryable (Page d3) = true ->
  _fetch_detail_page extract_title p url s
  = Ok (extract_title url, doc_description d3, doc_posted_relative d3,
        doc_posted_calculated d3, doc_structured_data d3)
       {| script := answers; self := self s; vars := vars s;
          trace := (trace s ++ [EvSleep 0 1 3; EvGoto url; EvSleep 5 0 3;
                                EvSleep 0 1 3; EvGoto url; EvSleep 10 0 3;
                                EvSleep 0 1 3; EvGoto url])%list |}.
Proof.
  intros Hctx Hscr H1 H2 H3.
  unfold _fetch_detail_page, max_retries.
  rewrite (detail_attempt_blocked 2 1 p url s d1 _ Hctx Hscr H1).
  change (1 <? max_retries)%nat with true. cbv iota.
  rewrite detail_attempt_blocked with (d := d2) (answers := Page d3 :: answers);
    [|exact Hctx|reflexivity|exact H2].
  change (2 <? max_retries)%nat with true. cbv iota.
  rewrite detail_attempt_blocked with (d := d3) (answers := answers);
    [|exact Hctx|reflexivity|exact H3].
  change (3 <? max_retries)%nat with false. cbv iota. proj.
  rewrite <- !app_assoc. reflexivity.
Qed.

End Yields.




Lemma fetch_list_page_retries_witness :
  _context (self (started [Fails; search_page six_items])) = Some 0%nat
  /\ exists s' ev,
       _fetch_list_page 0 sample_search_page (started [Fails; search_page six_items])
       = Ok six_items s'
       /\ trace s' = (trace (started [Fails; search_page six_items]) ++ ev)%list
       /\ (1 <= loads ev <= 3)%nat.
Proof.
  split; [reflexivity|].
  destruct (fetch_list_page_retries 0 sample_search_page
              (started [Fails; search_page six_items]) eq_refl)
    as (s' & ev & Hs' & _ & _ & Ht & _ & Hl & _).
  exists s', ev. split; [exact Hs'|]. split; [exact Ht|exact Hl].
Defined.

Lemma fetch_detail_page_retries_witness :
  _context (self (started [Fails; Page (blocked_page None)])) = Some 0%nat
  /\ exists res s' ev,
       _fetch_detail_page no_title 0 "https://www.seekbusiness.com.au/business-listing/1"
         (started [Fails; Page (blocked_page None)]) = Ok res s'
       /\ trace s' = (trace (started [Fails; Page (blocked_page None)]) ++ ev)%list
       /\ (1 <= loads ev <= 3)%nat
       /\ rate_limit_sleeps ev = loads ev.
Proof.
  split; [reflexivity|].
  destruct (fetch_detail_page_retries no_title 0
              "https://www.seekbusiness.com.au/business-listing/1"
              (started [Fails; Page (blocked_page None)]) eq_refl)
    as (res & s' & ev & Hs' & _ & _ & Ht & _ & Hl & Hr & _).
  exists res, s', ev. split; [exact Hs'|]. split; [exact Ht|]. split; [exact Hl|exact Hr].
Defined.

Lemma blocked_detail_page_falls_back_witness :
  _context (self (started [Page (blocked_page None); Page (blocked_page None);
                           Page (blocked_page (Some "Please sign in"))])) = Some 0%nat
  /\ retryable (Page (blocked_page None)) = true
  /\ retryable (Page (blocked_page (Some "Please sign in"))) = true
  /\ exists s',
       _fetch_detail_page no_title 0 "https://www.seekbusiness.com.au/business-listing/1"
         (started [Page (blocked_page None); Page (blocked_page None);
                   Page (blocked_page (Some "Please sign in"))])
       = Ok (None, Some "Please sign in", None, None, PDict []) s'
       /\ script s' = [].
Proof.
  split; [reflexivity|]. split; [reflexivity|]. split; [reflexivity|].
  eexists. split.
  - exact (blocked_detail_page_falls_back no_title 0
             "https://www.seekbusiness.com.au/business-listing/1"
             (started [Page (blocked_page None); Page (blocked_page None);
                       Page (blocked_page (Some "Please sign in"))])
             (blocked_page None) (blocked_page None)
             (blocked_page (Some "Please sign in")) []
             eq_refl eq_refl eq_refl eq_refl eq_refl).
  - reflexivity.
Defined.

End SeekMore.

(* ===================================================================== *)
(** ** daily_run.py: the fetch step on a stored table *)
(* ===================================================================== *)

Module DailyFacts.
Import PyStr Listing Repository Cli Daily RepositoryFacts CliFacts CliMore.
Local Open Scope repo_scope.



Section FetchListings.
Variable parse_datetime : string -> option datetime.
Variable extract_title : string -> option string.


End FetchListings.


End DailyFacts.

(* ===================================================================== *)
(** ** fetchers/base.py: register and get *)
(* ===================================================================== *)

Module RegistryFacts.
Import PyStr Listing Registry.

Lemma dict_lookup_set {V} (k k' : string) (v : V) (d : list (string * V)) :
  dict_lookup k' (dict_set k v d)
  = if String.eqb k k' then Some v else dict_lookup k' d.
Proof.
  induction d as [|[k0 v0] d IH]; cbn [dict_set dict_lookup].
  - by destruct (String.eqb k k').
  - destruct (String.eqb k0 k) eqn:E0; cbn [dict_lookup].
    + apply String.eqb_eq in E0. subst k0. by destruct (String.eqb k k').
    + rewrite IH. destruct (String.eqb k0 k') eqn:E1; [|done].
      apply String.eqb_eq in E1. subst k0. by rewrite String.eqb_sym, E0.
Qed.

Lemma dict_set_keys {V} (k : string) (v : V) (d : list (string * V)) :
  List.map fst (dict_set k v d)
  = if existsb (String.eqb k) (List.map fst d)
    then List.map fst d
    else (List.map fst d ++ [k])%list.
Proof.
  induction d as [|[k0 v0] d IH]; cbn [dict_set List.map fst existsb app]; [done|].
  rewrite (String.eqb_sym k k0).
  destruct (String.eqb k0 k) eqn:E0; cbn [List.map fst orb].
  - apply String.eqb_eq in E0. by subst k0.
  - rewrite IH. by destruct (existsb _ _).
Qed.

Lemma dict_lookup_none {V} (k : string) (d : list (string * V)) :
  dict_lookup k d = None <-> ~ In k (List.map fst d).
Proof.
  induction d as [|[k0 v0] d IH]; cbn [dict_lookup List.map fst In]; [tauto|].
  destruct (String.eqb k0 k) eqn:E0.
  - apply String.eqb_eq in E0. split; [done|]. intros H. destruct H. by left.
  - apply String.eqb_neq in E0. rewrite IH. tauto.
Qed.

(** X21.  [register] and [get] round-trip: after [register(fetcher)], [get]
    of its source name returns this fetcher and [get] of any other name
    returns what it returned before.  A name that was registered keeps
    its place in [list_sources] and a new one goes to the end, so no name
    is listed twice.  [get] raises [KeyError] exactly for the names that
    [list_sources] does not have. *)
Theorem register_get_round_trip {F : Type} (fetcher : ListingFetcher F) (r : registry F) :
  get (source_name fetcher) (register fetcher r) = inl fetcher
  /\ (forall name, name <> source_name fetcher ->
        get name (register fetcher r) = get name r)
  /\ list_sources (register fetcher r)
     = (if existsb (String.eqb (source_name fetcher)) (list_sources r)
        then list_sources r
        else (list_sources r ++ [source_name fetcher])%list)
  /\ (List.NoDup (list_sources r) -> List.NoDup (list_sources (register fetcher r)))
  /\ (forall name, ~ In name (list_sources r)
        <-> get name r = inr (KeyError ("No fetcher registered for source: " ++ name))).
Proof.
  unfold get, register, list_sources.
  split; [by rewrite dict_lookup_set, String.eqb_refl|].
  split.
  { intros name Hne. rewrite dict_lookup_set.
    destruct (String.eqb_spec (source_name fetcher) name); [congruence|done]. }
  split; [apply dict_set_keys|].
  split.
  { intros Hnd. rewrite dict_set_keys.
    destruct (existsb _ _) eqn:E; [done|].
    apply List.NoDup_app; [done|repeat constructor; by intros []|].
    intros x Hx [<-|[]].
    assert (existsb (String.eqb (source_name fetcher)) (List.map fst r) = true);
      [|congruence].
    apply existsb_exists. exists (source_name fetcher).
    split; [done|apply String.eqb_refl]. }
  intros name. rewrite <- dict_lookup_none.
  destruct (dict_lookup name r); split; intros H; congruence.
Qed.

Lemma register_get_round_trip_witness :
  "mock" <> "seekbusiness"
  /\ List.NoDup (list_sources (imported 1%nat 2%nat))
  /\ get "mock" (register {| source_name := "seekbusiness"; impl := 3%nat |}
                          (imported 1%nat 2%nat))
     = inl {| source_name := "mock"; impl := 1%nat |}
  /\ List.NoDup (list_sources (register {| source_name := "seekbusiness"; impl := 3%nat |}
                                        (imported 1%nat 2%nat))).
Proof.
  assert (Hne : "mock" <> "seekbusiness") by discriminate.
  assert (Hnd : List.NoDup (list_sources (imported 1%nat 2%nat))).
  { cbn. repeat (constructor; [simpl; intuition discriminate|]). constructor. }
  split; [exact Hne|]. split; [exact Hnd|].
  destruct (register_get_round_trip {| source_name := "seekbusiness"; impl := 3%nat |}
              (imported 1%nat 2%nat)) as (_ & Hother & _ & Hkeep & _).
  split; [exact (Hother "mock" Hne)|exact (Hkeep Hnd)].
Defined.

End RegistryFacts.
